(** * Verification of [examples/generate_xlsx.py]

    The script builds three example workbooks (financial model, data
    analysis, inventory tracking) with openpyxl and saves them.  This file
    embeds the script in Rocq: Python values, the part of openpyxl's
    worksheet interface the script calls, the global [random] stream, and
    the three [create_*] functions with their literal tables, followed by
    the properties of the generated sheets. *)

From Stdlib Require Import ZArith QArith String Ascii List Lia Bool.
From stdpp Require Import gmap strings list fin_maps.

Local Close Scope Q_scope.
Local Open Scope string_scope.
Local Open Scope list_scope.
Local Open Scope Z_scope.

(** ** Python values *)

(** A float literal of the source, kept as the decimal that is written
    there: [dec 2550 2] is [25.50]. *)
Record pyfloat := dec { dec_digits : Z; dec_scale : nat }.

Inductive pyval :=
| PNone
| PStr (s : string)
| PInt (n : Z)
| PFloat (x : pyfloat).

#[global] Instance pyfloat_eq_dec : EqDecision pyfloat.
Proof. solve_decision. Defined.
#[global] Instance pyval_eq_dec : EqDecision pyval.
Proof. solve_decision. Defined.

(** Truth value of an object in a condition ([if value], [x if label else y]). *)
Definition truthy (v : pyval) : bool :=
  match v with
  | PNone => false
  | PStr s => negb (String.eqb s "")
  | PInt n => negb (n =? 0)
  | PFloat x => negb (dec_digits x =? 0)
  end.

(** [v == s] for a string literal [s]; the script compares cell values
    with string literals only. *)
Definition py_eq_str (v : pyval) (s : string) : bool :=
  match v with
  | PStr t => String.eqb t s
  | _ => false
  end.

(** [v in [s1, s2, ...]] for a list of string literals. *)
Definition py_in_strs (v : pyval) (l : list string) : bool :=
  existsb (py_eq_str v) l.

(** The double quote character, for the formulas that contain string
    literals of their own. *)
Definition dq : string := String (ascii_of_nat 34) EmptyString.

(** [q s] is [s] between double quotes. *)
Definition q (s : string) : string := dq +:+ s +:+ dq.

(** ** Exceptions and results *)

Inductive exn :=
| ValueError
| IndexError
| AttributeError
| ImportError.

Inductive result (A : Type) :=
| Ok (a : A)
| Raise (e : exn).
Arguments Ok {A} a.
Arguments Raise {A} e.

#[global] Instance result_ret : MRet result := fun A a => Ok a.

#[global] Instance result_bind : MBind result := fun A B k r =>
  match r with
  | Ok a => k a
  | Raise e => Raise e
  end.

(** [for i, x in enumerate(l, start=start): body], the loop body acting on
    the state [s] in a monad [M]. *)
Fixpoint for_enumerate {M : Type -> Type} `{!MBind M, !MRet M} {A S : Type}
    (body : Z -> A -> S -> M S) (l : list A) (start : Z) (s : S) : M S :=
  match l with
  | [] => mret s
  | x :: l' => s' ← body start x s; for_enumerate body l' (start + 1) s'
  end.

(** [for x in l: body]. *)
Fixpoint for_each {M : Type -> Type} `{!MBind M, !MRet M} {A S : Type}
    (body : A -> S -> M S) (l : list A) (s : S) : M S :=
  match l with
  | [] => mret s
  | x :: l' => s' ← body x s; for_each body l' s'
  end.

(** [range(a, b)]. *)
Definition range (a b : Z) : list Z := seqZ a (b - a).

(** ** Decimal formatting ([str(i)], [f'{i}'], [f'{i:03d}']) *)

Definition digit_char (d : Z) : ascii := ascii_of_nat (48 + Z.to_nat d).

Fixpoint digits_go (fuel : nat) (n : Z) (acc : string) : string :=
  match fuel with
  | O => acc
  | S fuel' =>
      let acc' := String (digit_char (n mod 10)) acc in
      if n / 10 =? 0 then acc' else digits_go fuel' (n / 10) acc'
  end.

Definition str_int (n : Z) : string :=
  if n <? 0 then "-" +:+ digits_go (S (Z.to_nat (Z.log2 (- n)))) (- n) ""
  else digits_go (S (Z.to_nat (Z.log2 n))) n "".

Fixpoint zeros (k : nat) : string :=
  match k with
  | O => ""
  | S k' => String "0" (zeros k')
  end.

(** [f'{n:0Wd}'] for a non-negative [n]: zero padding on the left up to
    width [w]. *)
Definition fmt_0d (w : nat) (n : Z) : string :=
  let s := str_int n in
  zeros (w - String.length s) +:+ s.

(** ** openpyxl: styles *)

(** [Font(bold=..., size=...)]; the script sets no other attribute. *)
Record Font := mkFont { font_bold : bool; font_size : option Z }.

(** [PatternFill(start_color=..., end_color=..., fill_type=...)]. *)
Record PatternFill := mkFill {
  start_color : string;
  end_color : string;
  fill_type : string
}.

(** The [font] attribute of a cell: the workbook default until assigned,
    then whatever was assigned, which line 163 lets be [None]. *)
Inductive font_attr :=
| FontDefault
| FontNone
| FontSet (f : Font).

#[global] Instance Font_eq_dec : EqDecision Font.
Proof. solve_decision. Defined.
#[global] Instance PatternFill_eq_dec : EqDecision PatternFill.
Proof. solve_decision. Defined.
#[global] Instance font_attr_eq_dec : EqDecision font_attr.
Proof. solve_decision. Defined.

(** ** openpyxl: cells, ranges and worksheets *)

(** A cell of a worksheet.  [c_merged] marks a [MergedCell], the
    placeholder that [merge_cells] puts on every cell of a merged range but
    the top-left one; its value is read-only. *)
Record cell := mkCell {
  c_value : pyval;
  c_font : font_attr;
  c_fill : option PatternFill;
  c_merged : bool
}.

Definition new_cell : cell := mkCell PNone FontDefault None false.
Definition merged_cell : cell := mkCell PNone FontDefault None true.

(** [CellRange]: the boundaries of a rectangular range. *)
Record cell_range := mkRange {
  min_col : Z;
  min_row : Z;
  max_col : Z;
  max_row : Z
}.

#[global] Instance cell_range_eq_dec : EqDecision cell_range.
Proof. solve_decision. Defined.

(** A worksheet: [_cells] keyed by (row, column), the merged ranges in the
    order they were registered, and the column widths by column letter. *)
Record sheet := mkSheet {
  cells : gmap (Z * Z) cell;
  merged_cells : list cell_range;
  column_widths : gmap string Z
}.

Definition empty_sheet : sheet := mkSheet ∅ [] ∅.

(** [ws._get_cell(row, column)] returns the cell, creating it when the
    address is new. *)
Definition get_cell (row col : Z) (sh : sheet) : cell :=
  default new_cell (cells sh !! (row, col)).

Definition put_cell (row col : Z) (c : cell) (sh : sheet) : sheet :=
  mkSheet (<[(row, col) := c]> (cells sh)) (merged_cells sh) (column_widths sh).

(** [cell.value = v]: refused on a [MergedCell]. *)
Definition set_value (v : pyval) (c : cell) : result cell :=
  if c_merged c then Raise AttributeError
  else Ok (mkCell v (c_font c) (c_fill c) (c_merged c)).

(** [ws.cell(row=row, column=col, value=v)]: rows and columns start at 1;
    the cell is created, and the value is assigned only when it is not
    [None]. *)
Definition ws_cell (row col : Z) (v : pyval) (sh : sheet) : result sheet :=
  if (row <? 1) || (col <? 1) then Raise ValueError
  else
    let c := get_cell row col sh in
    match v with
    | PNone => Ok (put_cell row col c sh)
    | _ => c' ← set_value v c; Ok (put_cell row col c' sh)
    end.

(** [ws.cell(row, col).font = f], also [cell.font = f] on the cell that
    [ws.cell] returned. *)
Definition set_font (row col : Z) (f : font_attr) (sh : sheet) : sheet :=
  let c := get_cell row col sh in
  put_cell row col (mkCell (c_value c) f (c_fill c) (c_merged c)) sh.

(** [ws.cell(row, col).fill = p]. *)
Definition set_fill (row col : Z) (p : PatternFill) (sh : sheet) : sheet :=
  let c := get_cell row col sh in
  put_cell row col (mkCell (c_value c) (c_font c) (Some p) (c_merged c)) sh.

(** *** Coordinates *)

Definition is_upper (a : ascii) : bool :=
  let n := Z.of_nat (nat_of_ascii a) in (65 <=? n) && (n <=? 90).

Definition is_digit (a : ascii) : bool :=
  let n := Z.of_nat (nat_of_ascii a) in (48 <=? n) && (n <=? 57).

(** The longest prefix of [s] whose characters satisfy [p], and the rest. *)
Fixpoint span (p : ascii -> bool) (s : string) : string * string :=
  match s with
  | EmptyString => (EmptyString, EmptyString)
  | String a s' =>
      if p a then let '(x, y) := span p s' in (String a x, y)
      else (EmptyString, s)
  end.

Fixpoint column_index_go (s : string) (acc : Z) : Z :=
  match s with
  | EmptyString => acc
  | String a s' => column_index_go s' (acc * 26 + (Z.of_nat (nat_of_ascii a) - 64))
  end.

(** [column_index_from_string]: "A" is 1, "Z" is 26, "AA" is 27. *)
Definition column_index_from_string (s : string) : Z := column_index_go s 0.

Fixpoint int_go (s : string) (acc : Z) : Z :=
  match s with
  | EmptyString => acc
  | String a s' => int_go s' (acc * 10 + (Z.of_nat (nat_of_ascii a) - 48))
  end.

(** A cell address such as [B12] as (row, column). *)
Definition coordinate_to_tuple (s : string) : option (Z * Z) :=
  let '(letters, rest) := span is_upper s in
  let '(digits, tail) := span is_digit rest in
  match letters, digits, tail with
  | String _ _, String _ _, EmptyString =>
      let row := int_go digits 0 in
      if row <? 1 then None
      else Some (row, column_index_from_string letters)
  | _, _, _ => None
  end.

(** The part of [s] before the first [:] and the part after it. *)
Fixpoint split_colon (s : string) : string * option string :=
  match s with
  | EmptyString => (EmptyString, None)
  | String a s' =>
      if Ascii.eqb a ":" then (EmptyString, Some s')
      else let '(x, y) := split_colon s' in (String a x, y)
  end.

(** [range_boundaries] on a range string such as [A7:D7]. *)
Definition range_boundaries (s : string) : option cell_range :=
  match split_colon s with
  | (a, Some b) =>
      match coordinate_to_tuple a, coordinate_to_tuple b with
      | Some (r1, c1), Some (r2, c2) => Some (mkRange c1 r1 c2 r2)
      | _, _ => None
      end
  | (a, None) =>
      match coordinate_to_tuple a with
      | Some (r1, c1) => Some (mkRange c1 r1 c1 r1)
      | None => None
      end
  end.

Fixpoint column_letter_go (fuel : nat) (col : Z) (acc : string) : string :=
  match fuel with
  | O => acc
  | S fuel' =>
      if col <=? 0 then acc
      else
        let r := col mod 26 in
        let '(col', r') := if r =? 0 then (col / 26 - 1, 26) else (col / 26, r) in
        column_letter_go fuel' col' (String (ascii_of_nat (Z.to_nat (r' + 64))) acc)
  end.

(** [get_column_letter]: 1 is "A", 26 is "Z", 27 is "AA". *)
Definition get_column_letter (col : Z) : string :=
  column_letter_go (S (Z.to_nat (Z.log2 col))) col "".

(** [ws[coord] = v]: the cell at the address gets the value. *)
Definition ws_setitem (coord : string) (v : pyval) (sh : sheet) : result sheet :=
  match coordinate_to_tuple coord with
  | None => Raise ValueError
  | Some (row, col) =>
      c' ← set_value v (get_cell row col sh);
      Ok (put_cell row col c' sh)
  end.

(** [ws[coord].font = f] and [ws[coord].fill = p]. *)
Definition ws_set_font (coord : string) (f : font_attr) (sh : sheet) : result sheet :=
  match coordinate_to_tuple coord with
  | None => Raise ValueError
  | Some (row, col) => Ok (set_font row col f sh)
  end.

Definition ws_set_fill (coord : string) (p : PatternFill) (sh : sheet) : result sheet :=
  match coordinate_to_tuple coord with
  | None => Raise ValueError
  | Some (row, col) => Ok (set_fill row col p sh)
  end.

(** *** Merged ranges *)

(** [a <= b] on ranges: [a] lies inside [b]. *)
Definition range_subset (a b : cell_range) : bool :=
  (min_row b <=? min_row a) && (max_row a <=? max_row b) &&
  (min_col b <=? min_col a) && (max_col a <=? max_col b).

(** The addresses of a range, row by row. *)
Definition range_cells (r : cell_range) : list (Z * Z) :=
  row ← seqZ (min_row r) (max_row r - min_row r + 1);
  col ← seqZ (min_col r) (max_col r - min_col r + 1);
  [(row, col)].

(** [ws.merge_cells(range_string)]: the range joins [merged_cells] unless a
    registered range already contains it, and every cell of it but the
    first becomes a [MergedCell]. *)
Definition merge_cells (range_string : string) (sh : sheet) : result sheet :=
  match range_boundaries range_string with
  | None => Raise ValueError
  | Some cr =>
      let ranges :=
        if existsb (range_subset cr) (merged_cells sh) then merged_cells sh
        else merged_cells sh ++ [cr] in
      let cleaned :=
        foldl (fun m rc => <[rc := merged_cell]> m) (cells sh) (tail (range_cells cr)) in
      Ok (mkSheet cleaned ranges (column_widths sh))
  end.

(** [ws.column_dimensions[letter].width = w]. *)
Definition set_width (letter : string) (w : Z) (sh : sheet) : sheet :=
  mkSheet (cells sh) (merged_cells sh) (<[letter := w]> (column_widths sh)).

(** A workbook: its sheets by title, in the order of [create_sheet]. *)
Definition workbook := list (string * sheet).

Definition wb_sheet (title : string) (wb : workbook) : option sheet :=
  snd <$> find (fun p => String.eqb (fst p) title) wb.

(** ** datetime *)

Record datetime := mkDate { year : Z; month : Z; day : Z }.

Definition is_leap (y : Z) : bool :=
  ((y mod 4 =? 0) && negb (y mod 100 =? 0)) || (y mod 400 =? 0).

Definition days_in_month (y m : Z) : Z :=
  if m =? 2 then (if is_leap y then 29 else 28)
  else if (m =? 4) || (m =? 6) || (m =? 9) || (m =? 11) then 30
  else 31.

Definition next_day (d : datetime) : datetime :=
  if day d <? days_in_month (year d) (month d) then mkDate (year d) (month d) (day d + 1)
  else if month d <? 12 then mkDate (year d) (month d + 1) 1
  else mkDate (year d + 1) 1 1.

(** [d + timedelta(days=n)] for [n >= 0]. *)
Definition plus_days (d : datetime) (n : Z) : datetime :=
  Nat.iter (Z.to_nat n) next_day d.

(** [d.strftime('%m/%d/%Y')]. *)
Definition strftime_mdY (d : datetime) : string :=
  fmt_0d 2 (month d) +:+ "/" +:+ fmt_0d 2 (day d) +:+ "/" +:+ fmt_0d 4 (year d).

(** ** The random module *)

(** The generator behind the module-level functions of [random]: the state
    of the shared stream, [random.seed(a)], and [_randbelow(n)], the one
    primitive that [randint] and [choice] draw from; it returns an integer
    below [n] and the next state. *)
Class RandomGen := {
  rng : Type;
  rng_seed : Z -> rng;
  randbelow : Z -> rng -> Z * rng;
  randbelow_range : forall n s, 0 < n -> 0 <= fst (randbelow n s) < n
}.

Section Random.
Context {G : RandomGen}.

(** [random.randint(a, b)] is [a + _randbelow(b - a + 1)]. *)
Definition randint (a b : Z) (s : rng) : Z * rng :=
  let r := randbelow (b - a + 1) s in (a + fst r, snd r).

(** [random.choice(seq)] is [seq[_randbelow(len(seq))]]; the index is in
    range for a non-empty [seq], so the default of [nth] is never
    returned. *)
Definition choice (seq : list string) (s : rng) : string * rng :=
  let r := randbelow (Z.of_nat (length seq)) s in
  (nth (Z.to_nat (fst r)) seq "", snd r).

(** Code that draws from the shared stream: from the state of the
    stream to a result, or an exception, and the state it leaves. *)
Definition rand (A : Type) : Type := rng -> result A * rng.

#[global] Instance rand_ret : MRet rand := fun A a s => (Ok a, s).

#[global] Instance rand_bind : MBind rand := fun A B k m s =>
  match m s with
  | (Ok a, s') => k a s'
  | (Raise e, s') => (Raise e, s')
  end.

(** A computation on sheets, which draws nothing. *)
Definition liftR {A} (r : result A) : rand A := fun s => (r, s).

(** One draw, [random.randint(...)] or [random.choice(...)]. *)
Definition draw {A} (d : rng -> A * rng) : rand A := fun s =>
  (Ok (fst (d s)), snd (d s)).

(** [random.seed(a)]. *)
Definition random_seed (a : Z) : rand unit := fun _ => (Ok tt, rng_seed a).
End Random.

(** ** The process: standard output, saved files, the random stream *)

Inductive output :=
| Print (s : string)
| PrintError (e : exn)
| PrintTraceback (e : exn).

Section World.
Context {G : RandomGen}.

(** What the script reads and changes outside its own variables: whether
    openpyxl can be imported, the directory of the script, the lines
    printed so far, the workbooks saved so far (directory, file name,
    content), the working directory, and the state of [random]. *)
Record world := mkWorld {
  openpyxl_installed : bool;
  script_dir : string;
  stdout : list output;
  saved : list (string * string * workbook);
  cwd : string;
  random_state : rng
}.

(** A statement sequence: it ends normally or with an exception, and
    either way leaves a world behind. *)
Definition prog (A : Type) : Type := world -> result A * world.

#[global] Instance prog_ret : MRet prog := fun A a w => (Ok a, w).

#[global] Instance prog_bind : MBind prog := fun A B k m w =>
  match m w with
  | (Ok a, w') => k a w'
  | (Raise e, w') => (Raise e, w')
  end.

(** A computation on sheets, which touches nothing of the world. *)
Definition liftW {A} (r : result A) : prog A := fun w => (r, w).

(** Code that draws from [random]: it runs on the state of the shared
    stream and leaves its new state there. *)
Definition with_random {A} (m : rand A) : prog A := fun w =>
  (fst (m (random_state w)),
   mkWorld (openpyxl_installed w) (script_dir w) (stdout w) (saved w) (cwd w)
     (snd (m (random_state w)))).

Definition emit (o : output) : prog unit := fun w =>
  (Ok tt,
   mkWorld (openpyxl_installed w) (script_dir w) (stdout w ++ [o]) (saved w) (cwd w)
     (random_state w)).

(** [print(s)]. *)
Definition print (s : string) : prog unit := emit (Print s).

(** [os.chdir(d)]. *)
Definition chdir (d : string) : prog unit := fun w =>
  (Ok tt,
   mkWorld (openpyxl_installed w) (script_dir w) (stdout w) (saved w) d
     (random_state w)).

(** [wb.save(filename)]: the workbook is written under the working
    directory. *)
Definition wb_save (filename : string) (wb : workbook) : prog unit := fun w =>
  (Ok tt,
   mkWorld (openpyxl_installed w) (script_dir w) (stdout w)
     (saved w ++ [(cwd w, filename, wb)]) (cwd w) (random_state w)).
End World.

(** ** [create_financial_model] *)

Module FinancialModel.

(** Style definitions (lines 28-30); [border] is defined in the source
    and never used. *)
Definition header_font : Font := mkFont true (Some 12).
Definition header_fill : PatternFill := mkFill "D3D3D3" "D3D3D3" "solid".
Definition label_font : Font := mkFont true None.

Definition params_data : list (list pyval) :=
  [ [PStr "Annual Interest Rate"; PFloat (dec 5 2); PStr "5% annual rate"];
    [PStr "Loan Term (Years)"; PInt 30; PStr "30-year mortgage"];
    [PStr "Loan Principal"; PInt 500000; PStr "$500,000 loan"];
    [PStr ""; PStr ""; PStr ""];
    [PStr "Investment Parameters"; PStr ""; PStr ""];
    [PStr "Investment Annual Rate"; PFloat (dec 8 2); PStr "8% annual return"];
    [PStr "Investment Period (Years)"; PInt 20; PStr "20-year investment"];
    [PStr "Monthly Contribution"; PInt 1000; PStr "$1,000/month"];
    [PStr "Initial Investment"; PInt 10000; PStr "$10,000 initial"];
    [PStr ""; PStr ""; PStr ""];
    [PStr "NPV/IRR Parameters"; PStr ""; PStr ""];
    [PStr "Discount Rate"; PFloat (dec 10 2); PStr "10% discount rate"];
    [PStr "Number of Periods"; PInt 10; PStr "10 periods"];
    [PStr "Payment Amount"; PInt 5000; PStr "$5,000 payment"];
    [PStr "Present Value"; PInt 40000; PStr "$40,000 PV"];
    [PStr "Future Value"; PInt 0; PStr "$0 FV"] ].

(** Body of the loop over [params_data] (lines 62-73). *)
Definition params_data_body (i : Z) (row : list pyval) (loan_params : sheet)
    : result sheet :=
  match row with
  | [] => Raise IndexError
  | row0 :: _ =>
      if py_in_strs row0 ["Investment Parameters"; "NPV/IRR Parameters"] then
        loan_params ← ws_cell i 1 row0 loan_params;
        let loan_params := set_font i 1 (FontSet (mkFont true (Some 12))) loan_params in
        merge_cells ("A" +:+ str_int i +:+ ":C" +:+ str_int i) loan_params
      else
        for_enumerate (fun j value loan_params =>
          loan_params ← ws_cell i j value loan_params;
          if (j =? 1) && truthy value && negb (py_in_strs value [""])
          then Ok (set_font i j (FontSet label_font) loan_params)
          else Ok loan_params) row 1 loan_params
  end.

(** The LoanParameters sheet (lines 38-73). *)
Definition populate_loan_params (loan_params : sheet) : result sheet :=
  loan_params ← ws_setitem "A1" (PStr "Loan Parameters") loan_params;
  loan_params ← ws_set_font "A1" (FontSet (mkFont true (Some 14))) loan_params;
  loan_params ← merge_cells "A1:B1" loan_params;
  for_enumerate params_data_body params_data 2 loan_params.

Definition cash_flow_data : list (list pyval) :=
  [ [PInt 0; PInt 0; PInt (-100000)];
    [PInt 1; PInt 15000; PInt 15000];
    [PInt 2; PInt 20000; PInt 20000];
    [PInt 3; PInt 25000; PInt 25000];
    [PInt 4; PInt 30000; PInt 30000];
    [PInt 5; PInt 35000; PInt 35000];
    [PInt 6; PInt 40000; PInt 40000];
    [PInt 7; PInt 45000; PInt 45000];
    [PInt 8; PInt 50000; PInt 50000];
    [PInt 9; PInt 55000; PInt 55000];
    [PInt 10; PInt 60000; PInt 60000] ].

(** [for cell in coords: ws[cell].font = header_font; ws[cell].fill = header_fill]. *)
Definition style_headers (coords : list string) (ws : sheet) : result sheet :=
  for_each (fun cell ws =>
    ws ← ws_set_font cell (FontSet header_font) ws;
    ws_set_fill cell header_fill ws) coords ws.

(** Body of a loop that writes each row of a table into the columns from
    1 on (lines 98-100, 188-190). *)
Definition data_row_body (i : Z) (row : list pyval) (ws : sheet) : result sheet :=
  for_enumerate (fun j value ws => ws_cell i j value ws) row 1 ws.

(** The CashFlows sheet (lines 75-100). *)
Definition populate_cash_flows (cash_flows : sheet) : result sheet :=
  cash_flows ← ws_setitem "A1" (PStr "Period") cash_flows;
  cash_flows ← ws_setitem "B1" (PStr "Cash Flow (NPV)") cash_flows;
  cash_flows ← ws_setitem "C1" (PStr "Cash Flow (IRR)") cash_flows;
  cash_flows ← style_headers ["A1"; "B1"; "C1"] cash_flows;
  for_enumerate data_row_body cash_flow_data 2 cash_flows.

Definition loan_calc_formulas : list (list pyval) :=
  [ [PStr "Monthly Payment"; PStr "=PMT(LoanParameters!B2/12, LoanParameters!B3*12, -LoanParameters!B4)"];
    [PStr "Total Amount Paid"; PStr "=B2*LoanParameters!B3*12"];
    [PStr "Total Interest Paid"; PStr "=B3-LoanParameters!B4"];
    [PStr "Effective Annual Rate"; PStr "=RATE(LoanParameters!B14, -LoanParameters!B15, LoanParameters!B16, -LoanParameters!B17)*12"] ].

(** Body of the loop over [loan_calc_formulas] (lines 114-116); the target
    [(label, formula)] unpacks a row of exactly two elements. *)
Definition loan_calc_body (i : Z) (row : list pyval) (loan_calcs : sheet)
    : result sheet :=
  match row with
  | [label; formula] =>
      loan_calcs ← ws_cell i 1 label loan_calcs;
      let loan_calcs := set_font i 1 (FontSet label_font) loan_calcs in
      ws_cell i 2 formula loan_calcs
  | _ => Raise ValueError
  end.

(** The LoanCalculations sheet (lines 102-141). *)
Definition populate_loan_calcs (loan_calcs : sheet) : result sheet :=
  loan_calcs ← ws_setitem "A1" (PStr "Loan Analysis") loan_calcs;
  loan_calcs ← ws_set_font "A1" (FontSet (mkFont true (Some 14))) loan_calcs;
  loan_calcs ← merge_cells "A1:B1" loan_calcs;
  loan_calcs ← for_enumerate loan_calc_body loan_calc_formulas 2 loan_calcs;
  loan_calcs ← ws_setitem "A7" (PStr "Amortization Schedule") loan_calcs;
  loan_calcs ← ws_set_font "A7" (FontSet (mkFont true (Some 12))) loan_calcs;
  loan_calcs ← merge_cells "A7:D7" loan_calcs;
  loan_calcs ← ws_setitem "A8" (PStr "Month") loan_calcs;
  loan_calcs ← ws_setitem "B8" (PStr "Principal") loan_calcs;
  loan_calcs ← ws_setitem "C8" (PStr "Interest") loan_calcs;
  loan_calcs ← ws_setitem "D8" (PStr "Balance") loan_calcs;
  loan_calcs ← style_headers ["A8"; "B8"; "C8"; "D8"] loan_calcs;
  loan_calcs ← ws_setitem "A9" (PInt 1) loan_calcs;
  loan_calcs ← ws_setitem "B9" (PStr "=B2-C9") loan_calcs;
  loan_calcs ← ws_setitem "C9" (PStr "=LoanParameters!B4*LoanParameters!B2/12") loan_calcs;
  loan_calcs ← ws_setitem "D9" (PStr "=LoanParameters!B4-B9") loan_calcs;
  loan_calcs ← ws_setitem "A10" (PInt 2) loan_calcs;
  loan_calcs ← ws_setitem "B10" (PStr "=B2-C10") loan_calcs;
  loan_calcs ← ws_setitem "C10" (PStr "=D9*LoanParameters!B2/12") loan_calcs;
  ws_setitem "D10" (PStr "=D9-B10") loan_calcs.

Definition investment_formulas : list (list pyval) :=
  [ [PStr "Future Value (Lump Sum)"; PStr "=FV(LoanParameters!B7, LoanParameters!B8, 0, -LoanParameters!B10)"];
    [PStr "Future Value (With Contributions)"; PStr "=FV(LoanParameters!B7/12, LoanParameters!B8*12, -LoanParameters!B9, -LoanParameters!B10)"];
    [PStr "Present Value Needed"; PStr "=PV(LoanParameters!B7, LoanParameters!B8, 0, -1000000)"];
    [PStr "Monthly Contribution Needed"; PStr "=PMT(LoanParameters!B7/12, LoanParameters!B8*12, -LoanParameters!B10, 1000000)"];
    [PStr ""; PStr ""];
    [PStr "Project Analysis"; PStr ""];
    [PStr "Net Present Value"; PStr "=NPV(LoanParameters!B13, CashFlows!B3:B12)"];
    [PStr "Internal Rate of Return"; PStr "=IRR(CashFlows!C2:C12)"];
    [PStr "Profitability Index"; PStr "=1 + B8/ABS(CashFlows!C2)"] ].

(** Body of the loop over [investment_formulas] (lines 160-166). *)
Definition investment_body (i : Z) (row : list pyval) (investment : sheet)
    : result sheet :=
  match row with
  | [label; formula] =>
      investment ← ws_cell i 1 label investment;
      let investment :=
        set_font i 1 (if truthy label then FontSet label_font else FontNone) investment in
      ws_cell i 2 formula investment
  | [row0] =>
      investment ← ws_cell i 1 row0 investment;
      Ok (set_font i 1 (FontSet (mkFont true (Some 12))) investment)
  | _ => Ok investment
  end.

Definition sensitivity_data : list (list pyval) :=
  [ [PFloat (dec 5 2); PStr "=NPV(0.05, CashFlows!B3:B12)"; PStr ("=IF(B15>0, " +:+ q "Accept" +:+ ", " +:+ q "Reject" +:+ ")")];
    [PFloat (dec 10 2); PStr "=NPV(0.10, CashFlows!B3:B12)"; PStr ("=IF(B16>0, " +:+ q "Accept" +:+ ", " +:+ q "Reject" +:+ ")")];
    [PFloat (dec 15 2); PStr "=NPV(0.15, CashFlows!B3:B12)"; PStr ("=IF(B17>0, " +:+ q "Accept" +:+ ", " +:+ q "Reject" +:+ ")")];
    [PFloat (dec 20 2); PStr "=NPV(0.20, CashFlows!B3:B12)"; PStr ("=IF(B18>0, " +:+ q "Accept" +:+ ", " +:+ q "Reject" +:+ ")")] ].

(** The InvestmentAnalysis sheet (lines 143-190). *)
Definition populate_investment (investment : sheet) : result sheet :=
  investment ← ws_setitem "A1" (PStr "Investment Growth") investment;
  investment ← ws_set_font "A1" (FontSet (mkFont true (Some 14))) investment;
  investment ← merge_cells "A1:B1" investment;
  investment ← for_enumerate investment_body investment_formulas 2 investment;
  investment ← ws_setitem "A13" (PStr "Sensitivity Analysis") investment;
  investment ← ws_set_font "A13" (FontSet (mkFont true (Some 12))) investment;
  investment ← merge_cells "A13:C13" investment;
  investment ← ws_setitem "A14" (PStr "Discount Rate") investment;
  investment ← ws_setitem "B14" (PStr "NPV") investment;
  investment ← ws_setitem "C14" (PStr "Decision") investment;
  investment ← style_headers ["A14"; "B14"; "C14"] investment;
  for_enumerate data_row_body sensitivity_data 15 investment.

(** [for col in range(1, 5): sheet.column_dimensions[get_column_letter(col)].width = 20]. *)
Definition adjust_widths (ws : sheet) : sheet :=
  foldl (fun ws col => set_width (get_column_letter col) 20 ws) ws (range 1 5).

(** The workbook that [create_financial_model] builds (lines 16-195): the
    default sheet of the new workbook is removed, the four sheets are
    created in this order and populated one after the other. *)
Definition financial_model_workbook : result workbook :=
  loan_params ← populate_loan_params empty_sheet;
  cash_flows ← populate_cash_flows empty_sheet;
  loan_calcs ← populate_loan_calcs empty_sheet;
  investment ← populate_investment empty_sheet;
  Ok [ ("LoanParameters", adjust_widths loan_params);
       ("CashFlows", adjust_widths cash_flows);
       ("LoanCalculations", adjust_widths loan_calcs);
       ("InvestmentAnalysis", adjust_widths investment) ].

Section Create.
Context {G : RandomGen}.

(** [create_financial_model()]. *)
Definition create_financial_model : prog unit :=
  wb ← liftW financial_model_workbook;
  wb_save "financial-model.xlsx" wb;;
  print "✅ Created financial-model.xlsx".
End Create.

End FinancialModel.

(** ** [create_data_analysis] *)

Module DataAnalysis.

(** Style definitions (lines 215-217). *)
Definition header_font : Font := mkFont true None.
Definition header_fill : PatternFill := mkFill "D3D3D3" "D3D3D3" "solid".
Definition label_font : Font := mkFont true None.

Definition headers : list string :=
  [ "Sales Amount";
    "Region";
    "Product";
    "Date";
    "Customer ID" ].

Definition regions : list string :=
  [ "North";
    "South";
    "East";
    "West" ].

Definition products : list string :=
  [ "Widget A";
    "Widget B";
    "Widget C" ].

Definition base_date : datetime := mkDate 2024 1 1.

(** Body of a loop that writes a list of column headers into row 1 with
    the header style (lines 221-224). *)
Definition header_body (i : Z) (header : string) (ws : sheet) : result sheet :=
  ws ← ws_cell 1 i (PStr header) ws;
  let ws := set_font 1 i (FontSet header_font) ws in
  Ok (set_fill 1 i header_fill ws).

Definition params_data : list (list pyval) :=
  [ [PStr "Confidence Level"; PFloat (dec 95 2); PStr "95% confidence"];
    [PStr "Significance Threshold"; PFloat (dec 5 2); PStr "5% significance"];
    [PStr "Moving Average Window"; PInt 7; PStr "7-day window"];
    [PStr "Outlier Threshold (σ)"; PInt 3; PStr "3 standard deviations"];
    [PStr "Minimum Sample Size"; PInt 30; PStr "Min 30 samples"];
    [PStr "Top N Items"; PInt 10; PStr "Top 10 analysis"];
    [PStr "Sales Target"; PInt 2500; PStr "$2,500 target"] ].

(** Body of the loop over [params_data] (lines 255-259). *)
Definition params_data_body (i : Z) (row : list pyval) (parameters : sheet)
    : result sheet :=
  for_enumerate (fun j value parameters =>
    parameters ← ws_cell i j value parameters;
    if j =? 1 then Ok (set_font i j (FontSet label_font) parameters)
    else Ok parameters) row 1 parameters.

(** The Parameters sheet (lines 240-259). *)
Definition populate_parameters (parameters : sheet) : result sheet :=
  parameters ← ws_setitem "A1" (PStr "Analysis Parameters") parameters;
  parameters ← ws_set_font "A1" (FontSet (mkFont true (Some 14))) parameters;
  parameters ← merge_cells "A1:B1" parameters;
  for_enumerate params_data_body params_data 2 parameters.

Definition basic_stats : list (list pyval) :=
  [ [PStr "Mean Sales"; PStr "=AVERAGE(RawData!A2:A101)"];
    [PStr "Median Sales"; PStr "=MEDIAN(RawData!A2:A101)"];
    [PStr "Standard Deviation"; PStr "=STDEV(RawData!A2:A101)"];
    [PStr "Variance"; PStr "=VAR(RawData!A2:A101)"];
    [PStr "Min Sales"; PStr "=MIN(RawData!A2:A101)"];
    [PStr "Max Sales"; PStr "=MAX(RawData!A2:A101)"];
    [PStr "Range"; PStr "=B7-B6"];
    [PStr "Count"; PStr "=COUNT(RawData!A2:A101)"];
    [PStr "Count Above Target"; PStr ("=COUNTIF(RawData!A2:A101, " +:+ q ">" +:+ "&Parameters!B8)")] ].

Definition percentiles : list (list pyval) :=
  [ [PStr "25th Percentile"; PStr "=PERCENTILE(RawData!A2:A101, 0.25)"];
    [PStr "50th Percentile"; PStr "=PERCENTILE(RawData!A2:A101, 0.50)"];
    [PStr "75th Percentile"; PStr "=PERCENTILE(RawData!A2:A101, 0.75)"];
    [PStr "90th Percentile"; PStr "=PERCENTILE(RawData!A2:A101, 0.90)"];
    [PStr "Interquartile Range"; PStr "=B15-B13"] ].

(** Body of the loops over [basic_stats] and [percentiles] (lines 278-280,
    295-297). *)
Definition label_formula_body (i : Z) (row : list pyval) (analysis : sheet)
    : result sheet :=
  match row with
  | [label; formula] =>
      analysis ← ws_cell i 1 label analysis;
      let analysis := set_font i 1 (FontSet label_font) analysis in
      ws_cell i 2 formula analysis
  | _ => Raise ValueError
  end.

(** [for cell in coords: ws[cell].font = header_font; ws[cell].fill = header_fill]. *)
Definition style_headers (coords : list string) (ws : sheet) : result sheet :=
  for_each (fun cell ws =>
    ws ← ws_set_font cell (FontSet header_font) ws;
    ws_set_fill cell header_fill ws) coords ws.

(** Body of the loop over [regions] (lines 313-317). *)
Definition region_body (i : Z) (region : string) (analysis : sheet) : result sheet :=
  analysis ← ws_cell i 1 (PStr region) analysis;
  analysis ← ws_cell i 2
    (PStr ("=COUNTIF(RawData!B2:B101, " +:+ dq +:+ region +:+ dq +:+ ")")) analysis;
  analysis ← ws_cell i 3
    (PStr ("=AVERAGEIF(RawData!B2:B101, " +:+ dq +:+ region +:+ dq +:+ ", RawData!A2:A101)"))
    analysis;
  ws_cell i 4
    (PStr ("=SUMIF(RawData!B2:B101, " +:+ dq +:+ region +:+ dq +:+ ", RawData!A2:A101)"))
    analysis.

(** The Analysis sheet (lines 261-317). *)
Definition populate_analysis (analysis : sheet) : result sheet :=
  analysis ← ws_setitem "A1" (PStr "Basic Statistics") analysis;
  analysis ← ws_set_font "A1" (FontSet (mkFont true (Some 14))) analysis;
  analysis ← merge_cells "A1:B1" analysis;
  analysis ← for_enumerate label_formula_body basic_stats 2 analysis;
  analysis ← ws_setitem "A12" (PStr "Percentile Analysis") analysis;
  analysis ← ws_set_font "A12" (FontSet (mkFont true (Some 12))) analysis;
  analysis ← merge_cells "A12:B12" analysis;
  analysis ← for_enumerate label_formula_body percentiles 13 analysis;
  analysis ← ws_setitem "A24" (PStr "Regional Analysis") analysis;
  analysis ← ws_set_font "A24" (FontSet (mkFont true (Some 12))) analysis;
  analysis ← merge_cells "A24:D24" analysis;
  analysis ← ws_setitem "A25" (PStr "Region") analysis;
  analysis ← ws_setitem "B25" (PStr "Count") analysis;
  analysis ← ws_setitem "C25" (PStr "Average") analysis;
  analysis ← ws_setitem "D25" (PStr "Total") analysis;
  analysis ← style_headers ["A25"; "B25"; "C25"; "D25"] analysis;
  for_enumerate region_body regions 26 analysis.

Definition summary_data : list (list pyval) :=
  [ [PStr "Total Sales"; PStr "=SUM(RawData!A2:A101)"];
    [PStr "Average Daily Sales"; PStr "=Analysis!B2"];
    [PStr "Best Performing Region"; PStr "=INDEX(Analysis!A26:A29, MATCH(MAX(Analysis!D26:D29), Analysis!D26:D29, 0))"];
    [PStr "Sales Above Target (%)"; PStr "=Analysis!B10/Analysis!B9*100"];
    [PStr ""; PStr ""];
    [PStr "Data Quality Report"; PStr ""];
    [PStr "Total Records"; PStr "=Analysis!B9"];
    [PStr "Data Completeness (%)"; PStr "=COUNTA(RawData!A2:A101)/100*100"];
    [PStr ""; PStr ""];
    [PStr "Statistical Tests"; PStr ""];
    [PStr "Sample Size Adequate"; PStr ("=IF(Analysis!B9>=Parameters!B6, " +:+ q "Yes" +:+ ", " +:+ q "No" +:+ ")")] ].

(** Body of the loop over [summary_data] (lines 338-348). *)
Definition summary_body (i : Z) (row : list pyval) (summary : sheet) : result sheet :=
  match row with
  | [label; formula] =>
      summary ← ws_cell i 1 label summary;
      let summary :=
        if truthy label && negb (py_in_strs label ["Data Quality Report"; "Statistical Tests"])
        then set_font i 1 (FontSet label_font) summary
        else if py_in_strs label ["Data Quality Report"; "Statistical Tests"]
        then set_font i 1 (FontSet (mkFont true (Some 12))) summary
        else summary in
      ws_cell i 2 formula summary
  | [row0] =>
      summary ← ws_cell i 1 row0 summary;
      Ok (set_font i 1 (FontSet (mkFont true (Some 12))) summary)
  | _ => Ok summary
  end.

(** The Summary sheet (lines 319-348). *)
Definition populate_summary (summary : sheet) : result sheet :=
  summary ← ws_setitem "A1" (PStr "Executive Summary") summary;
  summary ← ws_set_font "A1" (FontSet (mkFont true (Some 14))) summary;
  summary ← merge_cells "A1:B1" summary;
  for_enumerate summary_body summary_data 2 summary.

(** [for col in range(1, 6): sheet.column_dimensions[get_column_letter(col)].width = 18]. *)
Definition adjust_widths (ws : sheet) : sheet :=
  foldl (fun ws col => set_width (get_column_letter col) 18 ws) ws (range 1 6).

Section Create.
Context {G : RandomGen}.

(** Body of the loop that generates the 100 rows of sample data (lines
    233-238): three draws from the shared stream per row. *)
Definition raw_data_body (i : Z) (raw_data : sheet) : rand sheet :=
  amount ← draw (randint 800 4500);
  raw_data ← liftR (ws_cell i 1 (PInt amount) raw_data);
  region ← draw (choice regions);
  raw_data ← liftR (ws_cell i 2 (PStr region) raw_data);
  product ← draw (choice products);
  raw_data ← liftR (ws_cell i 3 (PStr product) raw_data);
  raw_data ← liftR (ws_cell i 4 (PStr (strftime_mdY (plus_days base_date (i - 2)))) raw_data);
  liftR (ws_cell i 5 (PStr ("C" +:+ fmt_0d 3 (i - 1))) raw_data).

(** The RawData sheet (lines 219-238): the stream is seeded with 42
    before the first draw. *)
Definition populate_raw_data (raw_data : sheet) : rand sheet :=
  raw_data ← liftR (for_enumerate header_body headers 1 raw_data);
  random_seed 42;;
  for_each raw_data_body (range 2 102) raw_data.

(** The workbook that [create_data_analysis] builds (lines 203-353). *)
Definition data_analysis_workbook : rand workbook :=
  raw_data ← populate_raw_data empty_sheet;
  parameters ← liftR (populate_parameters empty_sheet);
  analysis ← liftR (populate_analysis empty_sheet);
  summary ← liftR (populate_summary empty_sheet);
  mret [ ("RawData", adjust_widths raw_data);
         ("Parameters", adjust_widths parameters);
         ("Analysis", adjust_widths analysis);
         ("Summary", adjust_widths summary) ].

(** [create_data_analysis()]. *)
Definition create_data_analysis : prog unit :=
  wb ← with_random data_analysis_workbook;
  wb_save "data-analysis.xlsx" wb;;
  print "✅ Created data-analysis.xlsx".
End Create.

End DataAnalysis.

(** ** [create_inventory_tracking] *)

Module Inventory.

(** Style definitions (lines 375-377). *)
Definition header_font : Font := mkFont true None.
Definition header_fill : PatternFill := mkFill "D3D3D3" "D3D3D3" "solid".
Definition label_font : Font := mkFont true None.

Definition product_headers : list string :=
  [ "SKU";
    "Product Name";
    "Unit Cost";
    "Lead Time (days)";
    "Safety Stock";
    "Annual Demand";
    "Supplier";
    "Category" ].

Definition product_data : list (list pyval) :=
  [ [PStr "SKU001"; PStr "Widget Alpha"; PFloat (dec 2550 2); PInt 7; PInt 50; PInt 2400; PStr "Supplier A"; PStr "Electronics"];
    [PStr "SKU002"; PStr "Widget Beta"; PFloat (dec 4500 2); PInt 14; PInt 30; PInt 1800; PStr "Supplier B"; PStr "Electronics"];
    [PStr "SKU003"; PStr "Widget Gamma"; PFloat (dec 1275 2); PInt 3; PInt 100; PInt 5000; PStr "Supplier A"; PStr "Accessories"];
    [PStr "SKU004"; PStr "Widget Delta"; PFloat (dec 8999 2); PInt 21; PInt 20; PInt 600; PStr "Supplier C"; PStr "Premium"];
    [PStr "SKU005"; PStr "Widget Epsilon"; PFloat (dec 525 2); PInt 5; PInt 200; PInt 10000; PStr "Supplier B"; PStr "Consumables"];
    [PStr "SKU006"; PStr "Widget Zeta"; PFloat (dec 15000 2); PInt 30; PInt 10; PInt 200; PStr "Supplier D"; PStr "Premium"];
    [PStr "SKU007"; PStr "Widget Eta"; PFloat (dec 3500 2); PInt 10; PInt 40; PInt 1500; PStr "Supplier A"; PStr "Electronics"];
    [PStr "SKU008"; PStr "Widget Theta"; PFloat (dec 1850 2); PInt 7; PInt 75; PInt 3000; PStr "Supplier C"; PStr "Accessories"];
    [PStr "SKU009"; PStr "Widget Iota"; PFloat (dec 6200 2); PInt 14; PInt 25; PInt 900; PStr "Supplier B"; PStr "Electronics"];
    [PStr "SKU010"; PStr "Widget Kappa"; PFloat (dec 899 2); PInt 3; PInt 150; PInt 7500; PStr "Supplier A"; PStr "Consumables"] ].

Definition trans_headers : list string :=
  [ "Date";
    "Product SKU";
    "Transaction Type";
    "Quantity";
    "Unit Price";
    "Reference Number";
    "Notes" ].

Definition base_date : datetime := mkDate 2024 1 1.

(** Body of a loop that writes a list of column headers into row 1 with
    the header style (lines 383-386, 409-412, 479-482). *)
Definition header_body (i : Z) (header : string) (ws : sheet) : result sheet :=
  ws ← ws_cell 1 i (PStr header) ws;
  let ws := set_font 1 i (FontSet header_font) ws in
  Ok (set_fill 1 i header_fill ws).

(** Body of a loop that writes each row of a table into the columns from
    1 on (lines 401-403, 448-450). *)
Definition data_row_body (i : Z) (row : list pyval) (ws : sheet) : result sheet :=
  for_enumerate (fun j value ws => ws_cell i j value ws) row 1 ws.

(** The Products sheet (lines 379-403). *)
Definition populate_products (products : sheet) : result sheet :=
  products ← for_enumerate header_body product_headers 1 products;
  for_enumerate data_row_body product_data 2 products.

Definition settings_data : list (list pyval) :=
  [ [PStr "Lead Time Multiplier"; PFloat (dec 15 1); PStr "Safety factor for lead time"];
    [PStr "Ordering Cost per Order"; PInt 50; PStr "Fixed cost per order"];
    [PStr "Holding Cost Rate (annual %)"; PFloat (dec 20 2); PStr "20% annual holding cost"];
    [PStr "Service Level Target"; PFloat (dec 95 2); PStr "95% service level"];
    [PStr "Review Period (days)"; PInt 7; PStr "Weekly review"];
    [PStr "Min Order Quantity"; PInt 10; PStr "Minimum order size"];
    [PStr "Max Order Quantity"; PInt 1000; PStr "Maximum order size"];
    [PStr "Critical Stock Level (%)"; PFloat (dec 25 2); PStr "25% of reorder point"];
    [PStr "Overstock Threshold (days)"; PInt 90; PStr "90 days of supply"] ].

(** Body of the loop over [settings_data] (lines 469-473). *)
Definition settings_data_body (i : Z) (row : list pyval) (settings : sheet)
    : result sheet :=
  for_enumerate (fun j value settings =>
    settings ← ws_cell i j value settings;
    if j =? 1 then Ok (set_font i j (FontSet label_font) settings)
    else Ok settings) row 1 settings.

(** The Settings sheet (lines 452-473). *)
Definition populate_settings (settings : sheet) : result sheet :=
  settings ← ws_setitem "A1" (PStr "Inventory Settings") settings;
  settings ← ws_set_font "A1" (FontSet (mkFont true (Some 14))) settings;
  settings ← merge_cells "A1:B1" settings;
  for_enumerate settings_data_body settings_data 2 settings.

Definition inv_headers : list string :=
  [ "SKU";
    "Current Stock";
    "Reorder Point";
    "Status";
    "Stock Value";
    "Days of Supply";
    "Turnover";
    "ABC Class";
    "Risk";
    "EOQ" ].

(** Body of the loop over the first five SKUs (lines 485-495). *)
Definition current_inv_body (i : Z) (sku : string) (current_inv : sheet)
    : result sheet :=
  current_inv ← ws_cell i 1 (PStr sku) current_inv;
  current_inv ← ws_cell i 2 (PStr ("=SUMIFS(Transactions!D:D, Transactions!B:B, A" +:+ str_int i +:+ ", Transactions!C:C, " +:+ dq +:+ "IN" +:+ dq +:+ ") - SUMIFS(Transactions!D:D, Transactions!B:B, A" +:+ str_int i +:+ ", Transactions!C:C, " +:+ dq +:+ "OUT" +:+ dq +:+ ")")) current_inv;
  current_inv ← ws_cell i 3 (PStr ("=VLOOKUP(A" +:+ str_int i +:+ ", Products!A:E, 4, FALSE) * Settings!B2 * (VLOOKUP(A" +:+ str_int i +:+ ", Products!A:F, 6, FALSE)/365) + VLOOKUP(A" +:+ str_int i +:+ ", Products!A:E, 5, FALSE)")) current_inv;
  current_inv ← ws_cell i 4 (PStr ("=IF(B" +:+ str_int i +:+ "<=C" +:+ str_int i +:+ "*Settings!B9, " +:+ dq +:+ "CRITICAL" +:+ dq +:+ ", IF(B" +:+ str_int i +:+ "<=C" +:+ str_int i +:+ ", " +:+ dq +:+ "REORDER" +:+ dq +:+ ", " +:+ dq +:+ "OK" +:+ dq +:+ "))")) current_inv;
  current_inv ← ws_cell i 5 (PStr ("=B" +:+ str_int i +:+ " * VLOOKUP(A" +:+ str_int i +:+ ", Products!A:C, 3, FALSE)")) current_inv;
  current_inv ← ws_cell i 6 (PStr ("=IF(SUMIFS(Transactions!D:D, Transactions!B:B, A" +:+ str_int i +:+ ", Transactions!C:C, " +:+ dq +:+ "OUT" +:+ dq +:+ ")/30>0, B" +:+ str_int i +:+ "/(SUMIFS(Transactions!D:D, Transactions!B:B, A" +:+ str_int i +:+ ", Transactions!C:C, " +:+ dq +:+ "OUT" +:+ dq +:+ ")/30), 999)")) current_inv;
  current_inv ← ws_cell i 7 (PStr ("=IF(B" +:+ str_int i +:+ ">0, SUMIFS(Transactions!D:D, Transactions!B:B, A" +:+ str_int i +:+ ", Transactions!C:C, " +:+ dq +:+ "OUT" +:+ dq +:+ ")/B" +:+ str_int i +:+ "*365/30, 0)")) current_inv;
  current_inv ← ws_cell i 8 (PStr ("=IF(E" +:+ str_int i +:+ "/SUM(E:E)>0.7, " +:+ dq +:+ "A" +:+ dq +:+ ", IF(E" +:+ str_int i +:+ "/SUM(E:E)>0.2, " +:+ dq +:+ "B" +:+ dq +:+ ", " +:+ dq +:+ "C" +:+ dq +:+ "))")) current_inv;
  current_inv ← ws_cell i 9 (PStr ("=IF(B" +:+ str_int i +:+ "<C" +:+ str_int i +:+ "*0.5, " +:+ dq +:+ "HIGH" +:+ dq +:+ ", IF(B" +:+ str_int i +:+ "<C" +:+ str_int i +:+ ", " +:+ dq +:+ "MEDIUM" +:+ dq +:+ ", " +:+ dq +:+ "LOW" +:+ dq +:+ "))")) current_inv;
  ws_cell i 10 (PStr ("=SQRT(2*VLOOKUP(A" +:+ str_int i +:+ ", Products!A:F, 6, FALSE)*Settings!B3/(VLOOKUP(A" +:+ str_int i +:+ ", Products!A:C, 3, FALSE)*Settings!B4))")) current_inv.

(** The CurrentInventory sheet (lines 475-495). *)
Definition populate_current_inv (current_inv : sheet) : result sheet :=
  current_inv ← for_enumerate header_body inv_headers 1 current_inv;
  for_enumerate current_inv_body ["SKU001"; "SKU002"; "SKU003"; "SKU004"; "SKU005"] 2
    current_inv.

Definition alert_types : list string :=
  [ "Stock Level";
    "Reorder Point";
    "Overstock";
    "Slow Moving" ].

(** Body of the loop over [alert_types] (lines 512-522). *)
Definition alert_body (i : Z) (alert_type : string) (alerts : sheet) : result sheet :=
  alerts ← ws_cell i 1 (PStr alert_type) alerts;
  if String.eqb alert_type "Stock Level" then
    alerts ← ws_cell i 2 (PStr ("=IF(COUNTIF(CurrentInventory!D:D, " +:+ q "CRITICAL" +:+ ")>0, INDEX(CurrentInventory!A:A, MATCH(" +:+ q "CRITICAL" +:+ ", CurrentInventory!D:D, 0)), " +:+ q "" +:+ ")")) alerts;
    alerts ← ws_cell i 3 (PStr ("=IF(B2<>" +:+ q "" +:+ ", " +:+ q "Critical stock level - immediate reorder required" +:+ ", " +:+ q "" +:+ ")")) alerts;
    ws_cell i 4 (PStr ("=IF(B2<>" +:+ q "" +:+ ", " +:+ q "HIGH" +:+ ", " +:+ q "" +:+ ")")) alerts
  else if String.eqb alert_type "Reorder Point" then
    alerts ← ws_cell i 2 (PStr ("=IF(COUNTIF(CurrentInventory!D:D, " +:+ q "REORDER" +:+ ")>0, INDEX(CurrentInventory!A:A, MATCH(" +:+ q "REORDER" +:+ ", CurrentInventory!D:D, 0)), " +:+ q "" +:+ ")")) alerts;
    alerts ← ws_cell i 3 (PStr ("=IF(B3<>" +:+ q "" +:+ ", " +:+ q "Stock at reorder point - place order" +:+ ", " +:+ q "" +:+ ")")) alerts;
    ws_cell i 4 (PStr ("=IF(B3<>" +:+ q "" +:+ ", " +:+ q "MEDIUM" +:+ ", " +:+ q "" +:+ ")")) alerts
  else Ok alerts.

(** The Alerts sheet (lines 497-522). *)
Definition populate_alerts (alerts : sheet) : result sheet :=
  alerts ← ws_setitem "A1" (PStr "Alert Type") alerts;
  alerts ← ws_setitem "B1" (PStr "Product SKU") alerts;
  alerts ← ws_setitem "C1" (PStr "Message") alerts;
  alerts ← ws_setitem "D1" (PStr "Priority") alerts;
  alerts ← ws_setitem "E1" (PStr "Action Required") alerts;
  alerts ← ws_setitem "F1" (PStr "Date") alerts;
  alerts ← for_each (fun col alerts =>
    alerts ← ws_cell 1 col PNone alerts;
    let alerts := set_font 1 col (FontSet header_font) alerts in
    Ok (set_fill 1 col header_fill alerts)) (range 1 7) alerts;
  for_enumerate alert_body alert_types 2 alerts.

Definition report_data : list (list pyval) :=
  [ [PStr "Total Inventory Value"; PStr "=SUM(CurrentInventory!E:E)"];
    [PStr "Number of SKUs"; PStr "=COUNTA(CurrentInventory!A:A)-1"];
    [PStr "Items Below Reorder Point"; PStr ("=COUNTIF(CurrentInventory!D:D, " +:+ q "REORDER" +:+ ") + COUNTIF(CurrentInventory!D:D, " +:+ q "CRITICAL" +:+ ")")];
    [PStr "Items Out of Stock"; PStr "=COUNTIF(CurrentInventory!B:B, 0)"];
    [PStr "Critical Stock Items"; PStr ("=COUNTIF(CurrentInventory!D:D, " +:+ q "CRITICAL" +:+ ")")];
    [PStr ""; PStr ""];
    [PStr "Performance Metrics"; PStr ""];
    [PStr "Average Turnover Rate"; PStr "=AVERAGE(CurrentInventory!G:G)"];
    [PStr "Fill Rate (%)"; PStr "=(1-B5/B3)*100"];
    [PStr "Service Level (%)"; PStr ("=COUNTIF(CurrentInventory!D:D, " +:+ q "OK" +:+ ")/B3*100")] ].

(** Body of the loop over [report_data] (lines 542-552). *)
Definition report_body (i : Z) (row : list pyval) (reports : sheet) : result sheet :=
  match row with
  | [label; formula] =>
      reports ← ws_cell i 1 label reports;
      let reports :=
        if truthy label && negb (py_in_strs label ["Performance Metrics"])
        then set_font i 1 (FontSet label_font) reports
        else if py_eq_str label "Performance Metrics"
        then set_font i 1 (FontSet (mkFont true (Some 12))) reports
        else reports in
      ws_cell i 2 formula reports
  | [row0] =>
      reports ← ws_cell i 1 row0 reports;
      Ok (set_font i 1 (FontSet (mkFont true (Some 12))) reports)
  | _ => Ok reports
  end.

(** The Reports sheet (lines 524-552). *)
Definition populate_reports (reports : sheet) : result sheet :=
  reports ← ws_setitem "A1" (PStr "Inventory Dashboard") reports;
  reports ← ws_set_font "A1" (FontSet (mkFont true (Some 14))) reports;
  reports ← merge_cells "A1:B1" reports;
  for_enumerate report_body report_data 2 reports.

(** [for col in range(1, 11): sheet.column_dimensions[get_column_letter(col)].width = 15]. *)
Definition adjust_widths (ws : sheet) : sheet :=
  foldl (fun ws col => set_width (get_column_letter col) 15 ws) ws (range 1 11).

Section Create.
Context {G : RandomGen}.

(** Initial stock (lines 418-428): one draw per SKU. *)
Definition initial_stock_body (sku : string) (trans_data : list (list pyval))
    : rand (list (list pyval)) :=
  quantity ← draw (randint 100 300);
  mret (trans_data ++
    [[PStr (strftime_mdY base_date); PStr sku; PStr "IN"; PInt quantity; PInt 0;
      PStr "PO-2024-001"; PStr "Initial stock"]]).

(** Random transactions (lines 431-446): three draws per transaction. *)
Definition transaction_body (i : Z) (trans_data : list (list pyval))
    : rand (list (list pyval)) :=
  let date := strftime_mdY (plus_days base_date (i / 2)) in
  sku ← draw (choice ["SKU001"; "SKU002"; "SKU003"; "SKU004"; "SKU005"]);
  trans_type ← draw (choice ["IN"; "OUT"; "OUT"; "OUT"]);
  quantity ← draw (if String.eqb trans_type "OUT" then randint 5 50 else randint 50 200);
  let ref :=
    if String.eqb trans_type "OUT" then "SO-2024-" +:+ fmt_0d 3 (i + 1)
    else "PO-2024-" +:+ fmt_0d 3 (i / 10 + 2) in
  mret (trans_data ++
    [[PStr date; PStr sku; PStr trans_type; PInt quantity; PInt 0; PStr ref;
      PStr (if String.eqb trans_type "OUT" then "Customer order" else "Restock")]]).

(** [trans_data] as generated from the current state of the stream
    (lines 414-446); the stream is not seeded here. *)
Definition gen_trans_data : rand (list (list pyval)) :=
  trans_data ← for_each initial_stock_body
    ["SKU001"; "SKU002"; "SKU003"; "SKU004"; "SKU005"] [];
  for_each transaction_body (range 0 50) trans_data.

(** The Transactions sheet (lines 405-450). *)
Definition populate_transactions (transactions : sheet) : rand sheet :=
  transactions ← liftR (for_enumerate header_body trans_headers 1 transactions);
  trans_data ← gen_trans_data;
  liftR (for_enumerate data_row_body trans_data 2 transactions).

(** The workbook that [create_inventory_tracking] builds (lines
    361-557). *)
Definition inventory_workbook : rand workbook :=
  products ← liftR (populate_products empty_sheet);
  transactions ← populate_transactions empty_sheet;
  settings ← liftR (populate_settings empty_sheet);
  current_inv ← liftR (populate_current_inv empty_sheet);
  alerts ← liftR (populate_alerts empty_sheet);
  reports ← liftR (populate_reports empty_sheet);
  mret [ ("Products", adjust_widths products);
         ("Transactions", adjust_widths transactions);
         ("Settings", adjust_widths settings);
         ("CurrentInventory", adjust_widths current_inv);
         ("Alerts", adjust_widths alerts);
         ("Reports", adjust_widths reports) ].

(** [create_inventory_tracking()]. *)
Definition create_inventory_tracking : prog unit :=
  wb ← with_random inventory_workbook;
  wb_save "inventory-tracking.xlsx" wb;;
  print "✅ Created inventory-tracking.xlsx".
End Create.

End Inventory.

(** ** [main] and the script *)

Section Main.
Context {G : RandomGen}.

(** The three generators in the order of lines 582-584, and the closing
    messages. *)
Definition generate_all : prog unit :=
  FinancialModel.create_financial_model;;
  DataAnalysis.create_data_analysis;;
  Inventory.create_inventory_tracking;;
  print "";;
  print "✨ All XLSX files created successfully!";;
  print "";;
  print "You can now:";;
  print "1. Upload these files to Google Sheets (File → Import)";;
  print "2. Share the sheets publicly";;
  print "3. Update the JSON configuration files with the URLs";;
  print "4. Run the converter to generate code".

(** [try: body except Exception as e: handler e]. *)
Definition try_except {A} (body : prog A) (handler : exn -> prog A) : prog A :=
  fun w =>
    match body w with
    | (Ok a, w') => (Ok a, w')
    | (Raise e, w') => handler e w'
    end.

(** [import openpyxl] (line 570). *)
Definition import_openpyxl : prog unit := fun w =>
  if openpyxl_installed w then (Ok tt, w) else (Raise ImportError, w).

(** [main()] (lines 563-598). *)
Definition main : prog unit :=
  print "🚀 Generating XLSX files for examples...";;
  print "";;
  installed ← try_except (import_openpyxl;; mret true) (fun _ =>
    print "❌ Error: openpyxl is not installed.";;
    print "Please install it with: pip install openpyxl";;
    mret false);
  if installed : bool then
    dir ← (fun w => (Ok (script_dir w), w));
    chdir dir;;
    try_except generate_all (fun e =>
      emit (PrintError e);;
      emit (PrintTraceback e))
  else mret tt.

(** The script as the interpreter runs it: the imports of lines 7-12
    first, of which [from openpyxl import Workbook] needs openpyxl, then
    the definitions, then [main()] (line 601).  An exception that
    reaches this level ends the process with a traceback. *)
Definition run_script : prog unit :=
  import_openpyxl;;
  main.

(** The process at its start: nothing printed, a clean output
    directory, and the stream in the state [s0] that the interpreter
    gave it. *)
Definition initial_world (installed : bool) (dir : string) (s0 : rng) : world :=
  mkWorld installed dir [] [] "." s0.
End Main.

(** ** The generated workbooks *)

Definition is_ok {A} (r : result A) : bool :=
  match r with
  | Ok _ => true
  | Raise _ => false
  end.

(** The value of a result that is known to be [Ok]. *)
Definition unwrap {A} (d : A) (r : result A) : A :=
  match r with
  | Ok a => a
  | Raise _ => d
  end.

(** The workbook of the last [save] under the name [file]. *)
Definition saved_workbook (file : string)
    (l : list (string * string * workbook)) : option workbook :=
  snd <$> find (fun p => String.eqb (snd (fst p)) file) (rev l).

(** The value of the cell at (row, column), when the sheet has the cell. *)
Definition cell_value (sh : sheet) (row col : Z) : option pyval :=
  c_value <$> cells sh !! (row, col).

(** A string cell holds a formula when it starts with [=] and is longer
    than that one character. *)
Definition is_formula (s : string) : bool :=
  match s with
  | String a (String _ _) => Ascii.eqb a "="
  | _ => false
  end.

Section Generated.
Context {G : RandomGen}.

(** A run of the script with openpyxl installed. *)
Definition run (dir : string) (s0 : rng) : result unit * world :=
  run_script (initial_world true dir s0).

(** The sheet [title] of the file [file] that a run leaves. *)
Definition generated_sheet (dir : string) (s0 : rng) (file title : string)
    : option sheet :=
  wb ← saved_workbook file (saved (snd (run dir s0)));
  wb_sheet title wb.

(** All sheets that a run leaves, each with its file and title. *)
Definition generated_sheets (dir : string) (s0 : rng)
    : list (string * string * sheet) :=
  '(_, file, wb) ← saved (snd (run dir s0));
  '(title, sh) ← wb;
  [(file, title, sh)].

(** The three workbooks: the financial model, the data analysis as it
    comes out after [random.seed(42)], and the inventory as it comes out
    of the stream in state [s]. *)
Definition financial_wb : workbook :=
  unwrap [] FinancialModel.financial_model_workbook.

Definition data_analysis_wb : workbook :=
  unwrap [] (fst (DataAnalysis.data_analysis_workbook (rng_seed 42))).

(** The state of the stream when [create_data_analysis] returns: 300
    draws after the seed. *)
Definition state_after_data_analysis : rng :=
  snd (DataAnalysis.data_analysis_workbook (rng_seed 42)).

Definition inventory_wb (s : rng) : workbook :=
  unwrap [] (fst (Inventory.inventory_workbook s)).

(** What the script prints when all three workbooks are written. *)
Definition final_stdout : list output :=
  [ Print "🚀 Generating XLSX files for examples...";
    Print "";
    Print "✅ Created financial-model.xlsx";
    Print "✅ Created data-analysis.xlsx";
    Print "✅ Created inventory-tracking.xlsx";
    Print "";
    Print "✨ All XLSX files created successfully!";
    Print "";
    Print "You can now:";
    Print "1. Upload these files to Google Sheets (File → Import)";
    Print "2. Share the sheets publicly";
    Print "3. Update the JSON configuration files with the URLs";
    Print "4. Run the converter to generate code" ].

(** [create_inventory_tracking()] called on its own, in a fresh process
    whose stream is in state [s]. *)
Definition inventory_alone (dir : string) (s : rng) : result unit * world :=
  Inventory.create_inventory_tracking (initial_world true dir s).

End Generated.

(** ** Formulas

    The script stores formulas as strings and never reads them back; the
    spreadsheet application that opens the file does.  To state what a
    formula refers to and what it evaluates to, the strings are parsed
    here into expressions: numbers, strings, cell references with an
    optional sheet, ranges, function calls and the infix operators, with
    the precedence of the spreadsheet language (comparison below [&]
    below [+ -] below [* /] below [^] below unary minus). *)

Module Formula.

Inductive token :=
| TNum (m : Z) (scale : nat)
| TStr (s : string)
| TIdent (s : string)
| TBang
| TColon
| TComma
| TLParen
| TRParen
| TOp (o : string).

Definition quote_char : ascii := ascii_of_nat 34.

Definition is_lower (a : ascii) : bool :=
  let n := Z.of_nat (nat_of_ascii a) in (97 <=? n) && (n <=? 122).

Definition is_ident_start (a : ascii) : bool :=
  is_upper a || is_lower a || Ascii.eqb a "_" || Ascii.eqb a "$".

Definition is_ident_char (a : ascii) : bool :=
  is_ident_start a || is_digit a || Ascii.eqb a ".".

(** The body of a string literal after its opening quote, and what
    follows the closing quote; a quote written twice stands for itself. *)
Fixpoint read_string (s : string) : string * option string :=
  match s with
  | EmptyString => (EmptyString, None)
  | String a s' =>
      if Ascii.eqb a quote_char then
        match s' with
        | String b s'' =>
            if Ascii.eqb b quote_char then
              let '(x, r) := read_string s'' in (String quote_char x, r)
            else (EmptyString, Some s')
        | EmptyString => (EmptyString, Some EmptyString)
        end
      else let '(x, r) := read_string s' in (String a x, r)
  end.

Definition cons_token (t : token) (r : option (list token)) : option (list token) :=
  match r with
  | Some ts => Some (t :: ts)
  | None => None
  end.

Fixpoint tokens_go (fuel : nat) (s : string) : option (list token) :=
  match fuel with
  | O => match s with EmptyString => Some [] | _ => None end
  | S fuel' =>
      match s with
      | EmptyString => Some []
      | String a s' =>
          if Ascii.eqb a " " then tokens_go fuel' s'
          else if Ascii.eqb a quote_char then
            match read_string s' with
            | (body, Some r) => cons_token (TStr body) (tokens_go fuel' r)
            | (_, None) => None
            end
          else if is_digit a then
            let '(ds, r) := span is_digit s in
            match r with
            | String "." r' =>
                let '(fs, r'') := span is_digit r' in
                cons_token (TNum (int_go (ds +:+ fs) 0) (String.length fs))
                  (tokens_go fuel' r'')
            | _ => cons_token (TNum (int_go ds 0) 0) (tokens_go fuel' r)
            end
          else if is_ident_start a then
            let '(id, r) := span is_ident_char s in
            cons_token (TIdent id) (tokens_go fuel' r)
          else if Ascii.eqb a "!" then cons_token TBang (tokens_go fuel' s')
          else if Ascii.eqb a ":" then cons_token TColon (tokens_go fuel' s')
          else if Ascii.eqb a "," then cons_token TComma (tokens_go fuel' s')
          else if Ascii.eqb a "(" then cons_token TLParen (tokens_go fuel' s')
          else if Ascii.eqb a ")" then cons_token TRParen (tokens_go fuel' s')
          else if Ascii.eqb a "<" then
            match s' with
            | String "=" r => cons_token (TOp "<=") (tokens_go fuel' r)
            | String ">" r => cons_token (TOp "<>") (tokens_go fuel' r)
            | _ => cons_token (TOp "<") (tokens_go fuel' s')
            end
          else if Ascii.eqb a ">" then
            match s' with
            | String "=" r => cons_token (TOp ">=") (tokens_go fuel' r)
            | _ => cons_token (TOp ">") (tokens_go fuel' s')
            end
          else if Ascii.eqb a "+" || Ascii.eqb a "-" || Ascii.eqb a "*" ||
                  Ascii.eqb a "/" || Ascii.eqb a "^" || Ascii.eqb a "&" ||
                  Ascii.eqb a "="
          then cons_token (TOp (String a EmptyString)) (tokens_go fuel' s')
          else None
      end
  end.

Definition tokens (s : string) : option (list token) :=
  tokens_go (S (String.length s)) s.

(** References: one cell, a rectangle of cells, or whole columns. *)
Inductive ref :=
| RCell (row col : Z)
| RRange (row1 col1 row2 col2 : Z)
| RCols (col1 col2 : Z).

Inductive binop := Add | Sub | Mul | Div | Pow | Concat | Eq | Ne | Lt | Le | Gt | Ge.

#[warnings="-register-all"]
Inductive expr :=
| ENum (m : Z) (scale : nat)
| EStr (s : string)
| EBool (b : bool)
| ERef (sheet : option string) (r : ref)
| ENeg (e : expr)
| EBin (op : binop) (e1 e2 : expr)
| ECall (f : string) (args : list expr).

#[global] Instance ref_eq_dec : EqDecision ref.
Proof. solve_decision. Defined.

(** The operator of a token and its precedence level. *)
Definition binop_of (o : string) : option (binop * nat) :=
  if String.eqb o "=" then Some (Eq, 0%nat)
  else if String.eqb o "<>" then Some (Ne, 0%nat)
  else if String.eqb o "<" then Some (Lt, 0%nat)
  else if String.eqb o "<=" then Some (Le, 0%nat)
  else if String.eqb o ">" then Some (Gt, 0%nat)
  else if String.eqb o ">=" then Some (Ge, 0%nat)
  else if String.eqb o "&" then Some (Concat, 1%nat)
  else if String.eqb o "+" then Some (Add, 2%nat)
  else if String.eqb o "-" then Some (Sub, 2%nat)
  else if String.eqb o "*" then Some (Mul, 3%nat)
  else if String.eqb o "/" then Some (Div, 3%nat)
  else if String.eqb o "^" then Some (Pow, 4%nat)
  else None.

Definition all_upper (s : string) : bool :=
  match span is_upper s with
  | (String _ _, EmptyString) => true
  | _ => false
  end.

(** A reference at the head of a token list: [B2], [B3:B12] or [D:D]. *)
Definition parse_ref (ts : list token) : option (ref * list token) :=
  match ts with
  | TIdent a :: TColon :: TIdent b :: rest =>
      match coordinate_to_tuple a, coordinate_to_tuple b with
      | Some (r1, c1), Some (r2, c2) => Some (RRange r1 c1 r2 c2, rest)
      | _, _ =>
          if all_upper a && all_upper b
          then Some (RCols (column_index_from_string a) (column_index_from_string b), rest)
          else None
      end
  | TIdent a :: rest =>
      match coordinate_to_tuple a with
      | Some (r, c) => Some (RCell r c, rest)
      | None => None
      end
  | _ => None
  end.

(** Recursive descent with precedence climbing; [lvl] is the lowest
    level of operator that may be consumed, 5 stands for an operand. *)
Fixpoint parse_at (fuel : nat) (lvl : nat) (ts : list token) {struct fuel}
    : option (expr * list token) :=
  match fuel with
  | O => None
  | S fuel' =>
      if (5 <=? lvl)%nat then
        match ts with
        | TOp "-" :: ts' =>
            match parse_at fuel' 5 ts' with
            | Some (e, r) => Some (ENeg e, r)
            | None => None
            end
        | TNum m sc :: ts' => Some (ENum m sc, ts')
        | TStr s :: ts' => Some (EStr s, ts')
        | TLParen :: ts' =>
            match parse_at fuel' 0 ts' with
            | Some (e, TRParen :: r) => Some (e, r)
            | _ => None
            end
        | TIdent f :: TLParen :: TRParen :: ts' => Some (ECall f [], ts')
        | TIdent f :: TLParen :: ts' =>
            match parse_args fuel' ts' with
            | Some (args, r) => Some (ECall f args, r)
            | None => None
            end
        | TIdent sh :: TBang :: ts' =>
            match parse_ref ts' with
            | Some (rf, r) => Some (ERef (Some sh) rf, r)
            | None => None
            end
        | TIdent a :: ts' =>
            if String.eqb a "TRUE" then Some (EBool true, ts')
            else if String.eqb a "FALSE" then Some (EBool false, ts')
            else
              match parse_ref ts with
              | Some (rf, r) => Some (ERef None rf, r)
              | None => None
              end
        | _ => None
        end
      else
        match parse_at fuel' (S lvl) ts with
        | Some (lhs, r) => parse_rest fuel' lvl lhs r
        | None => None
        end
  end
with parse_rest (fuel : nat) (lvl : nat) (lhs : expr) (ts : list token) {struct fuel}
    : option (expr * list token) :=
  match fuel with
  | O => None
  | S fuel' =>
      match ts with
      | TOp o :: ts' =>
          match binop_of o with
          | Some (op, l) =>
              if (l =? lvl)%nat then
                match parse_at fuel' (S lvl) ts' with
                | Some (rhs, r) => parse_rest fuel' lvl (EBin op lhs rhs) r
                | None => None
                end
              else Some (lhs, ts)
          | None => None
          end
      | _ => Some (lhs, ts)
      end
  end
with parse_args (fuel : nat) (ts : list token) {struct fuel}
    : option (list expr * list token) :=
  match fuel with
  | O => None
  | S fuel' =>
      match parse_at fuel' 0 ts with
      | Some (e, TComma :: r) =>
          match parse_args fuel' r with
          | Some (es, r') => Some (e :: es, r')
          | None => None
          end
      | Some (e, TRParen :: r) => Some ([e], r)
      | _ => None
      end
  end.

(** A formula string, [=] followed by one expression. *)
Definition parse (s : string) : option expr :=
  match s with
  | String "=" body =>
      match tokens body with
      | Some ts =>
          match parse_at (8 * S (length ts)) 0 ts with
          | Some (e, []) => Some e
          | _ => None
          end
      | None => None
      end
  | _ => None
  end.

(** The references of an expression, from left to right. *)
Fixpoint refs (e : expr) : list (option string * ref) :=
  match e with
  | ENum _ _ | EStr _ | EBool _ => []
  | ERef sh r => [(sh, r)]
  | ENeg e1 => refs e1
  | EBin _ e1 e2 => refs e1 ++ refs e2
  | ECall _ args => flat_map refs args
  end.

End Formula.

(** ** Evaluation of formulas

    What a formula evaluates to when the workbook is opened: the part of
    the spreadsheet language that the status column of CurrentInventory
    reaches, namely numbers, strings, cell references (a referenced cell
    that holds a formula is evaluated in turn), arithmetic and comparison
    of numbers, [IF], [SUMIFS] over whole columns with criteria that are
    compared for equality, and [VLOOKUP] with an exact match.  Anything
    else has no value here.  Numbers are kept abstract: the application
    computes with floating point, and nothing below depends on how sums,
    products and quotients are rounded. *)

Module Eval.
Import Formula.

(** The numbers of the spreadsheet application: the value of a decimal
    literal [m * 10^-scale], the four operations, the test for zero that
    division makes, and the comparisons.  An integer literal other than 0
    is not zero. *)
Class Numbers := {
  num : Type;
  num_of_decimal : Z -> nat -> num;
  num_add : num -> num -> num;
  num_sub : num -> num -> num;
  num_mul : num -> num -> num;
  num_div : num -> num -> num;
  num_is_zero : num -> bool;
  num_leb : num -> num -> bool;
  num_eqb : num -> num -> bool;
  num_int_nonzero : forall m, m <> 0 -> num_is_zero (num_of_decimal m 0) = false
}.

Section Evaluation.
Context {N : Numbers}.

(** The value of a cell or of an expression: a number, a text, a truth
    value, the value of an empty cell, or an error value such as
    [#DIV/0!]. *)
Inductive xval :=
| XNum (x : num)
| XStr (s : string)
| XBool (b : bool)
| XBlank
| XErr (e : string).

Definition zero : num := num_of_decimal 0 0.

(** The number that an operand of arithmetic or comparison stands for;
    an empty cell counts as 0. *)
Definition as_num (v : xval) : option num :=
  match v with
  | XNum x => Some x
  | XBlank => Some zero
  | _ => None
  end.

Definition eval_arith (op : binop) (x y : num) : option xval :=
  match op with
  | Add => Some (XNum (num_add x y))
  | Sub => Some (XNum (num_sub x y))
  | Mul => Some (XNum (num_mul x y))
  | Div => if num_is_zero y then Some (XErr "#DIV/0!") else Some (XNum (num_div x y))
  | Le => Some (XBool (num_leb x y))
  | Ge => Some (XBool (num_leb y x))
  | Lt => Some (XBool (negb (num_leb y x)))
  | Gt => Some (XBool (negb (num_leb x y)))
  | Eq => Some (XBool (num_eqb x y))
  | Ne => Some (XBool (negb (num_eqb x y)))
  | Pow | Concat => None
  end.

(** An infix operator on two values; an error value in an operand is the
    result. *)
Definition eval_binop (op : binop) (va vb : xval) : option xval :=
  match va, vb with
  | XErr e, _ => Some (XErr e)
  | _, XErr e => Some (XErr e)
  | _, _ =>
      match as_num va, as_num vb with
      | Some x, Some y => eval_arith op x y
      | _, _ => None
      end
  end.

Definition eval_neg (v : xval) : option xval :=
  match v with
  | XErr e => Some (XErr e)
  | _ =>
      match as_num v with
      | Some x => Some (XNum (num_sub zero x))
      | None => None
      end
  end.

(** The value of a cell that holds no formula. *)
Definition literal (v : pyval) : option xval :=
  match v with
  | PNone => Some XBlank
  | PInt n => Some (XNum (num_of_decimal n 0))
  | PFloat x => Some (XNum (num_of_decimal (dec_digits x) (dec_scale x)))
  | PStr s => if is_formula s then None else Some (XStr s)
  end.

(** The value of the cell at (row, column) of the sheet [name], with
    [ev] the evaluation of the formulas of other cells. *)
Definition cell_eval (ev : string -> expr -> option xval) (wb : workbook)
    (name : string) (row col : Z) : option xval :=
  match wb_sheet name wb with
  | None => Some (XErr "#REF!")
  | Some sh =>
      match cell_value sh row col with
      | None => Some XBlank
      | Some (PStr s) =>
          if is_formula s then
            match parse s with
            | Some e => ev name e
            | None => None
            end
          else Some (XStr s)
      | Some v => literal v
      end
  end.

Definition upper_char (a : ascii) : ascii :=
  if is_lower a then ascii_of_nat (nat_of_ascii a - 32) else a.

Fixpoint upper (s : string) : string :=
  match s with
  | EmptyString => EmptyString
  | String a s' => String (upper_char a) (upper s')
  end.

(** Equality of a value with a value looked for; text is compared
    without regard to case. *)
Definition same_value (key v : xval) : bool :=
  match key, v with
  | XStr a, XStr b => String.eqb (upper a) (upper b)
  | XNum x, XNum y => num_eqb x y
  | XBool a, XBool b => Bool.eqb a b
  | _, _ => false
  end.

Definition is_operator_or_wildcard (a : ascii) : bool :=
  Ascii.eqb a "<" || Ascii.eqb a ">" || Ascii.eqb a "=" ||
  Ascii.eqb a "*" || Ascii.eqb a "?" || Ascii.eqb a "~".

Fixpoint plain_text (s : string) : bool :=
  match s with
  | EmptyString => true
  | String a s' => negb (is_operator_or_wildcard a) && plain_text s'
  end.

(** The test that a criterion of [SUMIFS] stands for: equality with a
    number, or with a text that has no comparison operator and no
    wildcard in it. *)
Definition criterion (crit : xval) : option (xval -> bool) :=
  match crit with
  | XNum _ => Some (same_value crit)
  | XStr s => if plain_text s then Some (same_value crit) else None
  | _ => None
  end.

(** The last row of a sheet that has a cell. *)
Definition max_row_of (sh : sheet) : Z :=
  map_fold (fun k _ acc => Z.max (fst k) acc) 0 (cells sh).

Section Columns.
Variable cell : string -> Z -> Z -> option xval.

(** Whether row [r] meets every criterion: each is a sheet, a column and
    the value looked for. *)
Fixpoint criteria_met (crits : list (string * Z * xval)) (r : Z) : option bool :=
  match crits with
  | [] => Some true
  | (name, col, crit) :: crits' =>
      match cell name r col, criterion crit, criteria_met crits' r with
      | Some v, Some p, Some rest => Some (p v && rest)
      | _, _, _ => None
      end
  end.

(** What row [r] adds to the sum: the number in the summed column when
    the row meets the criteria; text and empty cells add nothing. *)
Definition sumifs_term (sum : string * Z) (crits : list (string * Z * xval)) (r : Z)
    : option num :=
  match criteria_met crits r with
  | Some true =>
      match cell (fst sum) r (snd sum) with
      | Some (XNum x) => Some x
      | Some (XErr _) | None => None
      | Some _ => Some zero
      end
  | Some false => Some zero
  | None => None
  end.

Fixpoint sumifs_rows (sum : string * Z) (crits : list (string * Z * xval))
    (rows : list Z) : option num :=
  match rows with
  | [] => Some zero
  | r :: rows' =>
      match sumifs_term sum crits r, sumifs_rows sum crits rows' with
      | Some t, Some rest => Some (num_add t rest)
      | _, _ => None
      end
  end.

(** The first of the rows in which column [col] of the sheet holds the
    key. *)
Fixpoint lookup_row (name : string) (col : Z) (key : xval) (rows : list Z)
    : option (option Z) :=
  match rows with
  | [] => Some None
  | r :: rows' =>
      match cell name r col with
      | Some v => if same_value key v then Some (Some r) else lookup_row name col key rows'
      | None => None
      end
  end.

End Columns.

(** The arguments of [SUMIFS] after the summed column: pairs of a whole
    column and a criterion. *)
Fixpoint sumifs_criteria (ev : expr -> option xval) (cur : string) (args : list expr)
    : option (list (string * Z * xval)) :=
  match args with
  | [] => Some []
  | ERef sh (RCols c1 c2) :: crit :: args' =>
      if c1 =? c2 then
        match ev crit, sumifs_criteria ev cur args' with
        | Some v, Some rest => Some ((default cur sh, c1, v) :: rest)
        | _, _ => None
        end
      else None
  | _ => None
  end.

(** A function call. *)
Definition call (ev : string -> expr -> option xval) (wb : workbook) (cur : string)
    (f : string) (args : list expr) : option xval :=
  if String.eqb f "IF" then
    match args with
    | [c; t; e] =>
        match ev cur c with
        | Some (XBool true) => ev cur t
        | Some (XBool false) | Some XBlank => ev cur e
        | Some (XNum x) => if num_is_zero x then ev cur e else ev cur t
        | Some (XErr err) => Some (XErr err)
        | _ => None
        end
    | _ => None
    end
  else if String.eqb f "SUMIFS" then
    match args with
    | ERef sh (RCols c1 c2) :: args' =>
        if c1 =? c2 then
          match wb_sheet (default cur sh) wb, sumifs_criteria (ev cur) cur args' with
          | Some sheet, Some crits =>
              match sumifs_rows (cell_eval ev wb) (default cur sh, c1) crits
                      (seqZ 1 (max_row_of sheet)) with
              | Some x => Some (XNum x)
              | None => None
              end
          | None, _ => Some (XErr "#REF!")
          | _, None => None
          end
        else None
    | _ => None
    end
  else if String.eqb f "VLOOKUP" then
    match args with
    | [key; ERef sh (RCols c1 c2); ENum index 0; EBool false] =>
        match ev cur key, wb_sheet (default cur sh) wb with
        | Some (XErr err), _ => Some (XErr err)
        | Some k, Some sheet =>
            if (index <? 1) then Some (XErr "#VALUE!")
            else if (c2 - c1 + 1 <? index) then Some (XErr "#REF!")
            else
              match lookup_row (cell_eval ev wb) (default cur sh) c1 k
                      (seqZ 1 (max_row_of sheet)) with
              | Some (Some r) => cell_eval ev wb (default cur sh) r (c1 + index - 1)
              | Some None => Some (XErr "#N/A")
              | None => None
              end
        | Some _, None => Some (XErr "#REF!")
        | None, _ => None
        end
    | _ => None
    end
  else None.

(** The value of an expression in the sheet [cur]; [fuel] bounds the
    depth of operators, calls and references to formula cells. *)
Fixpoint eval (fuel : nat) (wb : workbook) (cur : string) (e : expr) {struct fuel}
    : option xval :=
  match fuel with
  | O => None
  | S fuel' =>
      match e with
      | ENum m sc => Some (XNum (num_of_decimal m sc))
      | EStr s => Some (XStr s)
      | EBool b => Some (XBool b)
      | ERef sh (RCell r c) => cell_eval (eval fuel' wb) wb (default cur sh) r c
      | ERef _ _ => None
      | ENeg a =>
          match eval fuel' wb cur a with
          | Some v => eval_neg v
          | None => None
          end
      | EBin op a b =>
          match eval fuel' wb cur a, eval fuel' wb cur b with
          | Some va, Some vb => eval_binop op va vb
          | _, _ => None
          end
      | ECall f args => call (eval fuel' wb) wb cur f args
      end
  end.

(** The value that the cell at (row, column) of the sheet [name] shows. *)
Definition shown (wb : workbook) (name : string) (row col : Z) : option xval :=
  cell_eval (eval 32 wb) wb name row col.

End Evaluation.
End Eval.

(** ** Vocabulary of the properties *)

Definition is_some {A} (o : option A) : bool :=
  match o with
  | Some _ => true
  | None => false
  end.




(** *** Merged ranges *)

(** The cell at (row, column) lies in the range. *)
Definition range_contains (r : cell_range) (row col : Z) : Prop :=
  min_row r <= row <= max_row r /\ min_col r <= col <= max_col r.

(** No cell belongs to two ranges of the list. *)
Definition no_overlap (l : list cell_range) : Prop :=
  forall (i j : nat) a b, i <> j -> l !! i = Some a -> l !! j = Some b ->
    forall row col, ~ (range_contains a row col /\ range_contains b row col).

Definition ranges_overlap (a b : cell_range) : bool :=
  (min_row a <=? max_row b) && (min_row b <=? max_row a) &&
  (min_col a <=? max_col b) && (min_col b <=? max_col a).

Fixpoint pairwise_disjoint (l : list cell_range) : bool :=
  match l with
  | [] => true
  | r :: l' => forallb (fun r' => negb (ranges_overlap r r')) l' && pairwise_disjoint l'
  end.

(** The number of columns of a range. *)
Definition range_columns (r : cell_range) : Z := max_col r - min_col r + 1.

(** *** Section headers *)

(** A cell is blank when it holds nothing or the empty string. *)
Definition blank_value (v : pyval) : bool :=
  match v with
  | PNone => true
  | PStr s => String.eqb s ""
  | _ => false
  end.

(** A row is blank when every cell the sheet has in it is blank; a row
    that was never written is blank. *)
Definition row_blank (sh : sheet) (row : Z) : Prop :=
  forall col c, cells sh !! (row, col) = Some c -> blank_value (c_value c) = true.

Definition row_blankb (sh : sheet) (row : Z) : bool :=
  forallb (fun kc => negb (fst (fst kc) =? row) || blank_value (c_value (snd kc)))
    (map_to_list (cells sh)).

(** A section header: a label in the emphasised font of the section
    headers and titles, bold with an explicit size, without the fill that
    marks the column headers of a table. *)
Definition is_section_header (c : cell) : bool :=
  match c_font c, c_fill c with
  | FontSet (mkFont true (Some _)), None => negb (blank_value (c_value c))
  | _, _ => false
  end.

(** Every section header of the sheet is in row 1 or below a blank row. *)
Definition headers_placed (sh : sheet) : Prop :=
  forall row col c, cells sh !! (row, col) = Some c -> is_section_header c = true ->
    row = 1 \/ row_blank sh (row - 1).

Definition headers_placedb (sh : sheet) : bool :=
  forallb (fun kc =>
    negb (is_section_header (snd kc)) || (fst (fst kc) =? 1) ||
    row_blankb sh (fst (fst kc) - 1)) (map_to_list (cells sh)).

(** A merged range of the sheet that belongs to a section header: one
    row, anchored in column 1 on a section header. *)
Definition merge_on_header (sh : sheet) (m : cell_range) : Prop :=
  min_row m = max_row m /\ min_col m = 1 /\
  exists c, cells sh !! (min_row m, 1) = Some c /\ is_section_header c = true.

Definition merge_on_headerb (sh : sheet) (m : cell_range) : bool :=
  (min_row m =? max_row m) && (min_col m =? 1) &&
  match cells sh !! (min_row m, 1) with
  | Some c => is_section_header c
  | None => false
  end.

(** The merged ranges of a sheet, each with the label in its first cell
    and its number of columns. *)
Definition merge_spans (fts : string * string * sheet) : list (string * string * string * Z) :=
  let '(file, title, sh) := fts in
  map (fun m =>
    (file, title,
     match cell_value sh (min_row m) (min_col m) with
     | Some (PStr label) => label
     | _ => ""
     end,
     range_columns m)) (merged_cells sh).

(** The span from column letter [a] to column letter [b], as the range
    strings of the source give it ([A1:B1] spans [A] to [B]). *)
Definition column_span (a b : string) : Z :=
  column_index_from_string b - column_index_from_string a + 1.

(** The spans that the source declares, one per [merge_cells] call, in
    the order of the sheets: lines 41, 67 (twice), 105, 121, 146, 171,
    243, 264, 285, 302, 322, 455 and 527. *)
Definition declared_spans : list (string * string * string * Z) :=
  [ ("financial-model.xlsx", "LoanParameters", "Loan Parameters", column_span "A" "B");
    ("financial-model.xlsx", "LoanParameters", "Investment Parameters", column_span "A" "C");
    ("financial-model.xlsx", "LoanParameters", "NPV/IRR Parameters", column_span "A" "C");
    ("financial-model.xlsx", "LoanCalculations", "Loan Analysis", column_span "A" "B");
    ("financial-model.xlsx", "LoanCalculations", "Amortization Schedule", column_span "A" "D");
    ("financial-model.xlsx", "InvestmentAnalysis", "Investment Growth", column_span "A" "B");
    ("financial-model.xlsx", "InvestmentAnalysis", "Sensitivity Analysis", column_span "A" "C");
    ("data-analysis.xlsx", "Parameters", "Analysis Parameters", column_span "A" "B");
    ("data-analysis.xlsx", "Analysis", "Basic Statistics", column_span "A" "B");
    ("data-analysis.xlsx", "Analysis", "Percentile Analysis", column_span "A" "B");
    ("data-analysis.xlsx", "Analysis", "Regional Analysis", column_span "A" "D");
    ("data-analysis.xlsx", "Summary", "Executive Summary", column_span "A" "B");
    ("inventory-tracking.xlsx", "Settings", "Inventory Settings", column_span "A" "B");
    ("inventory-tracking.xlsx", "Reports", "Inventory Dashboard", column_span "A" "B") ].

(** The files and titles of the sheets that a run leaves. *)
Definition sheet_names : list (string * string) :=
  [ ("financial-model.xlsx", "LoanParameters");
    ("financial-model.xlsx", "CashFlows");
    ("financial-model.xlsx", "LoanCalculations");
    ("financial-model.xlsx", "InvestmentAnalysis");
    ("data-analysis.xlsx", "RawData");
    ("data-analysis.xlsx", "Parameters");
    ("data-analysis.xlsx", "Analysis");
    ("data-analysis.xlsx", "Summary");
    ("inventory-tracking.xlsx", "Products");
    ("inventory-tracking.xlsx", "Transactions");
    ("inventory-tracking.xlsx", "Settings");
    ("inventory-tracking.xlsx", "CurrentInventory");
    ("inventory-tracking.xlsx", "Alerts");
    ("inventory-tracking.xlsx", "Reports") ].

(** *** Label and formula rows *)

(** The tables of (label, formula) rows and where their loops write
    them: file, sheet, first row, table (lines 114, 160, 278, 295, 338
    and 542). *)
Definition label_formula_tables : list (string * string * Z * list (list pyval)) :=
  [ ("financial-model.xlsx", "LoanCalculations", 2, FinancialModel.loan_calc_formulas);
    ("financial-model.xlsx", "InvestmentAnalysis", 2, FinancialModel.investment_formulas);
    ("data-analysis.xlsx", "Analysis", 2, DataAnalysis.basic_stats);
    ("data-analysis.xlsx", "Analysis", 13, DataAnalysis.percentiles);
    ("data-analysis.xlsx", "Summary", 2, DataAnalysis.summary_data);
    ("inventory-tracking.xlsx", "Reports", 2, Inventory.report_data) ].

(** The labels that head a block of rows inside such a table. *)
Definition section_titles : list string :=
  [ "Project Analysis"; "Data Quality Report"; "Statistical Tests"; "Performance Metrics" ].

(** The sheet has a cell at (row, column) that is not blank. *)
Definition cell_nonempty (sh : sheet) (row col : Z) : bool :=
  match cell_value sh row col with
  | Some v => negb (blank_value v)
  | None => false
  end.

Section ClaimsAsStated.
Context {G : RandomGen}.

(** The statement that no label and formula row has a label without a
    formula: for each row of each table, in the sheet it was written to,
    a non-empty column 1 comes with a non-empty column 2. *)
Definition formula_cells_filled (dir : string) (s0 : rng) : Prop :=
  forall file title start table (k : nat),
    In (file, title, start, table) label_formula_tables ->
    (k < length table)%nat ->
    match generated_sheet dir s0 file title with
    | Some sh =>
        cell_nonempty sh (start + Z.of_nat k) 1 = true ->
        cell_nonempty sh (start + Z.of_nat k) 2 = true
    | None => False
    end.

(** What holds of one row of a label and formula table in the sheet
    [sh] it was written to: the row is a pair, both elements are in
    columns 1 and 2 of row [start + k], and a non-empty label that is not
    a section title comes with a formula, while a section title comes
    with the empty string. *)
Definition label_formula_row_ok (sh : sheet) (start : Z) (k : nat) (row : list pyval)
    : Prop :=
  exists label formula,
    row = [label; formula] /\
    cell_value sh (start + Z.of_nat k) 1 = Some label /\
    cell_value sh (start + Z.of_nat k) 2 = Some formula /\
    (truthy label = true -> py_in_strs label section_titles = false ->
       exists f, formula = PStr f /\ is_formula f = true) /\
    (py_in_strs label section_titles = true -> formula = PStr "").

Definition label_formula_row_okb (sh : sheet) (start : Z) (k : nat) (row : list pyval)
    : bool :=
  match row with
  | [label; formula] =>
      bool_decide (cell_value sh (start + Z.of_nat k) 1 = Some label) &&
      bool_decide (cell_value sh (start + Z.of_nat k) 2 = Some formula) &&
      (negb (truthy label) || py_in_strs label section_titles ||
       match formula with PStr f => is_formula f | _ => false end) &&
      (negb (py_in_strs label section_titles) || bool_decide (formula = PStr ""))
  | _ => false
  end.

(** The check of a whole table against the sheets of a run. *)
Definition label_formula_table_okb (dir : string) (s0 : rng)
    (t : string * string * Z * list (list pyval)) : bool :=
  let '(file, title, start, table) := t in
  match generated_sheet dir s0 file title with
  | Some sh =>
      forallb (fun kr => label_formula_row_okb sh start (fst kr) (snd kr))
        (imap (fun k row => (k, row)) table)
  | None => false
  end.

End ClaimsAsStated.

(** *** A generator for the examples *)

Definition lcg_next (s : Z) : Z := (s * 1103515245 + 12345) mod 2147483648.

Definition lcg_randbelow (n s : Z) : Z * Z := ((s / 65536) mod n, lcg_next s).

(** A small linear congruential generator: an instance of the interface
    of [random], for the examples below. *)
Definition lcg : RandomGen :=
  {| rng := Z;
     rng_seed := fun a => a mod 2147483648;
     randbelow := lcg_randbelow;
     randbelow_range := fun n s H => Z.mod_pos_bound (s / 65536) n H |}.

(** *** Rows written by a loop over row descriptors *)

(** The sheet has no [MergedCell] in the [n] rows from [first] on. *)
Definition rows_unmerged (sh : sheet) (first n : Z) : Prop :=
  forall row col c, first <= row < first + n ->
    cells sh !! (row, col) = Some c -> c_merged c = false.




(** A string of decimal digits. *)
Fixpoint digits_only (s : string) : bool :=
  match s with
  | EmptyString => true
  | String a s' => is_digit a && digits_only s'
  end.

(** ** Vocabulary of the further properties *)

(** *** Values of formulas *)

(** A sheet without formulas. *)
Definition plain_cells (sh : sheet) : Prop :=
  forall r c s, cell_value sh r c = Some (PStr s) -> is_formula s = false.

Definition plain_value (v : pyval) : Prop :=
  match v with
  | PStr s => is_formula s = false
  | _ => True
  end.

Definition plain_cellsb (sh : sheet) : bool :=
  forallb (fun kc =>
    match c_value (snd kc) with
    | PStr s => negb (is_formula s)
    | _ => true
    end) (map_to_list (cells sh)).

(** A cell that has a value, and not an error value. *)
Definition readable {N : Eval.Numbers} (o : option Eval.xval) : Prop :=
  exists v, o = Some v /\ forall e, v <> Eval.XErr e.

(** Row 1 of the Transactions sheet: the column headers. *)
Definition trans_header_sheet : sheet :=
  unwrap empty_sheet
    (for_enumerate Inventory.header_body Inventory.trans_headers 1 empty_sheet).

(** The parsed formula of a cell. *)
Definition cell_formula (wb : workbook) (name : string) (row col : Z)
    : option Formula.expr :=
  match wb_sheet name wb with
  | Some sh =>
      match cell_value sh row col with
      | Some (PStr s) => if is_formula s then Formula.parse s else None
      | _ => None
      end
  | None => None
  end.

(** The formulas of columns 2 and 4 of CurrentInventory in row [row]
    (lines 487 and 489), parsed. *)
Definition sumifs_transactions (row : Z) (kind : string) : Formula.expr :=
  Formula.ECall "SUMIFS"
    [ Formula.ERef (Some "Transactions") (Formula.RCols 4 4);
      Formula.ERef (Some "Transactions") (Formula.RCols 2 2);
      Formula.ERef None (Formula.RCell row 1);
      Formula.ERef (Some "Transactions") (Formula.RCols 3 3);
      Formula.EStr kind ].

Definition stock_formula (row : Z) : Formula.expr :=
  Formula.EBin Formula.Sub (sumifs_transactions row "IN") (sumifs_transactions row "OUT").

Definition status_formula (row : Z) : Formula.expr :=
  Formula.ECall "IF"
    [ Formula.EBin Formula.Le (Formula.ERef None (Formula.RCell row 2))
        (Formula.EBin Formula.Mul (Formula.ERef None (Formula.RCell row 3))
           (Formula.ERef (Some "Settings") (Formula.RCell 9 2)));
      Formula.EStr "CRITICAL";
      Formula.ECall "IF"
        [ Formula.EBin Formula.Le (Formula.ERef None (Formula.RCell row 2))
            (Formula.ERef None (Formula.RCell row 3));
          Formula.EStr "REORDER"; Formula.EStr "OK" ] ].

(** The rows of CurrentInventory that the loop of line 485 fills. *)
Definition inventory_rows : list Z := seqZ 2 5.

(** Rational numbers as the numbers of the spreadsheet, for the
    examples. *)
Definition Qnum_of_decimal (m : Z) (scale : nat) : Q :=
  Qmake m (Z.to_pos (10 ^ Z.of_nat scale)).

Definition Qis_zero (x : Q) : bool := Z.eqb (Qnum x) 0.

Definition Qnumbers : Eval.Numbers :=
  {| Eval.num := Q;
     Eval.num_of_decimal := Qnum_of_decimal;
     Eval.num_add := Qplus;
     Eval.num_sub := Qminus;
     Eval.num_mul := Qmult;
     Eval.num_div := Qdiv;
     Eval.num_is_zero := Qis_zero;
     Eval.num_leb := Qle_bool;
     Eval.num_eqb := Qeq_bool;
     Eval.num_int_nonzero := fun m H => proj2 (Z.eqb_neq m 0) H |}.

(** *** Header rows and data rows *)

(** A column header as the loops of lines 221-224, 383-386, 409-412 and
    479-482 leave it: the text, the header font and the header fill. *)
Definition header_cell (header : string) : cell :=
  mkCell (PStr header) (FontSet Inventory.header_font) (Some Inventory.header_fill) false.

(** Row 1 of the sheet has no [MergedCell]. *)
Definition row_unmerged (sh : sheet) (row : Z) : Prop :=
  forall col c, cells sh !! (row, col) = Some c -> c_merged c = false.

(** What a loop over the column headers [hs], started at column [first]
    of row 1 on the sheet [sh], has left in [sh']: the header number [k]
    is the cell in column [first + k], every other cell is as it was, and
    so are the merged ranges and the column widths. *)
Definition headers_written (hs : list string) (first : Z) (sh sh' : sheet) : Prop :=
  (forall (k : nat) h, hs !! k = Some h ->
     cells sh' !! (1, first + Z.of_nat k) = Some (header_cell h)) /\
  (forall row col, ~ (row = 1 /\ first <= col < first + Z.of_nat (length hs)) ->
     cells sh' !! (row, col) = cells sh !! (row, col)) /\
  merged_cells sh' = merged_cells sh /\
  column_widths sh' = column_widths sh.

(** The cell at (row, column) belongs to the table [rows] written from
    row [first] on: column [col] of the descriptor of that row. *)
Definition in_table (rows : list (list pyval)) (first row col : Z) : Prop :=
  exists (k : nat) d, rows !! k = Some d /\
    row = first + Z.of_nat k /\ 1 <= col <= Z.of_nat (length d).

(** The cell that [ws.cell(row, column, value)] leaves where [old] was:
    the value, unless it is [None], in a cell that keeps its font and
    fill. *)
Definition written_cell (v : pyval) (old : cell) : cell :=
  mkCell (if decide (v = PNone) then c_value old else v) (c_font old) (c_fill old) false.

(** [cell.font = f]. *)
Definition with_font (f : font_attr) (c : cell) : cell :=
  mkCell (c_value c) f (c_fill c) (c_merged c).

(** A step that writes the element [v] into column [j] of row [i] and
    gives the cell the font that [style] makes of its font. *)
Definition styled_step (i : Z) (style : Z -> pyval -> font_attr -> font_attr)
    (step : Z -> pyval -> sheet -> result sheet) : Prop :=
  forall j v s, 1 <= j ->
    (forall c, cells s !! (i, j) = Some c -> c_merged c = false) ->
    step j v s =
      Ok (put_cell i j
            (with_font (style j v (c_font (get_cell i j s)))
               (written_cell v (get_cell i j s))) s).

(** What a loop that writes the table [rows] from row [first] on, each
    descriptor into the columns from 1 on, has left in [sh']: element [n]
    of descriptor [k] is the value of the cell in row [first + k] and
    column [n + 1] (an element [None] leaves the value that was there);
    the font of that cell is what [style] makes, from the column and the
    element, of the font that was there; every cell outside the table is
    as it was, and so are the merged ranges and the column widths. *)
Definition styled_table_written (style : Z -> pyval -> font_attr -> font_attr)
    (rows : list (list pyval)) (first : Z) (sh sh' : sheet) : Prop :=
  (forall (k n : nat) d v, rows !! k = Some d -> d !! n = Some v ->
     cells sh' !! (first + Z.of_nat k, 1 + Z.of_nat n) =
       Some (with_font
               (style (1 + Z.of_nat n) v
                  (c_font (get_cell (first + Z.of_nat k) (1 + Z.of_nat n) sh)))
               (written_cell v (get_cell (first + Z.of_nat k) (1 + Z.of_nat n) sh)))) /\
  (forall row col, ~ in_table rows first row col ->
     cells sh' !! (row, col) = cells sh !! (row, col)) /\
  merged_cells sh' = merged_cells sh /\
  column_widths sh' = column_widths sh.

(** The loops that only write values keep the fonts. *)
Definition keep_font (j : Z) (v : pyval) (f : font_attr) : font_attr := f.

Definition table_written := styled_table_written keep_font.





(** *** The generated transactions *)

(** The SKUs that get an initial stock and transactions (lines 419 and
    433). *)
Definition stocked_skus : list string :=
  ["SKU001"; "SKU002"; "SKU003"; "SKU004"; "SKU005"].

(** A record of initial stock (lines 420-428). *)
Definition initial_stock_record (sku : string) (d : list pyval) : Prop :=
  exists quantity,
    d = [PStr (strftime_mdY Inventory.base_date); PStr sku; PStr "IN"; PInt quantity;
         PInt 0; PStr "PO-2024-001"; PStr "Initial stock"] /\
    100 <= quantity <= 300.

(** The record of the random transaction number [i] (lines 432-446): an
    outgoing quantity is between 5 and 50 and refers to a sales order, an
    incoming one is between 50 and 200 and refers to a purchase order. *)
Definition transaction_record (i : Z) (d : list pyval) : Prop :=
  exists sku kind quantity ref note,
    d = [PStr (strftime_mdY (plus_days Inventory.base_date (i / 2))); PStr sku; PStr kind;
         PInt quantity; PInt 0; PStr ref; PStr note] /\
    In sku stocked_skus /\
    ((kind = "OUT" /\ 5 <= quantity <= 50 /\
      ref = "SO-2024-" +:+ fmt_0d 3 (i + 1) /\ note = "Customer order") \/
     (kind = "IN" /\ 50 <= quantity <= 200 /\
      ref = "PO-2024-" +:+ fmt_0d 3 (i / 10 + 2) /\ note = "Restock")).

(** What every record of [trans_data] has in common. *)
Definition stock_movement (d : list pyval) : Prop :=
  exists date sku kind quantity ref note,
    d = [PStr date; PStr sku; PStr kind; PInt quantity; PInt 0; PStr ref; PStr note] /\
    In sku stocked_skus /\
    ((kind = "OUT" /\ 5 <= quantity <= 50) \/ (kind = "IN" /\ 50 <= quantity <= 300)).

(** A row of a sheet that holds a stock movement in its columns 1 to 7. *)
Definition movement_row (sh : sheet) (row : Z) : Prop :=
  exists d, stock_movement d /\
    forall (n : nat) v, d !! n = Some v -> cell_value sh row (1 + Z.of_nat n) = Some v.

Definition no_merged_cellb (sh : sheet) : bool :=
  forallb (fun kc => negb (c_merged (snd kc))) (map_to_list (cells sh)).

Definition rows_belowb (sh : sheet) (n : Z) : bool :=
  forallb (fun kc => fst (fst kc) <? n) (map_to_list (cells sh)).

(** *** The sample sales data *)

(** A row of sample sales data (lines 233-238): an amount between 800
    and 4500, a region, a product, the date of the row and the customer
    number of the row. *)
Definition raw_data_row (sh : sheet) (i : Z) : Prop :=
  exists amount region product,
    cell_value sh i 1 = Some (PInt amount) /\ 800 <= amount <= 4500 /\
    cell_value sh i 2 = Some (PStr region) /\ In region DataAnalysis.regions /\
    cell_value sh i 3 = Some (PStr product) /\ In product DataAnalysis.products /\
    cell_value sh i 4 =
      Some (PStr (strftime_mdY (plus_days DataAnalysis.base_date (i - 2)))) /\
    cell_value sh i 5 = Some (PStr ("C" +:+ fmt_0d 3 (i - 1))).

(** Row 1 of the RawData sheet: the column headers. *)
Definition raw_header_sheet : sheet :=
  unwrap empty_sheet
    (for_enumerate DataAnalysis.header_body DataAnalysis.headers 1 empty_sheet).

(** *** What the formulas refer to *)

(** The cells that a reference names one by one; whole columns name
    none. *)
Definition ref_cells (r : Formula.ref) : list (Z * Z) :=
  match r with
  | Formula.RCell row col => [(row, col)]
  | Formula.RRange r1 c1 r2 c2 => range_cells (mkRange c1 r1 c2 r2)
  | Formula.RCols _ _ => []
  end.

(** A reference in a formula of the sheet [cur] resolves in the workbook:
    its sheet, [cur] when the reference names none, is a sheet of the
    workbook, and every cell that it names has been written there. *)
Definition resolves (wb : workbook) (cur : string) (r : option string * Formula.ref)
    : Prop :=
  exists target,
    wb_sheet (default cur (fst r)) wb = Some target /\
    Forall (fun rc => is_Some (cells target !! rc)) (ref_cells (snd r)).

Definition resolvesb (wb : workbook) (cur : string) (r : option string * Formula.ref)
    : bool :=
  match wb_sheet (default cur (fst r)) wb with
  | Some target => forallb (fun rc => is_some (cells target !! rc)) (ref_cells (snd r))
  | None => false
  end.

(** The formula is well formed and all its references resolve. *)
Definition formula_resolved (wb : workbook) (cur : string) (s : string) : Prop :=
  exists e, Formula.parse s = Some e /\ Forall (resolves wb cur) (Formula.refs e).

Definition formula_resolvedb (wb : workbook) (cur : string) (s : string) : bool :=
  match Formula.parse s with
  | Some e => forallb (resolvesb wb cur) (Formula.refs e)
  | None => false
  end.

Definition sheet_formulas_resolved (wb : workbook) (title : string) (sh : sheet) : Prop :=
  forall row col s, cell_value sh row col = Some (PStr s) -> is_formula s = true ->
    formula_resolved wb title s.

Definition sheet_formulas_resolvedb (wb : workbook) (title : string) (sh : sheet) : bool :=
  forallb (fun kc =>
    match c_value (snd kc) with
    | PStr s => negb (is_formula s) || formula_resolvedb wb title s
    | _ => true
    end) (map_to_list (cells sh)).

Definition formulas_resolved (wb : workbook) : Prop :=
  forall title sh, In (title, sh) wb -> sheet_formulas_resolved wb title sh.

(** The sheets that do not depend on the random stream, as their
    [populate] functions leave them. *)
Definition parameters_sheet : sheet :=
  unwrap empty_sheet (DataAnalysis.populate_parameters empty_sheet).
Definition analysis_sheet : sheet :=
  unwrap empty_sheet (DataAnalysis.populate_analysis empty_sheet).
Definition summary_sheet : sheet :=
  unwrap empty_sheet (DataAnalysis.populate_summary empty_sheet).
Definition products_sheet : sheet :=
  unwrap empty_sheet (Inventory.populate_products empty_sheet).
Definition settings_sheet : sheet :=
  unwrap empty_sheet (Inventory.populate_settings empty_sheet).
Definition current_inv_sheet : sheet :=
  unwrap empty_sheet (Inventory.populate_current_inv empty_sheet).
Definition alerts_sheet : sheet :=
  unwrap empty_sheet (Inventory.populate_alerts empty_sheet).
Definition reports_sheet : sheet :=
  unwrap empty_sheet (Inventory.populate_reports empty_sheet).

(** *** Column headers and column widths *)

#[global] Instance cell_eq_dec : EqDecision cell.
Proof. solve_decision. Defined.

(** The rows of column headers that the source declares: file, sheet,
    row, header font of the workbook, and the texts from column 1 on
    (lines 76-82, 123-130, 173-179, 220-224, 304-311, 380-386, 406-412,
    476-482 and 498-508). *)
Definition declared_headers : list (string * string * Z * Font * list string) :=
  [ ("financial-model.xlsx", "CashFlows", 1, FinancialModel.header_font,
     ["Period"; "Cash Flow (NPV)"; "Cash Flow (IRR)"]);
    ("financial-model.xlsx", "LoanCalculations", 8, FinancialModel.header_font,
     ["Month"; "Principal"; "Interest"; "Balance"]);
    ("financial-model.xlsx", "InvestmentAnalysis", 14, FinancialModel.header_font,
     ["Discount Rate"; "NPV"; "Decision"]);
    ("data-analysis.xlsx", "RawData", 1, DataAnalysis.header_font, DataAnalysis.headers);
    ("data-analysis.xlsx", "Analysis", 25, DataAnalysis.header_font,
     ["Region"; "Count"; "Average"; "Total"]);
    ("inventory-tracking.xlsx", "Products", 1, Inventory.header_font,
     Inventory.product_headers);
    ("inventory-tracking.xlsx", "Transactions", 1, Inventory.header_font,
     Inventory.trans_headers);
    ("inventory-tracking.xlsx", "CurrentInventory", 1, Inventory.header_font,
     Inventory.inv_headers);
    ("inventory-tracking.xlsx", "Alerts", 1, Inventory.header_font,
     ["Alert Type"; "Product SKU"; "Message"; "Priority"; "Action Required"; "Date"]) ].

(** A column header: the text, the header font and the grey fill. *)
Definition styled_header (font : Font) (text : string) : cell :=
  mkCell (PStr text) (FontSet font) (Some (mkFill "D3D3D3" "D3D3D3" "solid")) false.

(** The declared row of headers is in its sheet, cell by cell. *)
Definition header_row_written (sheets : list (string * string * sheet))
    (d : string * string * Z * Font * list string) : Prop :=
  let '(file, title, row, font, texts) := d in
  exists sh, In (file, title, sh) sheets /\
    forall (k : nat) text, texts !! k = Some text ->
      cells sh !! (row, 1 + Z.of_nat k) = Some (styled_header font text).

Definition header_row_writtenb (sheets : list (string * string * sheet))
    (d : string * string * Z * Font * list string) : bool :=
  let '(file, title, row, font, texts) := d in
  existsb (fun fts =>
    String.eqb (fst (fst fts)) file && String.eqb (snd (fst fts)) title &&
    forallb (fun kt =>
      bool_decide (cells (snd fts) !! (row, 1 + Z.of_nat (fst kt))
                   = Some (styled_header font (snd kt))))
      (imap (fun k text => (k, text)) texts)) sheets.

(** The cell at (row, column) of the sheet is one of the declared column
    headers. *)
Definition declared_header_at (file title : string) (row col : Z) : Prop :=
  exists font texts, In (file, title, row, font, texts) declared_headers /\
    1 <= col <= Z.of_nat (length texts).

Definition declared_header_atb (file title : string) (row col : Z) : bool :=
  existsb (fun d : string * string * Z * Font * list string =>
    let '(file', title', row', _, texts) := d in
    String.eqb file' file && String.eqb title' title && (row' =? row) &&
    (1 <=? col) && (col <=? Z.of_nat (length texts))) declared_headers.

(** Only column headers have a fill. *)
Definition fills_are_headers (sheets : list (string * string * sheet)) : Prop :=
  forall file title sh row col c,
    In (file, title, sh) sheets -> cells sh !! (row, col) = Some c ->
    c_fill c <> None -> declared_header_at file title row col.

Definition fills_are_headersb (sheets : list (string * string * sheet)) : bool :=
  forallb (fun fts : string * string * sheet =>
    forallb (fun kc : Z * Z * cell =>
      negb (is_some (c_fill (snd kc))) ||
      declared_header_atb (fst (fst fts)) (snd (fst fts)) (fst (fst kc)) (snd (fst kc)))
      (map_to_list (cells (snd fts)))) sheets.

(** The column widths that each workbook sets on all its sheets: the
    letters of the columns and the width (lines 192-195, 350-353 and
    554-557). *)
Definition declared_widths (file : string) : list string * Z :=
  if String.eqb file "financial-model.xlsx" then (["A"; "B"; "C"; "D"], 20)
  else if String.eqb file "data-analysis.xlsx" then (["A"; "B"; "C"; "D"; "E"], 18)
  else (["A"; "B"; "C"; "D"; "E"; "F"; "G"; "H"; "I"; "J"], 15).

(** The sheet has the width [w] on the columns [letters] and no width on
    any other column. *)
Definition widths_set (letters : list string) (w : Z) (sh : sheet) : Prop :=
  (forall letter, In letter letters -> column_widths sh !! letter = Some w) /\
  (forall letter, ~ In letter letters -> column_widths sh !! letter = None).

Definition widths_setb (letters : list string) (w : Z) (sh : sheet) : bool :=
  forallb (fun letter => bool_decide (column_widths sh !! letter = Some w)) letters &&
  forallb (fun kw : string * Z => existsb (String.eqb (fst kw)) letters)
    (map_to_list (column_widths sh)).

(** * Properties *)

(** ** The run as a whole *)

Lemma is_ok_unwrap {A} (d : A) (r : result A) :
  is_ok r = true -> r = Ok (unwrap d r).
Proof. destruct r; simpl; [reflexivity | discriminate]. Qed.

Lemma pair_ok_unwrap {A S} (d : A) (p : result A * S) :
  is_ok (fst p) = true -> p = (Ok (unwrap d (fst p)), snd p).
Proof. destruct p as [[a | e] s]; simpl; [reflexivity | discriminate]. Qed.

Lemma is_some_default {A} (d : A) (o : option A) :
  is_some o = true -> o = Some (default d o).
Proof. destruct o; simpl; [reflexivity | discriminate]. Qed.

Lemma forallb_Forall {A} (p : A -> bool) (P : A -> Prop) (l : list A) :
  (forall x, p x = true -> P x) -> forallb p l = true -> Forall P l.
Proof.
  intros Hp H. rewrite forallb_forall in H.
  apply Forall_forall. intros x Hx. apply Hp, H, list_elem_of_In, Hx.
Qed.

Section RunFacts.
Context {G : RandomGen}.

Lemma financial_model_workbook_ok :
  is_ok FinancialModel.financial_model_workbook = true.
Proof. vm_compute. reflexivity. Qed.

Lemma data_analysis_workbook_ok (s : rng) :
  is_ok (fst (DataAnalysis.data_analysis_workbook s)) = true.
Proof. vm_compute. reflexivity. Qed.

Lemma inventory_workbook_ok (s : rng) :
  is_ok (fst (Inventory.inventory_workbook s)) = true.
Proof. vm_compute. reflexivity. Qed.

Lemma financial_model_workbook_eq :
  FinancialModel.financial_model_workbook = Ok financial_wb.
Proof. exact (is_ok_unwrap [] _ financial_model_workbook_ok). Qed.

(** [create_data_analysis] seeds the stream before its first draw, so
    the state it starts from does not matter. *)
Lemma data_analysis_workbook_reseeds (s s' : rng) :
  DataAnalysis.data_analysis_workbook s = DataAnalysis.data_analysis_workbook s'.
Proof.
  unfold DataAnalysis.data_analysis_workbook, DataAnalysis.populate_raw_data.
  unfold mbind, rand_bind, liftR.
  rewrite (is_ok_unwrap empty_sheet
    (for_enumerate DataAnalysis.header_body DataAnalysis.headers 1 empty_sheet))
    by (vm_compute; reflexivity).
  reflexivity.
Qed.

Lemma data_analysis_workbook_eq (s : rng) :
  DataAnalysis.data_analysis_workbook s =
  (Ok data_analysis_wb, state_after_data_analysis).
Proof.
  rewrite (data_analysis_workbook_reseeds s (rng_seed 42)).
  exact (pair_ok_unwrap [] _ (data_analysis_workbook_ok (rng_seed 42))).
Qed.

Lemma inventory_workbook_eq (s : rng) :
  fst (Inventory.inventory_workbook s) = Ok (inventory_wb s).
Proof. exact (is_ok_unwrap [] _ (inventory_workbook_ok s)). Qed.

Ltac run_steps :=
  cbv [mbind prog_bind mret prog_ret try_except import_openpyxl initial_world
       print emit chdir wb_save liftW with_random openpyxl_installed script_dir
       stdout saved cwd random_state app].

(** A run with openpyxl installed ends normally, having printed
    [final_stdout] and saved the three workbooks in the directory of the
    script; the inventory is generated from the stream as the data
    analysis left it. *)
Lemma run_spec (dir : string) (s0 : rng) :
  run dir s0 =
  (Ok tt,
   mkWorld true dir final_stdout
     [ (dir, "financial-model.xlsx", financial_wb);
       (dir, "data-analysis.xlsx", data_analysis_wb);
       (dir, "inventory-tracking.xlsx", inventory_wb state_after_data_analysis) ]
     dir (snd (Inventory.inventory_workbook state_after_data_analysis))).
Proof.
  unfold run, run_script, main, generate_all.
  unfold FinancialModel.create_financial_model, DataAnalysis.create_data_analysis,
    Inventory.create_inventory_tracking.
  run_steps.
  rewrite financial_model_workbook_eq.
  rewrite data_analysis_workbook_eq.
  cbn [fst snd].
  rewrite inventory_workbook_eq.
  reflexivity.
Qed.

(** [create_inventory_tracking] on its own saves the inventory generated
    from the state the stream happens to be in. *)
Lemma inventory_alone_spec (dir : string) (s : rng) :
  saved (snd (inventory_alone dir s)) =
  [ (".", "inventory-tracking.xlsx", inventory_wb s) ].
Proof.
  unfold inventory_alone, Inventory.create_inventory_tracking.
  run_steps.
  rewrite inventory_workbook_eq.
  reflexivity.
Qed.

Lemma generated_sheet_financial (dir : string) (s0 : rng) (title : string) :
  generated_sheet dir s0 "financial-model.xlsx" title = wb_sheet title financial_wb.
Proof. unfold generated_sheet. rewrite run_spec. reflexivity. Qed.

Lemma generated_sheet_data_analysis (dir : string) (s0 : rng) (title : string) :
  generated_sheet dir s0 "data-analysis.xlsx" title = wb_sheet title data_analysis_wb.
Proof. unfold generated_sheet. rewrite run_spec. reflexivity. Qed.

Lemma generated_sheet_inventory (dir : string) (s0 : rng) (title : string) :
  generated_sheet dir s0 "inventory-tracking.xlsx" title =
  wb_sheet title (inventory_wb state_after_data_analysis).
Proof. unfold generated_sheet. rewrite run_spec. reflexivity. Qed.

End RunFacts.

(** ** The missing dependency *)

(** C1 (the code departs from it): with openpyxl absent the script prints
    no diagnostic and does not end cleanly.  The import of line 10 fails
    before [main] is called, so the process ends on an uncaught
    [ImportError] with nothing printed; the handler of lines 569-574, which
    would have printed the two lines of install guidance and returned, is
    never reached. *)
Theorem C1_missing_openpyxl_escapes_the_handler `{G : RandomGen}
    (dir : string) (s0 : rng) :
  run_script (initial_world false dir s0) =
    (Raise ImportError, initial_world false dir s0) /\
  main (initial_world false dir s0) =
    (Ok tt,
     mkWorld false dir
       [ Print "🚀 Generating XLSX files for examples...";
         Print "";
         Print "❌ Error: openpyxl is not installed.";
         Print "Please install it with: pip install openpyxl" ]
       [] "." s0).
Proof. split; reflexivity. Qed.

(** ** Reproducibility *)

Section Reproducible.
Context {G : RandomGen}.



End Reproducible.


(** ** Cells of the generated sheets *)

Section Cells.
Context {G : RandomGen}.

Lemma generated_financial_sheet (dir : string) (s0 : rng) (title : string) :
  is_some (wb_sheet title financial_wb) = true ->
  generated_sheet dir s0 "financial-model.xlsx" title =
    Some (default empty_sheet (wb_sheet title financial_wb)).
Proof.
  intros H. rewrite generated_sheet_financial. apply is_some_default, H.
Qed.

Lemma generated_data_analysis_sheet (dir : string) (s0 : rng) (title : string) :
  is_some (wb_sheet title data_analysis_wb) = true ->
  generated_sheet dir s0 "data-analysis.xlsx" title =
    Some (default empty_sheet (wb_sheet title data_analysis_wb)).
Proof.
  intros H. rewrite generated_sheet_data_analysis. apply is_some_default, H.
Qed.

Lemma generated_inventory_sheet (dir : string) (s0 : rng) (title : string) :
  is_some (wb_sheet title (inventory_wb state_after_data_analysis)) = true ->
  generated_sheet dir s0 "inventory-tracking.xlsx" title =
    Some (default empty_sheet (wb_sheet title (inventory_wb state_after_data_analysis))).
Proof.
  intros H. rewrite generated_sheet_inventory. apply is_some_default, H.
Qed.

End Cells.

(** C4: in the generated financial model, LoanCalculations!B2 holds a
    formula whose references are LoanParameters!B2, LoanParameters!B3 and
    LoanParameters!B4, in this order and no other; in LoanParameters these
    rows are the annual interest rate, the loan term and the loan
    principal. *)
Theorem C4_monthly_payment_references `{G : RandomGen} (dir : string) (s0 : rng) :
  exists loan_calcs loan_params f e,
    generated_sheet dir s0 "financial-model.xlsx" "LoanCalculations" = Some loan_calcs /\
    generated_sheet dir s0 "financial-model.xlsx" "LoanParameters" = Some loan_params /\
    cell_value loan_calcs 2 2 = Some (PStr f) /\
    Formula.parse f = Some e /\
    Formula.refs e =
      [ (Some "LoanParameters", Formula.RCell 2 2);
        (Some "LoanParameters", Formula.RCell 3 2);
        (Some "LoanParameters", Formula.RCell 4 2) ] /\
    cell_value loan_params 2 1 = Some (PStr "Annual Interest Rate") /\
    cell_value loan_params 2 2 = Some (PFloat (dec 5 2)) /\
    cell_value loan_params 3 1 = Some (PStr "Loan Term (Years)") /\
    cell_value loan_params 3 2 = Some (PInt 30) /\
    cell_value loan_params 4 1 = Some (PStr "Loan Principal") /\
    cell_value loan_params 4 2 = Some (PInt 500000).
Proof.
  eexists _, _, _, _.
  split; [apply generated_financial_sheet; vm_compute; reflexivity |].
  split; [apply generated_financial_sheet; vm_compute; reflexivity |].
  split; [vm_compute; reflexivity |].
  split; [vm_compute; reflexivity |].
  repeat split; vm_compute; reflexivity.
Qed.

(** C10: in the Alerts sheet of the generated inventory workbook, rows 2
    to 5 carry the four alert types in column 1; rows 2 and 3 ('Stock
    Level', 'Reorder Point') have formulas in columns 2 to 4 and nothing
    in columns 5 and 6; rows 4 and 5 ('Overstock', 'Slow Moving') have no
    cell at all in columns 2 to 6. *)
Theorem C10_alerts_rows `{G : RandomGen} (dir : string) (s0 : rng) :
  exists alerts,
    generated_sheet dir s0 "inventory-tracking.xlsx" "Alerts" = Some alerts /\
    cell_value alerts 2 1 = Some (PStr "Stock Level") /\
    cell_value alerts 3 1 = Some (PStr "Reorder Point") /\
    cell_value alerts 4 1 = Some (PStr "Overstock") /\
    cell_value alerts 5 1 = Some (PStr "Slow Moving") /\
    (forall row col, 2 <= row <= 3 -> 2 <= col <= 4 ->
       exists f, cell_value alerts row col = Some (PStr f) /\ is_formula f = true) /\
    (forall row col, 2 <= row <= 3 -> 5 <= col <= 6 ->
       cells alerts !! (row, col) = None) /\
    (forall row col, 4 <= row <= 5 -> 2 <= col <= 6 ->
       cells alerts !! (row, col) = None).
Proof.
  eexists.
  split; [apply generated_inventory_sheet; vm_compute; reflexivity |].
  do 4 (split; [vm_compute; reflexivity |]).
  split; [| split].
  - intros row col Hrow Hcol.
    assert (Hr : row = 2 \/ row = 3) by lia.
    assert (Hc : col = 2 \/ col = 3 \/ col = 4) by lia.
    destruct Hr as [-> | ->]; destruct Hc as [-> | [-> | ->]];
      eexists; (split; [vm_compute; reflexivity | reflexivity]).
  - intros row col Hrow Hcol.
    assert (Hr : row = 2 \/ row = 3) by lia.
    assert (Hc : col = 5 \/ col = 6) by lia.
    destruct Hr as [-> | ->]; destruct Hc as [-> | ->]; vm_compute; reflexivity.
  - intros row col Hrow Hcol.
    assert (Hr : row = 4 \/ row = 5) by lia.
    assert (Hc : col = 2 \/ col = 3 \/ col = 4 \/ col = 5 \/ col = 6) by lia.
    destruct Hr as [-> | ->]; destruct Hc as [-> | [-> | [-> | [-> | ->]]]];
      vm_compute; reflexivity.
Qed.

(** ** Merged ranges and section headers *)

Lemma ranges_overlap_spec (a b : cell_range) (row col : Z) :
  ranges_overlap a b = false ->
  ~ (range_contains a row col /\ range_contains b row col).
Proof.
  unfold ranges_overlap, range_contains. intros H [Ha Hb].
  repeat (apply andb_false_iff in H; destruct H as [H | H]);
    apply Z.leb_gt in H; lia.
Qed.

Lemma ranges_overlap_sym (a b : cell_range) :
  ranges_overlap a b = ranges_overlap b a.
Proof.
  unfold ranges_overlap.
  destruct (min_row a <=? max_row b), (min_row b <=? max_row a),
    (min_col a <=? max_col b), (min_col b <=? max_col a); reflexivity.
Qed.

Lemma pairwise_disjoint_spec (l : list cell_range) :
  pairwise_disjoint l = true -> no_overlap l.
Proof.
  induction l as [| r l IH]; intros H i j a b Hij Ha Hb row col.
  - rewrite lookup_nil in Ha. discriminate.
  - simpl in H. apply andb_true_iff in H as [Hhead Htail].
    rewrite forallb_forall in Hhead.
    destruct i as [| i], j as [| j]; simpl in Ha, Hb.
    + congruence.
    + injection Ha as <-. apply ranges_overlap_spec.
      apply negb_true_iff, Hhead, list_elem_of_In, list_elem_of_lookup. eauto.
    + injection Hb as <-. apply ranges_overlap_spec.
      rewrite ranges_overlap_sym.
      apply negb_true_iff, Hhead, list_elem_of_In, list_elem_of_lookup. eauto.
    + apply (IH Htail i j a b); [congruence | assumption | assumption].
Qed.

Lemma row_blankb_spec (sh : sheet) (row : Z) :
  row_blankb sh row = true -> row_blank sh row.
Proof.
  unfold row_blankb, row_blank. intros H col c Hc.
  rewrite forallb_forall in H.
  apply elem_of_map_to_list, list_elem_of_In in Hc.
  specialize (H _ Hc). simpl in H.
  rewrite Z.eqb_refl in H. exact H.
Qed.

Lemma headers_placedb_spec (sh : sheet) :
  headers_placedb sh = true -> headers_placed sh.
Proof.
  unfold headers_placedb, headers_placed. intros H row col c Hc Hhdr.
  rewrite forallb_forall in H.
  apply elem_of_map_to_list, list_elem_of_In in Hc.
  specialize (H _ Hc). simpl in H. rewrite Hhdr in H. simpl in H.
  destruct (row =? 1) eqn:E.
  - left. apply Z.eqb_eq, E.
  - right. apply row_blankb_spec, H.
Qed.

Lemma merge_on_headerb_spec (sh : sheet) (m : cell_range) :
  merge_on_headerb sh m = true -> merge_on_header sh m.
Proof.
  unfold merge_on_headerb, merge_on_header. intros H.
  apply andb_true_iff in H as [H Hc]. apply andb_true_iff in H as [Hr Hcol].
  split; [apply Z.eqb_eq, Hr |]. split; [apply Z.eqb_eq, Hcol |].
  destruct (cells sh !! (min_row m, 1)) as [c |]; [| discriminate].
  exists c. split; [reflexivity | exact Hc].
Qed.

(** C7: in every sheet that a run leaves, each section header is in row 1
    or directly below a blank row.  Each registered merge range is one
    row high, starts in column 1 on a section header, and the merge
    ranges, with the label they start on and their number of columns, are
    the spans that the source declares. *)
Theorem C7_section_headers `{G : RandomGen} (dir : string) (s0 : rng) :
  map fst (generated_sheets dir s0) = sheet_names /\
  Forall (fun fts => headers_placed (snd fts)) (generated_sheets dir s0) /\
  Forall (fun fts => Forall (merge_on_header (snd fts)) (merged_cells (snd fts)))
    (generated_sheets dir s0) /\
  flat_map merge_spans (generated_sheets dir s0) = declared_spans.
Proof.
  split; [vm_compute; reflexivity |].
  split; [| split].
  - apply (forallb_Forall (fun fts => headers_placedb (snd fts))).
    + intros fts. apply headers_placedb_spec.
    + vm_compute. reflexivity.
  - apply (forallb_Forall
      (fun fts => forallb (merge_on_headerb (snd fts)) (merged_cells (snd fts)))).
    + intros fts H. revert H. apply forallb_Forall.
      intros m. apply merge_on_headerb_spec.
    + vm_compute. reflexivity.
  - vm_compute. reflexivity.
Qed.

(** C8: in every sheet that a run leaves, no cell belongs to two of the
    registered merge ranges. *)
Theorem C8_merged_ranges_do_not_overlap `{G : RandomGen} (dir : string) (s0 : rng) :
  map fst (generated_sheets dir s0) = sheet_names /\
  Forall (fun fts => no_overlap (merged_cells (snd fts))) (generated_sheets dir s0).
Proof.
  split; [vm_compute; reflexivity |].
  apply (forallb_Forall (fun fts => pairwise_disjoint (merged_cells (snd fts)))).
  - intros fts. apply pairwise_disjoint_spec.
  - vm_compute. reflexivity.
Qed.

(** ** Label and formula rows *)

(** C2 as stated fails: row 7 of InvestmentAnalysis in the financial
    model is the row [['Project Analysis', '']] of [investment_formulas];
    its column 1 holds the label and its column 2 the empty string. *)
Lemma C2_section_title_rows_have_no_formula :
  ~ formula_cells_filled (G := lcg) "." 0.
Proof.
  intros H.
  specialize (H "financial-model.xlsx" "InvestmentAnalysis" 2
                FinancialModel.investment_formulas 5%nat).
  assert (Hin : In ("financial-model.xlsx", "InvestmentAnalysis", 2,
                    FinancialModel.investment_formulas) label_formula_tables)
    by (simpl; auto).
  assert (Hk : (5 < length FinancialModel.investment_formulas)%nat)
    by (simpl; lia).
  specialize (H Hin Hk).
  rewrite generated_financial_sheet in H by (vm_compute; reflexivity).
  cbv beta iota in H.
  set (sh := default empty_sheet (wb_sheet "InvestmentAnalysis" financial_wb)) in H.
  assert (H1 : cell_nonempty sh (2 + Z.of_nat 5) 1 = true) by (vm_compute; reflexivity).
  assert (H2 : cell_nonempty sh (2 + Z.of_nat 5) 2 = false) by (vm_compute; reflexivity).
  rewrite H2 in H. discriminate (H H1).
Qed.

Section LabelFormula.
Context {G : RandomGen}.

Lemma label_formula_row_okb_spec sh start k row :
  label_formula_row_okb sh start k row = true -> label_formula_row_ok sh start k row.
Proof.
  unfold label_formula_row_okb, label_formula_row_ok.
  destruct row as [| label [| formula [| ? ?]]]; try discriminate.
  intros H. repeat (apply andb_true_iff in H as [H ?]).
  exists label, formula. split; [reflexivity |].
  split; [eapply bool_decide_eq_true_1; eassumption |].
  split; [eapply bool_decide_eq_true_1; eassumption |].
  split.
  - intros Ht Hs.
    match goal with H : (_ || _ || _) = true |- _ => rewrite Ht, Hs in H; simpl in H end.
    destruct formula as [| f | |]; try discriminate. eauto.
  - intros Hs.
    match goal with H : (negb _ || _) = true |- _ => rewrite Hs in H; simpl in H end.
    eapply bool_decide_eq_true_1; eassumption.
Qed.

Lemma label_formula_tables_ok (dir : string) (s0 : rng) :
  forallb (label_formula_table_okb dir s0) label_formula_tables = true.
Proof. vm_compute. reflexivity. Qed.

End LabelFormula.

(** C2 (amended): every row of a label and formula table is written as a
    pair into columns 1 and 2 of its row, and when the label is non-empty
    and is not one of the section titles 'Project Analysis', 'Data Quality
    Report', 'Statistical Tests' and 'Performance Metrics', column 2 holds
    a formula; for a section title column 2 holds the empty string. *)
Theorem C2_labelled_rows_have_formulas `{G : RandomGen} (dir : string) (s0 : rng)
    file title start table (k : nat) row :
  In (file, title, start, table) label_formula_tables ->
  table !! k = Some row ->
  exists sh,
    generated_sheet dir s0 file title = Some sh /\
    label_formula_row_ok sh start k row.
Proof.
  intros Hin Hk.
  pose proof (label_formula_tables_ok dir s0) as H.
  rewrite forallb_forall in H. specialize (H _ Hin).
  unfold label_formula_table_okb in H.
  destruct (generated_sheet dir s0 file title) as [sh |]; [| discriminate].
  exists sh. split; [reflexivity |].
  apply label_formula_row_okb_spec.
  rewrite forallb_forall in H.
  apply (H (k, row)).
  apply list_elem_of_In, list_elem_of_lookup. exists k.
  rewrite list_lookup_imap, Hk. reflexivity.
Qed.

Lemma C2_labelled_rows_have_formulas_witness :
  exists sh,
    generated_sheet (G := lcg) "." 0 "financial-model.xlsx" "LoanCalculations" = Some sh /\
    label_formula_row_ok sh 2 0
      [ PStr "Monthly Payment";
        PStr "=PMT(LoanParameters!B2/12, LoanParameters!B3*12, -LoanParameters!B4)" ].
Proof.
  apply (C2_labelled_rows_have_formulas (G := lcg) "." 0
           "financial-model.xlsx" "LoanCalculations" 2
           FinancialModel.loan_calc_formulas 0).
  - simpl. left. reflexivity.
  - reflexivity.
Defined.

(** ** The inventory and the shared stream *)

Section Stream.
Context {G : RandomGen}.

(** The first quantity of the Transactions sheet is the first draw of
    [create_inventory_tracking]: [randint(100, 300)] on the state the
    stream is in when the function starts. *)
Lemma transactions_first_quantity (s : rng) :
  exists transactions,
    wb_sheet "Transactions" (inventory_wb s) = Some transactions /\
    cell_value transactions 2 4 = Some (PInt (100 + fst (randbelow 201 s))).
Proof.
  exists (default empty_sheet (wb_sheet "Transactions" (inventory_wb s))). split.
  - apply is_some_default. vm_compute. reflexivity.
  - vm_compute. reflexivity.
Qed.

Lemma transactions_differ (s1 s2 : rng) :
  fst (randbelow 201 s1) <> fst (randbelow 201 s2) ->
  wb_sheet "Transactions" (inventory_wb s1) <> wb_sheet "Transactions" (inventory_wb s2).
Proof.
  intros Hne Heq.
  destruct (transactions_first_quantity s1) as (t1 & Ht1 & Hq1).
  destruct (transactions_first_quantity s2) as (t2 & Ht2 & Hq2).
  rewrite Ht1, Ht2 in Heq. injection Heq as ->.
  rewrite Hq1 in Hq2. injection Hq2 as Hq. lia.
Qed.

End Stream.

(** C9: the Transactions sheet that a run of the script leaves does not
    depend on the state the stream starts in, because it is the sheet
    that [create_inventory_tracking] generates from the state in which
    [create_data_analysis] left the stream after seeding it with 42.
    Called on its own, [create_inventory_tracking] saves the inventory
    generated from whatever state the stream is in, and two states that
    differ in their first draw give different Transactions sheets. *)
Theorem C9_inventory_depends_on_the_stream `{G : RandomGen}
    (dir : string) (s1 s2 : rng) :
  fst (randbelow 201 s1) <> fst (randbelow 201 s2) ->
  (forall s0 s0',
     generated_sheet dir s0 "inventory-tracking.xlsx" "Transactions" =
     generated_sheet dir s0' "inventory-tracking.xlsx" "Transactions") /\
  (forall s0,
     generated_sheet dir s0 "inventory-tracking.xlsx" "Transactions" =
     wb_sheet "Transactions" (inventory_wb state_after_data_analysis)) /\
  (forall s,
     saved_workbook "inventory-tracking.xlsx" (saved (snd (inventory_alone dir s))) =
     Some (inventory_wb s)) /\
  wb_sheet "Transactions" (inventory_wb s1) <> wb_sheet "Transactions" (inventory_wb s2).
Proof.
  intros Hne. split; [| split; [| split]].
  - intros s0 s0'. rewrite !generated_sheet_inventory. reflexivity.
  - intros s0. apply generated_sheet_inventory.
  - intros s. rewrite inventory_alone_spec. reflexivity.
  - apply transactions_differ, Hne.
Qed.

Lemma C9_inventory_depends_on_the_stream_witness :
  wb_sheet "Transactions" (inventory_wb (G := lcg) 0) <>
  wb_sheet "Transactions" (inventory_wb (G := lcg) 65536).
Proof.
  apply (C9_inventory_depends_on_the_stream (G := lcg) "." 0 65536).
  vm_compute. discriminate.
Defined.

(** ** Loops over row descriptors *)

(** *** Decimal strings and range strings *)

#[local] Arguments digit_char : simpl never.
#[local] Arguments str_int : simpl never.

Lemma digit_char_facts (d : Z) :
  0 <= d < 10 ->
  is_digit (digit_char d) = true /\
  is_upper (digit_char d) = false /\
  Ascii.eqb (digit_char d) ":" = false /\
  Z.of_nat (nat_of_ascii (digit_char d)) - 48 = d.
Proof.
  intros H.
  assert (Hd : d = 0 \/ d = 1 \/ d = 2 \/ d = 3 \/ d = 4 \/
               d = 5 \/ d = 6 \/ d = 7 \/ d = 8 \/ d = 9) by lia.
  repeat (destruct Hd as [-> | Hd]; [repeat split; reflexivity |]).
  subst d. repeat split; reflexivity.
Qed.

Lemma append_cons (a : ascii) (s t : string) :
  String a s +:+ t = String a (s +:+ t).
Proof. reflexivity. Qed.

Lemma digits_only_cons (a : ascii) (s : string) :
  digits_only (String a s) = is_digit a && digits_only s.
Proof. reflexivity. Qed.

Lemma int_go_cons (a : ascii) (s : string) (acc : Z) :
  int_go (String a s) acc = int_go s (acc * 10 + (Z.of_nat (nat_of_ascii a) - 48)).
Proof. reflexivity. Qed.

Lemma int_go_nil (acc : Z) : int_go EmptyString acc = acc.
Proof. reflexivity. Qed.

Lemma append_nil_r (s : string) : s +:+ EmptyString = s.
Proof.
  induction s as [| b s IH]; [reflexivity |].
  rewrite append_cons, IH. reflexivity.
Qed.

Lemma append_String_assoc (s : string) (a : ascii) (t : string) :
  (s +:+ String a EmptyString) +:+ t = s +:+ String a t.
Proof.
  induction s as [| b s IH]; [reflexivity |].
  rewrite !append_cons, IH. reflexivity.
Qed.

Lemma int_go_app (s t : string) (acc : Z) :
  int_go (s +:+ t) acc = int_go t (int_go s acc).
Proof.
  revert acc. induction s as [| a s IH]; intros acc; [reflexivity |].
  rewrite append_cons, !int_go_cons. apply IH.
Qed.

Lemma digits_only_app (s t : string) :
  digits_only (s +:+ t) = digits_only s && digits_only t.
Proof.
  induction s as [| a s IH]; [reflexivity |].
  rewrite append_cons, !digits_only_cons, IH. apply andb_assoc.
Qed.

Lemma length_app_one (s : string) (a : ascii) :
  String.length (s +:+ String a EmptyString) = S (String.length s).
Proof.
  induction s as [| b s IH]; [reflexivity |].
  rewrite append_cons. simpl. rewrite IH. reflexivity.
Qed.

(** One decimal digit as a string. *)
Lemma one_digit_spec (n : Z) (acc : string) :
  0 <= n < 10 ->
  String (digit_char n) acc = String (digit_char n) EmptyString +:+ acc /\
  String (digit_char n) EmptyString <> EmptyString /\
  digits_only (String (digit_char n) EmptyString) = true /\
  forall a, int_go (String (digit_char n) EmptyString) a =
            a * 10 ^ Z.of_nat (String.length (String (digit_char n) EmptyString)) + n.
Proof.
  intros Hn. destruct (digit_char_facts _ Hn) as (Hdig & _ & _ & Hval).
  split; [reflexivity |]. split; [discriminate |].
  split; [rewrite digits_only_cons, Hdig; reflexivity |].
  intros a. rewrite int_go_cons, int_go_nil, Hval.
  change (Z.of_nat (String.length (String (digit_char n) EmptyString))) with 1.
  lia.
Qed.

(** [digits_go] with enough fuel prepends the decimal digits of [n]. *)
Lemma digits_go_spec (fuel : nat) :
  forall n acc, 0 <= n < 2 ^ Z.of_nat (S fuel) ->
  exists ds,
    digits_go (S fuel) n acc = ds +:+ acc /\
    ds <> EmptyString /\
    digits_only ds = true /\
    forall a, int_go ds a = a * 10 ^ Z.of_nat (String.length ds) + n.
Proof.
  induction fuel as [| fuel IH]; intros n acc Hn.
  - assert (Hsmall : 0 <= n < 10) by (change (2 ^ Z.of_nat 1) with 2 in Hn; lia).
    assert (Hq : n / 10 = 0) by (apply Z.div_small; exact Hsmall).
    assert (Hm : n mod 10 = n) by (apply Z.mod_small; exact Hsmall).
    exists (String (digit_char n) EmptyString).
    change (digits_go 1 n acc) with
      (if n / 10 =? 0 then String (digit_char (n mod 10)) acc
       else String (digit_char (n mod 10)) acc).
    rewrite Hq, Hm. apply one_digit_spec, Hsmall.
  - change (digits_go (S (S fuel)) n acc) with
      (if n / 10 =? 0 then String (digit_char (n mod 10)) acc
       else digits_go (S fuel) (n / 10) (String (digit_char (n mod 10)) acc)).
    assert (Hd : 0 <= n mod 10 < 10) by (apply Z.mod_pos_bound; lia).
    destruct (n / 10 =? 0) eqn:Hq.
    + apply Z.eqb_eq in Hq.
      assert (Hm : n mod 10 = n) by (pose proof (Z.div_mod n 10); lia).
      exists (String (digit_char n) EmptyString).
      rewrite Hm. apply one_digit_spec. lia.
    + assert (Hn' : 0 <= n / 10 < 2 ^ Z.of_nat (S fuel)).
      { split; [apply Z.div_pos; lia |].
        apply Z.div_lt_upper_bound; [lia |].
        replace (Z.of_nat (S (S fuel))) with (Z.succ (Z.of_nat (S fuel))) in Hn by lia.
        rewrite Z.pow_succ_r in Hn by lia. lia. }
      destruct (IH (n / 10) (String (digit_char (n mod 10)) acc) Hn')
        as (ds & Hgo & Hne & Hdo & Hint).
      destruct (digit_char_facts _ Hd) as (Hdig & _ & _ & Hval).
      exists (ds +:+ String (digit_char (n mod 10)) EmptyString).
      split; [rewrite Hgo, append_String_assoc; reflexivity |].
      split; [destruct ds; discriminate |].
      split; [rewrite digits_only_app, Hdo, digits_only_cons, Hdig; reflexivity |].
      intros a. rewrite int_go_app, Hint, length_app_one, int_go_cons, int_go_nil.
      rewrite Hval.
      replace (Z.of_nat (S (String.length ds))) with (Z.succ (Z.of_nat (String.length ds)))
        by lia.
      rewrite Z.pow_succ_r by lia.
      pose proof (Z.div_mod n 10). lia.
Qed.

(** [str_int] of a positive integer is a string of digits that reads
    back as the integer. *)
Lemma str_int_spec (i : Z) :
  1 <= i ->
  str_int i <> EmptyString /\ digits_only (str_int i) = true /\ int_go (str_int i) 0 = i.
Proof.
  intros Hi. unfold str_int.
  destruct (i <? 0) eqn:E; [apply Z.ltb_lt in E; lia |].
  destruct (digits_go_spec (Z.to_nat (Z.log2 i)) i EmptyString) as (ds & Hgo & Hne & Hdo & Hint).
  - split; [lia |].
    pose proof (Z.log2_spec i ltac:(lia)) as [_ Hlt].
    pose proof (Z.log2_nonneg i).
    replace (Z.of_nat (S (Z.to_nat (Z.log2 i)))) with (Z.succ (Z.log2 i)) by lia.
    exact Hlt.
  - rewrite Hgo, append_nil_r. split; [exact Hne |]. split; [exact Hdo |].
    rewrite Hint. lia.
Qed.






(** *** Writes of one cell *)

Lemma lookup_put_cell (row col : Z) (c : cell) (sh : sheet) (r k : Z) :
  cells (put_cell row col c sh) !! (r, k) =
    if decide ((row, col) = (r, k)) then Some c else cells sh !! (r, k).
Proof. unfold put_cell. simpl. apply lookup_insert. Qed.

Lemma lookup_put_cell_eq (row col : Z) (c : cell) (sh : sheet) :
  cells (put_cell row col c sh) !! (row, col) = Some c.
Proof. rewrite lookup_put_cell. rewrite decide_True by reflexivity. reflexivity. Qed.

Lemma lookup_put_cell_ne (row col : Z) (c : cell) (sh : sheet) (r k : Z) :
  (row, col) <> (r, k) ->
  cells (put_cell row col c sh) !! (r, k) = cells sh !! (r, k).
Proof. intros H. rewrite lookup_put_cell. rewrite decide_False by exact H. reflexivity. Qed.

Lemma put_cell_twice (row col : Z) (c c' : cell) (sh : sheet) :
  put_cell row col c' (put_cell row col c sh) = put_cell row col c' sh.
Proof. unfold put_cell. simpl. rewrite insert_insert_eq. reflexivity. Qed.

Lemma get_cell_put_cell (row col : Z) (c : cell) (sh : sheet) :
  get_cell row col (put_cell row col c sh) = c.
Proof. unfold get_cell. rewrite lookup_put_cell_eq. reflexivity. Qed.

Lemma set_font_put_cell (row col : Z) (f : font_attr) (c : cell) (sh : sheet) :
  set_font row col f (put_cell row col c sh) =
    put_cell row col (mkCell (c_value c) f (c_fill c) (c_merged c)) sh.
Proof. unfold set_font. rewrite get_cell_put_cell. apply put_cell_twice. Qed.


(** *** One row, column by column *)


(** *** The rows, one after the other *)


(** *** The two loop bodies *)








(** * Further properties *)

(** ** Loops and sequencing *)

Lemma Ok_inj {A} (a b : A) : Ok a = Ok b -> a = b.
Proof. intros H. injection H as H. exact H. Qed.

Lemma pair_snd_eq {A B} (a a' : A) (b b' : B) : (a, b) = (a', b') -> b = b'.
Proof. intros H. injection H as _ H. exact H. Qed.

Lemma for_enumerate_result_inv {A S : Type} (body : Z -> A -> S -> result S)
    (P : A -> Prop) (I : S -> Prop) :
  (forall i x s s', P x -> I s -> body i x s = Ok s' -> I s') ->
  forall l i s s', Forall P l -> I s -> for_enumerate body l i s = Ok s' -> I s'.
Proof.
  intros Hbody l. induction l as [| x l IH]; intros i s s' Hl Hs Hrun.
  - simpl in Hrun. injection Hrun as <-. exact Hs.
  - apply Forall_cons in Hl as [Hx Hl]. simpl in Hrun.
    unfold mbind, result_bind in Hrun.
    destruct (body i x s) as [s1 | e] eqn:E; [| discriminate].
    apply (IH (i + 1) s1 s' Hl); [| exact Hrun].
    apply (Hbody i x s s1 Hx Hs E).
Qed.

Section RandLoops.
Context {G : RandomGen}.

Lemma rand_bind_liftR {A B : Type} (r : result A) (k : A -> rand B) (s : rng) :
  (liftR r ≫= k) s = match r with Ok a => k a s | Raise e => (Raise e, s) end.
Proof. destruct r; reflexivity. Qed.

Lemma rand_bind_ok {A B : Type} (m : rand A) (k : A -> rand B) (s s1 : rng) (a : A) :
  m s = (Ok a, s1) -> (m ≫= k) s = k a s1.
Proof. intros H. unfold mbind, rand_bind. rewrite H. reflexivity. Qed.

Lemma for_each_rand_inv {A S : Type} (body : A -> S -> rand S)
    (P : A -> Prop) (I : S -> Prop) :
  (forall x acc s, P x -> I acc ->
     exists acc' s', body x acc s = (Ok acc', s') /\ I acc') ->
  forall l acc s, Forall P l -> I acc ->
    exists acc' s', for_each body l acc s = (Ok acc', s') /\ I acc'.
Proof.
  intros Hbody l. induction l as [| x l IH]; intros acc s Hl Hacc.
  - exists acc, s. split; [reflexivity | exact Hacc].
  - apply Forall_cons in Hl as [Hx Hl].
    destruct (Hbody x acc s Hx Hacc) as (acc1 & s1 & H1 & Hacc1).
    destruct (IH acc1 s1 Hl Hacc1) as (acc' & s' & H' & Hacc').
    exists acc', s'. split; [| exact Hacc'].
    simpl. unfold mbind, rand_bind. rewrite H1. exact H'.
Qed.

(** A loop that appends one element per step. *)
Lemma for_each_append {A B : Type} (body : A -> list B -> rand (list B))
    (R : A -> B -> Prop) :
  (forall x acc s, exists b s', body x acc s = (Ok (acc ++ [b]), s') /\ R x b) ->
  forall l acc s,
    exists bs s', for_each body l acc s = (Ok (acc ++ bs), s') /\ Forall2 R l bs.
Proof.
  intros Hbody l. induction l as [| x l IH]; intros acc s.
  - exists [], s. split; [| constructor]. simpl. rewrite app_nil_r. reflexivity.
  - destruct (Hbody x acc s) as (b & s1 & H1 & Hb).
    destruct (IH (acc ++ [b]) s1) as (bs & s' & H' & Hbs).
    exists (b :: bs), s'. split; [| constructor; assumption].
    simpl. rewrite (rand_bind_ok _ _ s s1 _ H1), H'.
    rewrite <- app_assoc. reflexivity.
Qed.

End RandLoops.

(** ** The generators and the script in any world *)


Section AnyWorld.
Context {G : RandomGen}.




End AnyWorld.

Section AnyWorld2.
Context {G : RandomGen}.


End AnyWorld2.

Section AnyWorld3.
Context {G : RandomGen}.



End AnyWorld3.



(** ** Sheets without formulas *)

Lemma plain_cellsb_spec (sh : sheet) : plain_cellsb sh = true -> plain_cells sh.
Proof.
  unfold plain_cellsb, plain_cells, cell_value. intros H r c s Hc.
  rewrite forallb_forall in H.
  destruct (cells sh !! (r, c)) as [cl |] eqn:E; [| discriminate].
  simpl in Hc. injection Hc as Hc.
  apply elem_of_map_to_list, list_elem_of_In in E.
  specialize (H _ E). simpl in H. rewrite Hc in H.
  apply negb_true_iff, H.
Qed.

Lemma ws_cell_plain (i j : Z) (v : pyval) (s s' : sheet) :
  plain_value v -> plain_cells s -> ws_cell i j v s = Ok s' -> plain_cells s'.
Proof.
  intros Hv Hs Hrun. unfold ws_cell in Hrun.
  destruct ((i <? 1) || (j <? 1)); [discriminate |].
  assert (Hold : plain_value (c_value (get_cell i j s))).
  { unfold get_cell. destruct (cells s !! (i, j)) as [c |] eqn:E; simpl; [| exact I].
    destruct (c_value c) as [| t | |] eqn:Ec; simpl; try exact I.
    apply (Hs i j t). unfold cell_value. rewrite E. simpl. rewrite Ec. reflexivity. }
  assert (Hput : forall c, plain_value (c_value c) -> plain_cells (put_cell i j c s)).
  { intros c Hc r k t Ht. unfold cell_value in Ht. rewrite lookup_put_cell in Ht.
    destruct (decide ((i, j) = (r, k))).
    - simpl in Ht. injection Ht as Ht. rewrite Ht in Hc. exact Hc.
    - apply (Hs r k t). exact Ht. }
  unfold set_value, mbind, result_bind in Hrun.
  destruct v as [| t | n | x].
  - injection Hrun as <-. apply Hput, Hold.
  - destruct (c_merged (get_cell i j s)); [discriminate |].
    injection Hrun as <-. apply Hput. exact Hv.
  - destruct (c_merged (get_cell i j s)); [discriminate |].
    injection Hrun as <-. apply Hput. exact I.
  - destruct (c_merged (get_cell i j s)); [discriminate |].
    injection Hrun as <-. apply Hput. exact I.
Qed.

Lemma data_row_body_plain (i : Z) (row : list pyval) (s s' : sheet) :
  Forall plain_value row -> plain_cells s ->
  Inventory.data_row_body i row s = Ok s' -> plain_cells s'.
Proof.
  intros Hrow Hs Hrun. unfold Inventory.data_row_body in Hrun.
  apply (for_enumerate_result_inv (fun j value ws => ws_cell i j value ws)
           plain_value plain_cells) with (l := row) (i := 1) (s := s);
    [| exact Hrow | exact Hs | exact Hrun].
  intros j v s0 s1 Hv Hs0 H. apply (ws_cell_plain i j v s0 s1 Hv Hs0 H).
Qed.

Lemma adjust_widths_cells (sh : sheet) :
  cells (Inventory.adjust_widths sh) = cells sh.
Proof. reflexivity. Qed.

Section Transactions.
Context {G : RandomGen}.

Lemma choice_plain (seq : list string) (s : rng) :
  Forall (fun x => is_formula x = false) seq ->
  is_formula (fst (choice seq s)) = false.
Proof.
  intros H. unfold choice. simpl.
  generalize (Z.to_nat (fst (randbelow (Z.of_nat (length seq)) s))). intros n.
  revert n. induction H as [| x seq Hx Hseq IH]; intros n.
  - destruct n; reflexivity.
  - destruct n; simpl; [exact Hx | apply IH].
Qed.

Lemma gen_trans_data_plain (s : rng) :
  exists td s',
    Inventory.gen_trans_data s = (Ok td, s') /\ Forall (Forall plain_value) td.
Proof.
  unfold Inventory.gen_trans_data.
  destruct (for_each_rand_inv Inventory.initial_stock_body
              (fun sku => is_formula sku = false) (Forall (Forall plain_value)))
    with (l := ["SKU001"; "SKU002"; "SKU003"; "SKU004"; "SKU005"])
         (acc := @nil (list pyval)) (s := s) as (td1 & s1 & H1 & Htd1).
  - intros sku acc s0 Hsku Hacc. eexists _, _. split; [reflexivity |].
    apply Forall_app. split; [exact Hacc |].
    repeat constructor. exact Hsku.
  - repeat constructor.
  - constructor.
  - destruct (for_each_rand_inv Inventory.transaction_body
                (fun i => is_formula (strftime_mdY (plus_days Inventory.base_date (i / 2)))
                          = false)
                (Forall (Forall plain_value)))
      with (l := range 0 50) (acc := td1) (s := s1) as (td & s' & H2 & Htd).
    + intros i acc s0 Hi Hacc. eexists _, _. split; [reflexivity |].
      apply Forall_app. split; [exact Hacc |].
      constructor; [| constructor].
      constructor; [exact Hi |].
      constructor; [apply choice_plain; repeat constructor |].
      constructor; [apply choice_plain; repeat constructor |].
      constructor; [exact I |].
      constructor; [exact I |].
      constructor.
      { simpl. match goal with |- context [if ?b then _ else _] => destruct b end;
          reflexivity. }
      constructor; [| constructor].
      simpl. match goal with |- context [if ?b then _ else _] => destruct b end;
        reflexivity.
    + apply (forallb_Forall
        (fun i => negb (is_formula (strftime_mdY (plus_days Inventory.base_date (i / 2)))))).
      * intros i Hi. apply negb_true_iff, Hi.
      * vm_compute. reflexivity.
    + exact Htd1.
    + exists td, s'. split; [| exact Htd].
      unfold mbind. unfold rand_bind at 1. rewrite H1. exact H2.
Qed.

Lemma populate_transactions_ok (s : rng) :
  is_ok (fst (Inventory.populate_transactions empty_sheet s)) = true.
Proof. vm_compute. reflexivity. Qed.

Lemma trans_headers_ok :
  for_enumerate Inventory.header_body Inventory.trans_headers 1 empty_sheet =
  Ok trans_header_sheet.
Proof. unfold trans_header_sheet. apply is_ok_unwrap. vm_compute. reflexivity. Qed.

Lemma trans_headers_plain :
  plain_cells trans_header_sheet.
Proof. apply plain_cellsb_spec. vm_compute. reflexivity. Qed.

Lemma populate_transactions_eq (s s1 : rng) (td : list (list pyval)) :
  Inventory.gen_trans_data s = (Ok td, s1) ->
  Inventory.populate_transactions empty_sheet s =
    (for_enumerate Inventory.data_row_body td 2
       trans_header_sheet,
     s1).
Proof.
  intros Htd. unfold Inventory.populate_transactions.
  rewrite rand_bind_liftR, trans_headers_ok.
  rewrite (rand_bind_ok _ _ s s1 td Htd).
  reflexivity.
Qed.

Lemma populate_transactions_plain (s : rng) :
  exists t s',
    Inventory.populate_transactions empty_sheet s = (Ok t, s') /\ plain_cells t.
Proof.
  destruct (gen_trans_data_plain s) as (td & s1 & Htd & Hplain).
  pose proof (populate_transactions_ok s) as Hok.
  rewrite (populate_transactions_eq s s1 td Htd) in Hok.
  rewrite (populate_transactions_eq s s1 td Htd).
  destruct (for_enumerate Inventory.data_row_body td 2
              trans_header_sheet)
    as [t | e] eqn:Et; [| discriminate Hok].
  exists t, s1. split; [reflexivity |].
  apply (for_enumerate_result_inv Inventory.data_row_body (Forall plain_value) plain_cells)
    with (l := td) (i := 2)
         (s := trans_header_sheet);
    [| exact Hplain | exact trans_headers_plain | exact Et].
  intros i row s0 s2 Hrow Hs0 H. apply (data_row_body_plain i row s0 s2 Hrow Hs0 H).
Qed.

Lemma inventory_wb_transactions (s s' : rng) (t : sheet) :
  Inventory.populate_transactions empty_sheet s = (Ok t, s') ->
  wb_sheet "Transactions" (inventory_wb s) = Some (Inventory.adjust_widths t).
Proof.
  intros Ht. unfold inventory_wb, Inventory.inventory_workbook.
  rewrite rand_bind_liftR,
    (is_ok_unwrap empty_sheet (Inventory.populate_products empty_sheet))
    by (vm_compute; reflexivity).
  rewrite (rand_bind_ok _ _ s s' t Ht).
  rewrite rand_bind_liftR,
    (is_ok_unwrap empty_sheet (Inventory.populate_settings empty_sheet))
    by (vm_compute; reflexivity).
  rewrite rand_bind_liftR,
    (is_ok_unwrap empty_sheet (Inventory.populate_current_inv empty_sheet))
    by (vm_compute; reflexivity).
  rewrite rand_bind_liftR,
    (is_ok_unwrap empty_sheet (Inventory.populate_alerts empty_sheet))
    by (vm_compute; reflexivity).
  rewrite rand_bind_liftR,
    (is_ok_unwrap empty_sheet (Inventory.populate_reports empty_sheet))
    by (vm_compute; reflexivity).
  reflexivity.
Qed.

(** The Transactions sheet of the inventory, whatever the stream gives:
    a sheet of the workbook, and without formulas. *)
Lemma transactions_plain (s : rng) :
  exists transactions,
    wb_sheet "Transactions" (inventory_wb s) = Some transactions /\
    plain_cells transactions.
Proof.
  destruct (populate_transactions_plain s) as (t & s' & Ht & Hplain).
  exists (Inventory.adjust_widths t).
  split; [exact (inventory_wb_transactions s s' t Ht) |].
  intros r c v Hv. apply (Hplain r c v). exact Hv.
Qed.

End Transactions.


(** ** Header rows and data rows *)

Lemma set_fill_put_cell (row col : Z) (p : PatternFill) (c : cell) (sh : sheet) :
  set_fill row col p (put_cell row col c sh) =
    put_cell row col (mkCell (c_value c) (c_font c) (Some p) (c_merged c)) sh.
Proof. unfold set_fill. rewrite get_cell_put_cell. apply put_cell_twice. Qed.

(** [ws.cell] on a cell that is not a [MergedCell]: the cell that it
    leaves. *)
Lemma ws_cell_exact (row col : Z) (v : pyval) (sh : sheet) :
  1 <= row -> 1 <= col ->
  (forall c, cells sh !! (row, col) = Some c -> c_merged c = false) ->
  ws_cell row col v sh =
    Ok (put_cell row col
          (mkCell (if decide (v = PNone) then c_value (get_cell row col sh) else v)
             (c_font (get_cell row col sh)) (c_fill (get_cell row col sh)) false) sh).
Proof.
  intros Hrow Hcol Hun. unfold ws_cell.
  assert (Hm : c_merged (get_cell row col sh) = false).
  { unfold get_cell. destruct (cells sh !! (row, col)) as [c |] eqn:E; simpl.
    - apply Hun. reflexivity.
    - reflexivity. }
  destruct (row <? 1) eqn:E1; [apply Z.ltb_lt in E1; lia |].
  destruct (col <? 1) eqn:E2; [apply Z.ltb_lt in E2; lia |].
  simpl orb. cbv iota.
  destruct v as [| s | n | x]; unfold set_value; rewrite ?Hm; simpl.
  - destruct (get_cell row col sh) as [cv cf cl cm]. simpl in Hm. subst cm. reflexivity.
  - reflexivity.
  - reflexivity.
  - reflexivity.
Qed.

Lemma header_body_exact (j : Z) (h : string) (s : sheet) :
  1 <= j ->
  (forall c, cells s !! (1, j) = Some c -> c_merged c = false) ->
  Inventory.header_body j h s = Ok (put_cell 1 j (header_cell h) s).
Proof.
  intros Hj Hun. unfold Inventory.header_body.
  rewrite (ws_cell_exact 1 j (PStr h) s ltac:(lia) Hj Hun).
  unfold mbind, result_bind.
  rewrite set_font_put_cell, set_fill_put_cell. reflexivity.
Qed.

Lemma header_loop (hs : list string) :
  forall (first : Z) (s : sheet),
    1 <= first -> row_unmerged s 1 ->
    exists s',
      for_enumerate Inventory.header_body hs first s = Ok s' /\
      headers_written hs first s s'.
Proof.
  induction hs as [| h hs IH]; intros first s Hfirst Hun.
  - exists s. split; [reflexivity |].
    split; [intros k h Hk; rewrite lookup_nil in Hk; discriminate |].
    split; [reflexivity |]. split; reflexivity.
  - destruct (IH (first + 1) (put_cell 1 first (header_cell h) s))
      as (s' & Hs' & Hcells & Hframe & Hmerged & Hwidths).
    + lia.
    + intros col c Hc. rewrite lookup_put_cell in Hc.
      destruct (decide ((1, first) = (1, col))).
      * injection Hc as <-. reflexivity.
      * apply (Hun col c Hc).
    + exists s'. split.
      { simpl. unfold mbind, result_bind.
        rewrite (header_body_exact first h s Hfirst (Hun first)). exact Hs'. }
      split; [| split; [| split]].
      * intros k h' Hk. destruct k as [| k]; simpl in Hk.
        -- injection Hk as <-. replace (first + Z.of_nat 0) with first by lia.
           rewrite Hframe by lia. apply lookup_put_cell_eq.
        -- replace (first + Z.of_nat (S k)) with (first + 1 + Z.of_nat k) by lia.
           apply (Hcells k h' Hk).
      * intros row col Hout. simpl length in Hout.
        rewrite Hframe by lia.
        apply lookup_put_cell_ne. intros E. injection E as E1 E2. lia.
      * exact Hmerged.
      * exact Hwidths.
Qed.

Lemma unmerged_after_put (i j j' : Z) (c : cell) (sh : sheet) :
  j <> j' -> row_unmerged sh i ->
  forall c', cells (put_cell i j c sh) !! (i, j') = Some c' -> c_merged c' = false.
Proof.
  intros Hj Hun c' Hc'. rewrite lookup_put_cell_ne in Hc' by congruence.
  apply (Hun j' c' Hc').
Qed.

Lemma row_unmerged_put (i j : Z) (c : cell) (sh : sheet) :
  c_merged c = false -> row_unmerged sh i -> row_unmerged (put_cell i j c sh) i.
Proof.
  intros Hc Hun col c' Hc'. rewrite lookup_put_cell in Hc'.
  destruct (decide ((i, j) = (i, col))).
  - injection Hc' as <-. exact Hc.
  - apply (Hun col c' Hc').
Qed.

Lemma get_cell_eq (s s' : sheet) (row col : Z) :
  cells s' !! (row, col) = cells s !! (row, col) ->
  get_cell row col s' = get_cell row col s.
Proof. intros H. unfold get_cell. rewrite H. reflexivity. Qed.

(** One descriptor, written into the columns from [j0] on of row [i]. *)
Lemma columns_styled (i : Z) (style : Z -> pyval -> font_attr -> font_attr)
    (step : Z -> pyval -> sheet -> result sheet) (d : list pyval) :
  styled_step i style step ->
  forall (j0 : Z) (s : sheet),
    1 <= j0 -> row_unmerged s i ->
    exists s',
      for_enumerate step d j0 s = Ok s' /\
      (forall (n : nat) v, d !! n = Some v ->
         cells s' !! (i, j0 + Z.of_nat n) =
           Some (with_font (style (j0 + Z.of_nat n) v
                              (c_font (get_cell i (j0 + Z.of_nat n) s)))
                   (written_cell v (get_cell i (j0 + Z.of_nat n) s)))) /\
      (forall row col, ~ (row = i /\ j0 <= col < j0 + Z.of_nat (length d)) ->
         cells s' !! (row, col) = cells s !! (row, col)) /\
      merged_cells s' = merged_cells s /\
      column_widths s' = column_widths s.
Proof.
  intros Hstep. induction d as [| v d IH]; intros j0 s Hj Hun.
  - exists s. split; [reflexivity |].
    split; [intros n v Hn; rewrite lookup_nil in Hn; discriminate |].
    split; [reflexivity |]. split; reflexivity.
  - pose proof (Hstep j0 v s Hj (Hun j0)) as Hcell.
    set (c0 := with_font (style j0 v (c_font (get_cell i j0 s)))
                 (written_cell v (get_cell i j0 s))) in Hcell.
    destruct (IH (j0 + 1) (put_cell i j0 c0 s) ltac:(lia))
      as (s' & Hs' & Hcells & Hframe & Hmerged & Hwidths).
    { intros col c Hc. rewrite lookup_put_cell in Hc.
      destruct (decide ((i, j0) = (i, col))).
      - injection Hc as <-. reflexivity.
      - apply (Hun col c Hc). }
    exists s'. split.
    { simpl. unfold mbind, result_bind. rewrite Hcell. exact Hs'. }
    split; [| split; [| split]].
    + intros n w Hn. destruct n as [| n]; simpl in Hn.
      * injection Hn as <-. replace (j0 + Z.of_nat 0) with j0 by lia.
        rewrite Hframe by lia. apply lookup_put_cell_eq.
      * replace (j0 + Z.of_nat (S n)) with (j0 + 1 + Z.of_nat n) by lia.
        rewrite (Hcells n w Hn).
        rewrite (get_cell_eq s (put_cell i j0 c0 s)); [reflexivity |].
        apply lookup_put_cell_ne. intros E. injection E as E. lia.
    + intros row col Hout. simpl length in Hout.
      rewrite Hframe by lia.
      apply lookup_put_cell_ne. intros E. injection E as E1 E2. lia.
    + exact Hmerged.
    + exact Hwidths.
Qed.

Lemma in_table_cons (d : list pyval) (rows : list (list pyval)) (first row col : Z) :
  in_table (d :: rows) first row col <->
  (row = first /\ 1 <= col <= Z.of_nat (length d)) \/ in_table rows (first + 1) row col.
Proof.
  unfold in_table. split.
  - intros (k & d' & Hk & Hrow & Hcol). destruct k as [| k]; simpl in Hk.
    + injection Hk as <-. left. split; [lia | exact Hcol].
    + right. exists k, d'. split; [exact Hk |]. split; [lia | exact Hcol].
  - intros [[Hrow Hcol] | (k & d' & Hk & Hrow & Hcol)].
    + exists 0%nat, d. split; [reflexivity |]. split; [lia | exact Hcol].
    + exists (S k), d'. split; [exact Hk |]. split; [lia | exact Hcol].
Qed.

Lemma in_table_row (rows : list (list pyval)) (first row col : Z) :
  in_table rows first row col -> first <= row < first + Z.of_nat (length rows).
Proof.
  intros (k & d & Hk & Hrow & _). apply lookup_lt_Some in Hk. lia.
Qed.

(** The table, row by row: [body] writes the descriptors that satisfy
    [accepts] column by column. *)
Lemma table_styled (style : Z -> pyval -> font_attr -> font_attr)
    (accepts : list pyval -> Prop)
    (body : Z -> list pyval -> sheet -> result sheet)
    (step : Z -> Z -> pyval -> sheet -> result sheet) :
  (forall i, 1 <= i -> styled_step i style (step i)) ->
  (forall i d s, accepts d -> body i d s = for_enumerate (step i) d 1 s) ->
  forall (rows : list (list pyval)) (first : Z) (s : sheet),
    1 <= first -> Forall accepts rows ->
    rows_unmerged s first (Z.of_nat (length rows)) ->
    exists s',
      for_enumerate body rows first s = Ok s' /\
      styled_table_written style rows first s s'.
Proof.
  intros Hstep Hbody rows.
  induction rows as [| d rows IH]; intros first s Hfirst Hacc Hun.
  - exists s. split; [reflexivity |].
    split; [intros k n d v Hk; rewrite lookup_nil in Hk; discriminate |].
    split; [reflexivity |]. split; reflexivity.
  - apply Forall_cons in Hacc as [Hd Hacc].
    destruct (columns_styled first style (step first) d (Hstep first Hfirst) 1 s
                ltac:(lia))
      as (s1 & Hs1 & Hcells1 & Hframe1 & Hmerged1 & Hwidths1).
    { intros col c Hc. apply (Hun first col c); [simpl length; lia | exact Hc]. }
    destruct (IH (first + 1) s1 ltac:(lia) Hacc)
      as (s' & Hs' & Hcells & Hframe & Hmerged & Hwidths).
    { intros row col c Hrow Hc. rewrite Hframe1 in Hc by lia.
      apply (Hun row col c); [simpl length; lia | exact Hc]. }
    exists s'. split.
    { simpl. unfold mbind, result_bind. rewrite (Hbody first d s Hd), Hs1. exact Hs'. }
    split; [| split; [| split]].
    + intros k n d' v Hk Hn. destruct k as [| k]; simpl in Hk.
      * injection Hk as <-. replace (first + Z.of_nat 0) with first by lia.
        rewrite Hframe; [exact (Hcells1 n v Hn) |].
        intros Hin. apply in_table_row in Hin. lia.
      * replace (first + Z.of_nat (S k)) with (first + 1 + Z.of_nat k) by lia.
        rewrite (Hcells k n d' v Hk Hn).
        rewrite (get_cell_eq s s1); [reflexivity |].
        apply Hframe1. lia.
    + intros row col Hout. rewrite in_table_cons in Hout.
      rewrite Hframe by tauto. apply Hframe1. intros [-> Hcol]. apply Hout. left.
      split; [reflexivity | lia].
    + congruence.
    + congruence.
Qed.

(** The three steps. *)
Lemma data_step_styled (i : Z) :
  1 <= i -> styled_step i keep_font (fun j value ws => ws_cell i j value ws).
Proof.
  intros Hi j v s Hj Hun. rewrite (ws_cell_exact i j v s Hi Hj Hun). reflexivity.
Qed.




Lemma table_loop (rows : list (list pyval)) (first : Z) (s : sheet) :
  1 <= first -> rows_unmerged s first (Z.of_nat (length rows)) ->
  exists s',
    for_enumerate Inventory.data_row_body rows first s = Ok s' /\
    table_written rows first s s'.
Proof.
  intros Hfirst Hun.
  apply (table_styled keep_font (fun _ => True) Inventory.data_row_body
           (fun i j value ws => ws_cell i j value ws)).
  - exact data_step_styled.
  - reflexivity.
  - exact Hfirst.
  - apply Forall_forall. intros d _. exact I.
  - exact Hun.
Qed.



Lemma row_unmerged_empty (row : Z) : row_unmerged empty_sheet row.
Proof.
  intros col c H. unfold empty_sheet in H. simpl in H.
  rewrite lookup_empty in H. discriminate.
Qed.










(** ** Descriptors of another shape *)

Lemma for_enumerate_app {A St : Type} (body : Z -> A -> St -> result St)
    (l1 l2 : list A) :
  forall (i : Z) (s : St),
    for_enumerate body (l1 ++ l2) i s =
    (s1 ← for_enumerate body l1 i s; for_enumerate body l2 (i + Z.of_nat (length l1)) s1).
Proof.
  induction l1 as [| x l1 IH]; intros i s.
  - simpl. rewrite Z.add_0_r. reflexivity.
  - simpl. unfold mbind, result_bind. destruct (body i x s) as [s1 | e]; [| reflexivity].
    rewrite IH. unfold mbind, result_bind.
    replace (i + 1 + Z.of_nat (length l1)) with (i + Z.of_nat (S (length l1))) by lia.
    reflexivity.
Qed.

Lemma loan_calc_body_raises (i : Z) (d : list pyval) (s : sheet) :
  length d <> 2%nat -> FinancialModel.loan_calc_body i d s = Raise ValueError.
Proof. destruct d as [| a [| b [| c d]]]; simpl; intros H; congruence. Qed.

Lemma label_formula_body_raises (i : Z) (d : list pyval) (s : sheet) :
  length d <> 2%nat -> DataAnalysis.label_formula_body i d s = Raise ValueError.
Proof. destruct d as [| a [| b [| c d]]]; simpl; intros H; congruence. Qed.

Lemma investment_body_skips (i : Z) (d : list pyval) (s : sheet) :
  length d <> 1%nat -> length d <> 2%nat -> FinancialModel.investment_body i d s = Ok s.
Proof. destruct d as [| a [| b [| c d]]]; simpl; intros H1 H2; congruence. Qed.

Lemma summary_body_skips (i : Z) (d : list pyval) (s : sheet) :
  length d <> 1%nat -> length d <> 2%nat -> DataAnalysis.summary_body i d s = Ok s.
Proof. destruct d as [| a [| b [| c d]]]; simpl; intros H1 H2; congruence. Qed.

Lemma report_body_skips (i : Z) (d : list pyval) (s : sheet) :
  length d <> 1%nat -> length d <> 2%nat -> Inventory.report_body i d s = Ok s.
Proof. destruct d as [| a [| b [| c d]]]; simpl; intros H1 H2; congruence. Qed.

Lemma loop_raises (body : Z -> list pyval -> sheet -> result sheet)
    (pre post : list (list pyval)) (d : list pyval) (first : Z) (s : sheet) (e : exn) :
  (forall i s, body i d s = Raise e) ->
  is_ok (for_enumerate body pre first s) = true ->
  for_enumerate body (pre ++ d :: post) first s = Raise e.
Proof.
  intros Hd Hpre. rewrite for_enumerate_app.
  destruct (for_enumerate body pre first s) as [s1 | e']; [| discriminate].
  simpl. rewrite Hd. reflexivity.
Qed.

Lemma loop_skips (body : Z -> list pyval -> sheet -> result sheet)
    (pre post : list (list pyval)) (d : list pyval) (first : Z) (s : sheet) :
  (forall i s, body i d s = Ok s) ->
  for_enumerate body (pre ++ d :: post) first s =
  (s1 ← for_enumerate body pre first s;
   for_enumerate body post (first + Z.of_nat (length pre) + 1) s1).
Proof.
  intros Hd. rewrite for_enumerate_app.
  destruct (for_enumerate body pre first s) as [s1 | e']; [| reflexivity].
  simpl. rewrite Hd. reflexivity.
Qed.

(** X7: a table of (label, formula) rows that is unpacked strictly
    (lines 114-116, 278-280 and 295-297).  When some descriptor of the
    table is not a pair, and the descriptors before it have been written,
    the loop raises [ValueError] at that descriptor, whatever comes after
    it: no sheet comes out of the loop. *)
Theorem unpacking_loop_raises_on_another_shape
    (pre post : list (list pyval)) (d : list pyval) (first : Z) (s : sheet) :
  length d <> 2%nat ->
  is_ok (for_enumerate FinancialModel.loan_calc_body pre first s) = true ->
  is_ok (for_enumerate DataAnalysis.label_formula_body pre first s) = true ->
  for_enumerate FinancialModel.loan_calc_body (pre ++ d :: post) first s
    = Raise ValueError /\
  for_enumerate DataAnalysis.label_formula_body (pre ++ d :: post) first s
    = Raise ValueError.
Proof.
  intros Hd Hfm Hda. split.
  - apply loop_raises; [| exact Hfm].
    intros i s0. apply loan_calc_body_raises, Hd.
  - apply loop_raises; [| exact Hda].
    intros i s0. apply label_formula_body_raises, Hd.
Qed.

Lemma unpacking_loop_raises_on_another_shape_witness :
  length [PStr "Monthly Payment"] <> 2%nat /\
  for_enumerate FinancialModel.loan_calc_body
    (FinancialModel.loan_calc_formulas ++ [PStr "Monthly Payment"] :: []) 2 empty_sheet
    = Raise ValueError /\
  for_enumerate DataAnalysis.label_formula_body
    (FinancialModel.loan_calc_formulas ++ [PStr "Monthly Payment"] :: []) 2 empty_sheet
    = Raise ValueError.
Proof.
  split; [simpl; lia |].
  apply (unpacking_loop_raises_on_another_shape FinancialModel.loan_calc_formulas []
           [PStr "Monthly Payment"] 2 empty_sheet).
  - simpl. lia.
  - vm_compute. reflexivity.
  - vm_compute. reflexivity.
Defined.

(** X8: a table of (label, formula) rows that is dispatched on the
    length of the descriptor (lines 160-166, 338-348 and 542-552).  A
    descriptor with neither one nor two elements is passed over: nothing
    is written and nothing is raised, and the row it stood for stays as
    it was, since the descriptors after it are written one row further
    down. *)
Theorem dispatching_loop_skips_another_shape
    (pre post : list (list pyval)) (d : list pyval) (first : Z) (s : sheet) :
  length d <> 1%nat -> length d <> 2%nat ->
  for_enumerate FinancialModel.investment_body (pre ++ d :: post) first s =
    (s1 ← for_enumerate FinancialModel.investment_body pre first s;
     for_enumerate FinancialModel.investment_body post
       (first + Z.of_nat (length pre) + 1) s1) /\
  for_enumerate DataAnalysis.summary_body (pre ++ d :: post) first s =
    (s1 ← for_enumerate DataAnalysis.summary_body pre first s;
     for_enumerate DataAnalysis.summary_body post
       (first + Z.of_nat (length pre) + 1) s1) /\
  for_enumerate Inventory.report_body (pre ++ d :: post) first s =
    (s1 ← for_enumerate Inventory.report_body pre first s;
     for_enumerate Inventory.report_body post
       (first + Z.of_nat (length pre) + 1) s1).
Proof.
  intros H1 H2. split; [| split]; apply loop_skips; intros i s0.
  - apply investment_body_skips; assumption.
  - apply summary_body_skips; assumption.
  - apply report_body_skips; assumption.
Qed.

Lemma dispatching_loop_skips_another_shape_witness :
  length [PStr "a"; PStr "b"; PStr "c"] <> 1%nat /\
  length [PStr "a"; PStr "b"; PStr "c"] <> 2%nat /\
  for_enumerate FinancialModel.investment_body
    ([[PStr "x"; PStr "=1"]] ++ [PStr "a"; PStr "b"; PStr "c"] :: [[PStr "y"; PStr "=2"]])
    2 empty_sheet =
    (s1 ← for_enumerate FinancialModel.investment_body [[PStr "x"; PStr "=1"]] 2
            empty_sheet;
     for_enumerate FinancialModel.investment_body [[PStr "y"; PStr "=2"]]
       (2 + Z.of_nat (length [[PStr "x"; PStr "=1"]]) + 1) s1).
Proof.
  split; [simpl; lia |]. split; [simpl; lia |].
  apply (dispatching_loop_skips_another_shape [[PStr "x"; PStr "=1"]]
           [[PStr "y"; PStr "=2"]] [PStr "a"; PStr "b"; PStr "c"] 2 empty_sheet).
  - simpl. lia.
  - simpl. lia.
Defined.

(** ** The font of an empty label *)








(** ** The generated transactions *)

Section TransData.
Context {G : RandomGen}.

Lemma randint_range (a b : Z) (s : rng) :
  a <= b -> a <= fst (randint a b s) <= b.
Proof.
  intros H. unfold randint. simpl.
  pose proof (randbelow_range (b - a + 1) s ltac:(lia)). lia.
Qed.

Lemma choice_in (seq : list string) (s : rng) :
  seq <> [] -> In (fst (choice seq s)) seq.
Proof.
  intros Hne. unfold choice. simpl.
  assert (Hlen : 0 < Z.of_nat (length seq)).
  { destruct seq; [congruence | simpl length; lia]. }
  pose proof (randbelow_range (Z.of_nat (length seq)) s Hlen) as Hr.
  apply nth_In. lia.
Qed.

Lemma initial_stock_body_spec (sku : string) (acc : list (list pyval)) (s : rng) :
  exists d s',
    Inventory.initial_stock_body sku acc s = (Ok (acc ++ [d]), s') /\
    initial_stock_record sku d.
Proof.
  eexists _, _. split; [reflexivity |].
  eexists. split; [reflexivity |].
  apply (randint_range 100 300 s). lia.
Qed.

Lemma transaction_body_spec (i : Z) (acc : list (list pyval)) (s : rng) :
  exists d s',
    Inventory.transaction_body i acc s = (Ok (acc ++ [d]), s') /\
    transaction_record i d.
Proof.
  eexists _, _. split; [reflexivity |].
  set (s1 := snd (choice ["SKU001"; "SKU002"; "SKU003"; "SKU004"; "SKU005"] s)).
  set (kind := fst (choice ["IN"; "OUT"; "OUT"; "OUT"] s1)).
  set (s2 := snd (choice ["IN"; "OUT"; "OUT"; "OUT"] s1)).
  assert (Hkind : In kind ["IN"; "OUT"; "OUT"; "OUT"])
    by (apply choice_in; discriminate).
  eexists _, kind, _, _, _. split; [reflexivity |].
  split; [apply (choice_in stocked_skus s); discriminate |].
  simpl in Hkind.
  destruct Hkind as [E | [E | [E | [E | []]]]]; rewrite <- E; simpl String.eqb; cbv iota.
  - right. split; [reflexivity |]. split; [apply (randint_range 50 200 s2); lia |].
    split; reflexivity.
  - left. split; [reflexivity |]. split; [apply (randint_range 5 50 s2); lia |].
    split; reflexivity.
  - left. split; [reflexivity |]. split; [apply (randint_range 5 50 s2); lia |].
    split; reflexivity.
  - left. split; [reflexivity |]. split; [apply (randint_range 5 50 s2); lia |].
    split; reflexivity.
Qed.

Lemma gen_trans_data_spec (s : rng) :
  exists initial random s',
    Inventory.gen_trans_data s = (Ok (initial ++ random), s') /\
    Forall2 initial_stock_record stocked_skus initial /\
    Forall2 transaction_record (range 0 50) random.
Proof.
  destruct (for_each_append Inventory.initial_stock_body initial_stock_record
              initial_stock_body_spec stocked_skus [] s) as (initial & s1 & H1 & Hi).
  destruct (for_each_append Inventory.transaction_body transaction_record
              transaction_body_spec (range 0 50) ([] ++ initial) s1)
    as (random & s' & H2 & Hr).
  exists initial, random, s'. split; [| split; assumption].
  unfold Inventory.gen_trans_data. unfold mbind. unfold rand_bind at 1.
  fold stocked_skus. rewrite H1. exact H2.
Qed.

End TransData.

(** ** The Transactions sheet *)

Lemma no_merged_cellb_spec (sh : sheet) (first n : Z) :
  no_merged_cellb sh = true -> rows_unmerged sh first n.
Proof.
  unfold no_merged_cellb. intros H row col c _ Hc.
  rewrite forallb_forall in H.
  apply elem_of_map_to_list, list_elem_of_In in Hc.
  specialize (H _ Hc). simpl in H. apply negb_true_iff, H.
Qed.

Lemma rows_belowb_spec (sh : sheet) (n row col : Z) :
  rows_belowb sh n = true -> n <= row -> cells sh !! (row, col) = None.
Proof.
  unfold rows_belowb. intros H Hrow.
  rewrite forallb_forall in H.
  destruct (cells sh !! (row, col)) as [c |] eqn:E; [| reflexivity].
  apply elem_of_map_to_list, list_elem_of_In in E.
  specialize (H _ E). simpl in H. lia.
Qed.

Lemma initial_stock_is_movement (sku : string) (d : list pyval) :
  In sku stocked_skus -> initial_stock_record sku d -> stock_movement d.
Proof.
  intros Hsku (quantity & -> & Hq).
  eexists _, sku, "IN", quantity, _, _. split; [reflexivity |].
  split; [exact Hsku |]. right. split; [reflexivity | lia].
Qed.

Lemma transaction_is_movement (i : Z) (d : list pyval) :
  transaction_record i d -> stock_movement d.
Proof.
  intros (sku & kind & quantity & ref & note & -> & Hsku & H).
  eexists _, sku, kind, quantity, ref, note. split; [reflexivity |].
  split; [exact Hsku |].
  destruct H as [(-> & Hq & _) | (-> & Hq & _)].
  - left. split; [reflexivity | lia].
  - right. split; [reflexivity | lia].
Qed.

Lemma stock_movement_values (d : list pyval) (n : nat) (v : pyval) :
  stock_movement d -> d !! n = Some v -> v <> PNone.
Proof.
  intros (date & sku & kind & quantity & ref & note & -> & _) Hn.
  do 7 (destruct n as [| n]; [injection Hn as <-; discriminate |]).
  simpl in Hn. rewrite lookup_nil in Hn. discriminate.
Qed.

Section TransSheet.
Context {G : RandomGen}.

Lemma trans_data_movements (s : rng) :
  exists td s',
    Inventory.gen_trans_data s = (Ok td, s') /\
    length td = 55%nat /\ Forall stock_movement td.
Proof.
  destruct (gen_trans_data_spec s) as (initial & random & s' & Hrun & Hi & Hr).
  exists (initial ++ random), s'. split; [exact Hrun |]. split.
  - rewrite length_app.
    rewrite <- (Forall2_length _ _ _ Hi), <- (Forall2_length _ _ _ Hr). reflexivity.
  - apply Forall_app. split.
    + apply Forall_forall. intros d Hd.
      apply list_elem_of_lookup in Hd as [k Hk].
      destruct (Forall2_lookup_r _ _ _ _ _ Hi Hk) as (sku & Hsku & Hrec).
      apply (initial_stock_is_movement sku d); [| exact Hrec].
      apply list_elem_of_In, list_elem_of_lookup. exists k. exact Hsku.
    + apply Forall_forall. intros d Hd.
      apply list_elem_of_lookup in Hd as [k Hk].
      destruct (Forall2_lookup_r _ _ _ _ _ Hr Hk) as (i & _ & Hrec).
      apply (transaction_is_movement i d Hrec).
Qed.

Lemma trans_header_sheet_written :
  headers_written Inventory.trans_headers 1 empty_sheet trans_header_sheet.
Proof.
  destruct (header_loop Inventory.trans_headers 1 empty_sheet ltac:(lia)
              (row_unmerged_empty 1)) as (s' & Hs' & Hw).
  assert (E : Ok s' = Ok trans_header_sheet)
    by (rewrite <- Hs'; exact trans_headers_ok).
  apply Ok_inj in E. rewrite <- E. exact Hw.
Qed.

Lemma transactions_rows (s : rng) :
  exists transactions,
    wb_sheet "Transactions" (inventory_wb s) = Some transactions /\
    (forall (k : nat) h, Inventory.trans_headers !! k = Some h ->
       cells transactions !! (1, 1 + Z.of_nat k) = Some (header_cell h)) /\
    (forall row, 2 <= row <= 56 -> movement_row transactions row) /\
    (forall row col, 57 <= row -> cells transactions !! (row, col) = None).
Proof.
  destruct (trans_data_movements s) as (td & s1 & Htd & Hlen & Hmov).
  destruct (table_loop td 2 trans_header_sheet ltac:(lia))
    as (t & Ht & Hcells & Hframe & _ & _).
  { apply no_merged_cellb_spec. vm_compute. reflexivity. }
  pose proof (populate_transactions_eq s s1 td Htd) as Hpop.
  rewrite Ht in Hpop.
  exists (Inventory.adjust_widths t).
  split; [exact (inventory_wb_transactions s s1 t Hpop) |].
  rewrite adjust_widths_cells.
  destruct trans_header_sheet_written as (Hhead & Hhframe & _ & _).
  split; [| split].
  - intros k h Hk. rewrite Hframe.
    + apply (Hhead k h Hk).
    + intros Hin. apply in_table_row in Hin. lia.
  - intros row Hrow.
    destruct (lookup_lt_is_Some_2 td (Z.to_nat (row - 2)) ltac:(lia)) as [d Hd].
    pose proof (proj1 (Forall_lookup _ _) Hmov _ _ Hd) as Hd_mov.
    exists d. split; [exact Hd_mov |].
    intros n v Hn.
    pose proof (Hcells _ n d v Hd Hn) as Hc.
    replace (2 + Z.of_nat (Z.to_nat (row - 2))) with row in Hc by lia.
    unfold cell_value. rewrite adjust_widths_cells, Hc. simpl.
    rewrite decide_False by (apply (stock_movement_values d n v Hd_mov Hn)).
    reflexivity.
  - intros row col Hrow. rewrite Hframe.
    + apply (rows_belowb_spec trans_header_sheet 2); [vm_compute; reflexivity | lia].
    + intros Hin. apply in_table_row in Hin. lia.
Qed.

End TransSheet.

(** ** The RawData sheet *)

Section RawData.
Context {G : RandomGen}.

Lemma rand_bind_draw {A B : Type} (d : rng -> A * rng) (k : A -> rand B) (s : rng) :
  (draw d ≫= k) s = k (fst (d s)) (snd (d s)).
Proof. reflexivity. Qed.

(** A write of a value other than [None] in the middle of code that
    draws. *)
Lemma rand_bind_ws_cell {B : Type} (i j : Z) (v : pyval) (sh : sheet)
    (k : sheet -> rand B) (s : rng) :
  1 <= i -> 1 <= j -> v <> PNone ->
  (forall c, cells sh !! (i, j) = Some c -> c_merged c = false) ->
  (liftR (ws_cell i j v sh) ≫= k) s =
    k (put_cell i j (mkCell v (c_font (get_cell i j sh)) (c_fill (get_cell i j sh)) false)
         sh) s.
Proof.
  intros Hi Hj Hv Hun.
  rewrite rand_bind_liftR, (ws_cell_exact i j v sh Hi Hj Hun).
  rewrite decide_False by exact Hv. reflexivity.
Qed.

Lemma liftR_ws_cell (i j : Z) (v : pyval) (sh : sheet) (s : rng) :
  1 <= i -> 1 <= j -> v <> PNone ->
  (forall c, cells sh !! (i, j) = Some c -> c_merged c = false) ->
  liftR (ws_cell i j v sh) s =
    (Ok (put_cell i j
           (mkCell v (c_font (get_cell i j sh)) (c_fill (get_cell i j sh)) false) sh), s).
Proof.
  intros Hi Hj Hv Hun. unfold liftR.
  rewrite (ws_cell_exact i j v sh Hi Hj Hun).
  rewrite decide_False by exact Hv. reflexivity.
Qed.

Lemma raw_data_body_spec (i : Z) (sh : sheet) (s : rng) :
  1 <= i -> row_unmerged sh i ->
  exists sh' s',
    DataAnalysis.raw_data_body i sh s = (Ok sh', s') /\
    raw_data_row sh' i /\
    (forall r c, ~ (r = i /\ 1 <= c <= 5) -> cells sh' !! (r, c) = cells sh !! (r, c)).
Proof.
  intros Hi Hun. unfold DataAnalysis.raw_data_body.
  rewrite rand_bind_draw.
  rewrite rand_bind_ws_cell; [| exact Hi | lia | discriminate | apply (Hun 1)].
  rewrite rand_bind_draw.
  rewrite rand_bind_ws_cell; [| exact Hi | lia | discriminate |].
  2:{ apply unmerged_after_put; [lia | exact Hun]. }
  rewrite rand_bind_draw.
  rewrite rand_bind_ws_cell; [| exact Hi | lia | discriminate |].
  2:{ apply (row_unmerged_put i 2); [reflexivity |].
      apply (row_unmerged_put i 1); [reflexivity | exact Hun]. }
  rewrite rand_bind_ws_cell; [| exact Hi | lia | discriminate |].
  2:{ apply (row_unmerged_put i 3); [reflexivity |].
      apply (row_unmerged_put i 2); [reflexivity |].
      apply (row_unmerged_put i 1); [reflexivity | exact Hun]. }
  rewrite liftR_ws_cell; [| exact Hi | lia | discriminate |].
  2:{ apply (row_unmerged_put i 4); [reflexivity |].
      apply (row_unmerged_put i 3); [reflexivity |].
      apply (row_unmerged_put i 2); [reflexivity |].
      apply (row_unmerged_put i 1); [reflexivity | exact Hun]. }
  eexists _, _. split; [reflexivity |]. split.
  - eexists _, _, _. unfold cell_value.
    split.
    { repeat (rewrite lookup_put_cell_ne by congruence).
      rewrite lookup_put_cell_eq. reflexivity. }
    split; [apply (randint_range 800 4500 s); lia |].
    split.
    { repeat (rewrite lookup_put_cell_ne by congruence).
      rewrite lookup_put_cell_eq. reflexivity. }
    split; [apply choice_in; discriminate |].
    split.
    { repeat (rewrite lookup_put_cell_ne by congruence).
      rewrite lookup_put_cell_eq. reflexivity. }
    split; [apply choice_in; discriminate |].
    split.
    { repeat (rewrite lookup_put_cell_ne by congruence).
      rewrite lookup_put_cell_eq. reflexivity. }
    rewrite lookup_put_cell_eq. reflexivity.
  - intros r c Hr.
    repeat (rewrite lookup_put_cell_ne by (intros E; injection E as E1 E2; lia)).
    reflexivity.
Qed.

Lemma raw_data_row_ext (sh sh' : sheet) (i : Z) :
  (forall c, cells sh' !! (i, c) = cells sh !! (i, c)) ->
  raw_data_row sh i -> raw_data_row sh' i.
Proof.
  intros Hext (amount & region & product & H1 & Ha & H2 & Hr & H3 & Hp & H4 & H5).
  exists amount, region, product. unfold cell_value in *.
  rewrite !Hext. auto 10.
Qed.

Lemma raw_data_loop (l : list Z) :
  forall (sh : sheet) (s : rng),
    Forall (fun i => 1 <= i) l -> NoDup l ->
    (forall i, In i l -> row_unmerged sh i) ->
    exists sh' s',
      for_each DataAnalysis.raw_data_body l sh s = (Ok sh', s') /\
      (forall i, In i l -> raw_data_row sh' i) /\
      (forall r c, ~ (In r l /\ 1 <= c <= 5) ->
         cells sh' !! (r, c) = cells sh !! (r, c)).
Proof.
  induction l as [| i l IH]; intros sh s Hpos Hnd Hun.
  - exists sh, s. split; [reflexivity |]. split; [intros i [] | reflexivity].
  - apply Forall_cons in Hpos as [Hi Hpos].
    apply NoDup_cons in Hnd as [Hnotin Hnd].
    destruct (raw_data_body_spec i sh s Hi (Hun i (or_introl eq_refl)))
      as (sh1 & s1 & H1 & Hrow1 & Hframe1).
    destruct (IH sh1 s1 Hpos Hnd) as (sh' & s' & H' & Hrows & Hframe).
    { intros r Hr col c Hc. rewrite Hframe1 in Hc.
      - apply (Hun r (or_intror Hr) col c Hc).
      - intros [-> _]. apply Hnotin, list_elem_of_In, Hr. }
    exists sh', s'. split.
    { simpl. rewrite (rand_bind_ok _ _ s s1 sh1 H1). exact H'. }
    split.
    + intros r [<- | Hr].
      * apply (raw_data_row_ext sh1 sh' i); [| exact Hrow1].
        intros c. apply Hframe. intros [Hin _]. apply Hnotin, list_elem_of_In, Hin.
      * apply (Hrows r Hr).
    + intros r c Hr.
      rewrite Hframe by (intros [Hin Hc]; apply Hr; split; [right; exact Hin | exact Hc]).
      apply Hframe1. intros [-> Hc]. apply Hr. split; [left; reflexivity | exact Hc].
Qed.

End RawData.

Section RawSheet.
Context {G : RandomGen}.

Lemma raw_headers_ok :
  for_enumerate DataAnalysis.header_body DataAnalysis.headers 1 empty_sheet =
  Ok raw_header_sheet.
Proof. unfold raw_header_sheet. apply is_ok_unwrap. vm_compute. reflexivity. Qed.

Lemma raw_header_sheet_written :
  headers_written DataAnalysis.headers 1 empty_sheet raw_header_sheet.
Proof.
  destruct (header_loop DataAnalysis.headers 1 empty_sheet ltac:(lia)
              (row_unmerged_empty 1)) as (s' & Hs' & Hw).
  assert (E : Ok s' = Ok raw_header_sheet)
    by (rewrite <- Hs'; exact raw_headers_ok).
  apply Ok_inj in E. rewrite <- E. exact Hw.
Qed.

Lemma in_range (a b i : Z) : In i (range a b) <-> a <= i < b.
Proof.
  unfold range. rewrite <- list_elem_of_In, elem_of_seqZ. lia.
Qed.

(** The loop of lines 233-238 on the header sheet, from any state of
    the stream. *)
Lemma raw_data_rows_from (s : rng) :
  exists raw s',
    for_each DataAnalysis.raw_data_body (range 2 102) raw_header_sheet s = (Ok raw, s') /\
    (forall i, 2 <= i <= 101 -> raw_data_row raw i) /\
    (forall r c, ~ (2 <= r <= 101 /\ 1 <= c <= 5) ->
       cells raw !! (r, c) = cells raw_header_sheet !! (r, c)).
Proof.
  destruct (raw_data_loop (range 2 102) raw_header_sheet s)
    as (raw & s' & Hrun & Hrows & Hframe).
  - apply Forall_forall. intros i Hi. apply list_elem_of_In, in_range in Hi. lia.
  - apply NoDup_seqZ.
  - intros i _ col c Hc.
    apply (no_merged_cellb_spec raw_header_sheet i 1 ltac:(vm_compute; reflexivity)
             i col c ltac:(lia) Hc).
  - exists raw, s'. split; [exact Hrun |]. split.
    + intros i Hi. apply Hrows, in_range. lia.
    + intros r c Hr. apply Hframe. rewrite in_range. lia.
Qed.

Lemma populate_raw_data_eq (s0 s' : rng) (raw : sheet) :
  for_each DataAnalysis.raw_data_body (range 2 102) raw_header_sheet (rng_seed 42)
    = (Ok raw, s') ->
  DataAnalysis.populate_raw_data empty_sheet s0 = (Ok raw, s').
Proof.
  intros Hrun. unfold DataAnalysis.populate_raw_data.
  rewrite rand_bind_liftR, raw_headers_ok.
  exact Hrun.
Qed.

Lemma data_analysis_wb_raw_data (s' : rng) (raw : sheet) :
  DataAnalysis.populate_raw_data empty_sheet (rng_seed 42) = (Ok raw, s') ->
  wb_sheet "RawData" data_analysis_wb = Some (DataAnalysis.adjust_widths raw).
Proof.
  intros Hraw. unfold data_analysis_wb, DataAnalysis.data_analysis_workbook.
  rewrite (rand_bind_ok _ _ (rng_seed 42) s' raw Hraw).
  rewrite rand_bind_liftR,
    (is_ok_unwrap empty_sheet (DataAnalysis.populate_parameters empty_sheet))
    by (vm_compute; reflexivity).
  rewrite rand_bind_liftR,
    (is_ok_unwrap empty_sheet (DataAnalysis.populate_analysis empty_sheet))
    by (vm_compute; reflexivity).
  rewrite rand_bind_liftR,
    (is_ok_unwrap empty_sheet (DataAnalysis.populate_summary empty_sheet))
    by (vm_compute; reflexivity).
  reflexivity.
Qed.

Lemma raw_data_sheet_rows :
  exists raw_data,
    wb_sheet "RawData" data_analysis_wb = Some raw_data /\
    (forall (k : nat) h, DataAnalysis.headers !! k = Some h ->
       cells raw_data !! (1, 1 + Z.of_nat k) = Some (header_cell h)) /\
    (forall row, 2 <= row <= 101 -> raw_data_row raw_data row) /\
    (forall row col, 102 <= row -> cells raw_data !! (row, col) = None).
Proof.
  destruct (raw_data_rows_from (rng_seed 42)) as (raw & s' & Hrun & Hrows & Hframe).
  exists (DataAnalysis.adjust_widths raw).
  split.
  { apply (data_analysis_wb_raw_data s').
    apply (populate_raw_data_eq (rng_seed 42) s' raw Hrun). }
  destruct raw_header_sheet_written as (Hhead & _).
  split; [| split].
  - intros k h Hk.
    change (cells (DataAnalysis.adjust_widths raw)) with (cells raw).
    rewrite Hframe by lia. apply (Hhead k h Hk).
  - intros row Hrow. apply (raw_data_row_ext raw); [reflexivity |].
    apply (Hrows row Hrow).
  - intros row col Hrow.
    change (cells (DataAnalysis.adjust_widths raw)) with (cells raw).
    rewrite Hframe by lia.
    apply (rows_belowb_spec raw_header_sheet 2); [vm_compute; reflexivity | lia].
Qed.

End RawSheet.

(** ** Zero-padded numbers *)

Lemma zeros_cons (k : nat) : zeros (S k) = String "0" (zeros k).
Proof. reflexivity. Qed.

Lemma zeros_spec (k : nat) :
  digits_only (zeros k) = true /\ (forall acc, int_go (zeros k) acc = acc * 10 ^ Z.of_nat k) /\
  String.length (zeros k) = k.
Proof.
  induction k as [| k (Hdo & Hint & Hlen)].
  - split; [reflexivity |]. split; [| reflexivity].
    intros acc. rewrite int_go_nil. change (Z.of_nat 0) with 0. lia.
  - rewrite zeros_cons. split; [| split].
    + rewrite digits_only_cons, Hdo. reflexivity.
    + intros acc. rewrite int_go_cons, Hint.
      change (Z.of_nat (nat_of_ascii "0") - 48) with 0.
      replace (Z.of_nat (S k)) with (Z.succ (Z.of_nat k)) by lia.
      rewrite Z.pow_succ_r by lia. lia.
    + simpl. rewrite Hlen. reflexivity.
Qed.

Lemma string_length_app (s t : string) :
  String.length (s +:+ t) = (String.length s + String.length t)%nat.
Proof.
  induction s as [| a s IH]; [reflexivity |].
  rewrite append_cons. simpl. rewrite IH. reflexivity.
Qed.

Lemma str_int_digits (n : Z) :
  0 <= n -> digits_only (str_int n) = true /\ int_go (str_int n) 0 = n.
Proof.
  intros Hn. destruct (Z.eq_dec n 0) as [-> | Hne].
  - split; reflexivity.
  - destruct (str_int_spec n ltac:(lia)) as (_ & Hdo & Hint). split; assumption.
Qed.

Lemma fmt_0d_spec (w : nat) (n : Z) :
  0 <= n ->
  digits_only (fmt_0d w n) = true /\ int_go (fmt_0d w n) 0 = n /\
  (w <= String.length (fmt_0d w n))%nat.
Proof.
  intros Hn. unfold fmt_0d.
  destruct (str_int_digits n Hn) as (Hdo & Hint).
  destruct (zeros_spec (w - String.length (str_int n))) as (Hzdo & Hzint & Hzlen).
  split; [| split].
  - rewrite digits_only_app, Hzdo, Hdo. reflexivity.
  - rewrite int_go_app, Hzint. exact Hint.
  - rewrite string_length_app, Hzlen. lia.
Qed.

Lemma fmt_0d_inj (w : nat) (n m : Z) :
  0 <= n -> 0 <= m -> fmt_0d w n = fmt_0d w m -> n = m.
Proof.
  intros Hn Hm E.
  destruct (fmt_0d_spec w n Hn) as (_ & Hn' & _).
  destruct (fmt_0d_spec w m Hm) as (_ & Hm' & _).
  rewrite <- Hn', <- Hm', E. reflexivity.
Qed.

(** ** What the formulas refer to *)

Lemma resolvesb_spec (wb : workbook) (cur : string) (r : option string * Formula.ref) :
  resolvesb wb cur r = true -> resolves wb cur r.
Proof.
  unfold resolvesb, resolves. intros H.
  destruct (wb_sheet (default cur (fst r)) wb) as [target |]; [| discriminate].
  exists target. split; [reflexivity |].
  revert H. apply forallb_Forall. intros rc Hrc.
  destruct (cells target !! rc); [eauto | discriminate].
Qed.

Lemma formula_resolvedb_spec (wb : workbook) (cur s : string) :
  formula_resolvedb wb cur s = true -> formula_resolved wb cur s.
Proof.
  unfold formula_resolvedb, formula_resolved. intros H.
  destruct (Formula.parse s) as [e |]; [| discriminate].
  exists e. split; [reflexivity |].
  revert H. apply forallb_Forall. intros r. apply resolvesb_spec.
Qed.

Lemma sheet_formulas_resolvedb_spec (wb : workbook) (title : string) (sh : sheet) :
  sheet_formulas_resolvedb wb title sh = true -> sheet_formulas_resolved wb title sh.
Proof.
  unfold sheet_formulas_resolvedb, sheet_formulas_resolved, cell_value.
  intros H row col s Hc Hf.
  rewrite forallb_forall in H.
  destruct (cells sh !! (row, col)) as [c |] eqn:E; [| discriminate].
  simpl in Hc. injection Hc as Hc.
  apply elem_of_map_to_list, list_elem_of_In in E.
  specialize (H _ E). simpl in H. rewrite Hc, Hf in H. simpl in H.
  apply formula_resolvedb_spec, H.
Qed.

Lemma plain_sheet_resolved (wb : workbook) (title : string) (sh : sheet) :
  plain_cells sh -> sheet_formulas_resolved wb title sh.
Proof.
  intros Hplain row col s Hc Hf. rewrite (Hplain row col s Hc) in Hf. discriminate.
Qed.

Lemma financial_formulas_resolved : formulas_resolved financial_wb.
Proof.
  intros title sh Hin.
  assert (H : forallb (fun ts => sheet_formulas_resolvedb financial_wb (fst ts) (snd ts))
                financial_wb = true) by (vm_compute; reflexivity).
  rewrite forallb_forall in H.
  apply (sheet_formulas_resolvedb_spec financial_wb title sh (H (title, sh) Hin)).
Qed.

Section FormulaSheets.
Context {G : RandomGen}.

(** The sample sales data holds no formula. *)
Lemma raw_data_plain (raw : sheet) :
  (forall i, 2 <= i <= 101 -> raw_data_row raw i) ->
  (forall r c, ~ (2 <= r <= 101 /\ 1 <= c <= 5) ->
     cells raw !! (r, c) = cells raw_header_sheet !! (r, c)) ->
  plain_cells raw.
Proof.
  intros Hrows Hframe r c s Hc.
  destruct (decide (2 <= r <= 101 /\ 1 <= c <= 5)) as [[Hr Hcol] | Hout].
  - destruct (Hrows r Hr)
      as (amount & region & product & H1 & _ & H2 & Hreg & H3 & Hprod & H4 & H5).
    assert (Hcase : c = 1 \/ c = 2 \/ c = 3 \/ c = 4 \/ c = 5) by lia.
    destruct Hcase as [-> | [-> | [-> | [-> | ->]]]].
    + congruence.
    + assert (s = region) by congruence. subst s.
      simpl in Hreg. destruct Hreg as [<- | [<- | [<- | [<- | []]]]]; reflexivity.
    + assert (s = product) by congruence. subst s.
      simpl in Hprod. destruct Hprod as [<- | [<- | [<- | []]]]; reflexivity.
    + assert (s = strftime_mdY (plus_days DataAnalysis.base_date (r - 2)))
        by congruence. subst s.
      assert (H : forallb (fun i => negb (is_formula
                    (strftime_mdY (plus_days DataAnalysis.base_date (i - 2)))))
                    (range 2 102) = true) by (vm_compute; reflexivity).
      rewrite forallb_forall in H.
      apply negb_true_iff, H, in_range. lia.
    + assert (s = "C" +:+ fmt_0d 3 (r - 1)) by congruence. subst s.
      change ("C" +:+ fmt_0d 3 (r - 1)) with (String "C" (fmt_0d 3 (r - 1))).
      unfold is_formula. destruct (fmt_0d 3 (r - 1)); reflexivity.
  - apply (plain_cellsb_spec raw_header_sheet ltac:(vm_compute; reflexivity) r c s).
    unfold cell_value in *. rewrite <- Hframe by exact Hout. exact Hc.
Qed.

Lemma data_analysis_wb_sheets (s' : rng) (raw : sheet) :
  DataAnalysis.populate_raw_data empty_sheet (rng_seed 42) = (Ok raw, s') ->
  data_analysis_wb =
    [ ("RawData", DataAnalysis.adjust_widths raw);
      ("Parameters", DataAnalysis.adjust_widths parameters_sheet);
      ("Analysis", DataAnalysis.adjust_widths analysis_sheet);
      ("Summary", DataAnalysis.adjust_widths summary_sheet) ].
Proof.
  intros Hraw. unfold data_analysis_wb, DataAnalysis.data_analysis_workbook.
  rewrite (rand_bind_ok _ _ (rng_seed 42) s' raw Hraw).
  rewrite rand_bind_liftR,
    (is_ok_unwrap empty_sheet (DataAnalysis.populate_parameters empty_sheet))
    by (vm_compute; reflexivity).
  rewrite rand_bind_liftR,
    (is_ok_unwrap empty_sheet (DataAnalysis.populate_analysis empty_sheet))
    by (vm_compute; reflexivity).
  rewrite rand_bind_liftR,
    (is_ok_unwrap empty_sheet (DataAnalysis.populate_summary empty_sheet))
    by (vm_compute; reflexivity).
  reflexivity.
Qed.

Lemma inventory_wb_sheets (s s' : rng) (t : sheet) :
  Inventory.populate_transactions empty_sheet s = (Ok t, s') ->
  inventory_wb s =
    [ ("Products", Inventory.adjust_widths products_sheet);
      ("Transactions", Inventory.adjust_widths t);
      ("Settings", Inventory.adjust_widths settings_sheet);
      ("CurrentInventory", Inventory.adjust_widths current_inv_sheet);
      ("Alerts", Inventory.adjust_widths alerts_sheet);
      ("Reports", Inventory.adjust_widths reports_sheet) ].
Proof.
  intros Ht. unfold inventory_wb, Inventory.inventory_workbook.
  rewrite rand_bind_liftR,
    (is_ok_unwrap empty_sheet (Inventory.populate_products empty_sheet))
    by (vm_compute; reflexivity).
  rewrite (rand_bind_ok _ _ s s' t Ht).
  rewrite rand_bind_liftR,
    (is_ok_unwrap empty_sheet (Inventory.populate_settings empty_sheet))
    by (vm_compute; reflexivity).
  rewrite rand_bind_liftR,
    (is_ok_unwrap empty_sheet (Inventory.populate_current_inv empty_sheet))
    by (vm_compute; reflexivity).
  rewrite rand_bind_liftR,
    (is_ok_unwrap empty_sheet (Inventory.populate_alerts empty_sheet))
    by (vm_compute; reflexivity).
  rewrite rand_bind_liftR,
    (is_ok_unwrap empty_sheet (Inventory.populate_reports empty_sheet))
    by (vm_compute; reflexivity).
  reflexivity.
Qed.

Lemma data_analysis_formulas_resolved : formulas_resolved data_analysis_wb.
Proof.
  destruct (raw_data_rows_from (rng_seed 42)) as (raw & s' & Hrun & Hrows & Hframe).
  pose proof (populate_raw_data_eq (rng_seed 42) s' raw Hrun) as Hraw.
  intros title sh Hin.
  rewrite (data_analysis_wb_sheets s' raw Hraw) in Hin.
  destruct Hin as [E | [E | [E | [E | []]]]]; injection E as <- <-.
  - apply plain_sheet_resolved.
    intros r c s Hc. apply (raw_data_plain raw Hrows Hframe r c s). exact Hc.
  - apply sheet_formulas_resolvedb_spec. vm_compute. reflexivity.
  - apply sheet_formulas_resolvedb_spec. vm_compute. reflexivity.
  - apply sheet_formulas_resolvedb_spec. vm_compute. reflexivity.
Qed.

Lemma inventory_formulas_resolved (s : rng) : formulas_resolved (inventory_wb s).
Proof.
  destruct (populate_transactions_plain s) as (t & s' & Ht & Hplain).
  intros title sh Hin.
  rewrite (inventory_wb_sheets s s' t Ht) in Hin.
  destruct Hin as [E | [E | [E | [E | [E | [E | []]]]]]]; injection E as <- <-.
  - apply sheet_formulas_resolvedb_spec. vm_compute. reflexivity.
  - apply plain_sheet_resolved.
    intros r c v Hc. apply (Hplain r c v). exact Hc.
  - apply sheet_formulas_resolvedb_spec. vm_compute. reflexivity.
  - apply sheet_formulas_resolvedb_spec. vm_compute. reflexivity.
  - apply sheet_formulas_resolvedb_spec. vm_compute. reflexivity.
  - apply sheet_formulas_resolvedb_spec. vm_compute. reflexivity.
Qed.

End FormulaSheets.

(** ** Column headers and column widths *)

Lemma header_row_writtenb_spec (sheets : list (string * string * sheet))
    (d : string * string * Z * Font * list string) :
  header_row_writtenb sheets d = true -> header_row_written sheets d.
Proof.
  destruct d as [[[[file title] row] font] texts]. simpl. intros H.
  apply existsb_exists in H as ([[file' title'] sh] & Hin & H). simpl in H.
  apply andb_true_iff in H as [H Hcells]. apply andb_true_iff in H as [Hf Ht].
  apply String.eqb_eq in Hf, Ht. subst file' title'.
  exists sh. split; [exact Hin |].
  intros k text Hk. rewrite forallb_forall in Hcells.
  specialize (Hcells (k, text)). simpl in Hcells.
  apply bool_decide_eq_true in Hcells; [exact Hcells |].
  apply list_elem_of_In, list_elem_of_lookup. exists k.
  rewrite list_lookup_imap, Hk. reflexivity.
Qed.

Lemma declared_header_atb_spec (file title : string) (row col : Z) :
  declared_header_atb file title row col = true -> declared_header_at file title row col.
Proof.
  unfold declared_header_atb, declared_header_at. intros H.
  apply existsb_exists in H as ([[[[file' title'] row'] font] texts] & Hin & H).
  repeat (apply andb_true_iff in H as [H ?]).
  apply String.eqb_eq in H. apply String.eqb_eq in H3. apply Z.eqb_eq in H2. subst.
  exists font, texts. split; [exact Hin | lia].
Qed.

Lemma fills_are_headersb_spec (sheets : list (string * string * sheet)) :
  fills_are_headersb sheets = true -> fills_are_headers sheets.
Proof.
  unfold fills_are_headersb, fills_are_headers.
  intros H file title sh row col c Hin Hc Hfill.
  rewrite forallb_forall in H. specialize (H _ Hin). simpl in H.
  rewrite forallb_forall in H.
  apply elem_of_map_to_list, list_elem_of_In in Hc.
  specialize (H _ Hc). simpl in H.
  destruct (c_fill c); [| congruence]. simpl in H.
  apply declared_header_atb_spec, H.
Qed.

Lemma widths_setb_spec (letters : list string) (w : Z) (sh : sheet) :
  widths_setb letters w sh = true -> widths_set letters w sh.
Proof.
  unfold widths_setb, widths_set. intros H.
  apply andb_true_iff in H as [Hset Honly].
  rewrite forallb_forall in Hset, Honly. split.
  - intros letter Hin. specialize (Hset letter Hin).
    apply bool_decide_eq_true in Hset. exact Hset.
  - intros letter Hout.
    destruct (column_widths sh !! letter) as [w' |] eqn:Hl; [| reflexivity].
    exfalso. apply Hout.
    apply elem_of_map_to_list, list_elem_of_In in Hl.
    specialize (Honly _ Hl). simpl in Honly.
    apply existsb_exists in Honly as (l' & Hin & Heq).
    apply String.eqb_eq in Heq. subst l'. exact Hin.
Qed.

(** X15: the rows of column headers.  In the sheets that a run leaves,
    each row of column headers that the source declares is there, one
    cell per header from column 1 on, each with its text, the header font
    of its workbook and the grey fill; and no other cell of any sheet has
    a fill, so the fill tells the column headers from the section
    headers and the labels. *)
Theorem header_rows_are_styled `{G : RandomGen} (dir : string) (s0 : rng) :
  Forall (header_row_written (generated_sheets dir s0)) declared_headers /\
  fills_are_headers (generated_sheets dir s0).
Proof.
  split.
  - apply (forallb_Forall (header_row_writtenb (generated_sheets dir s0))).
    + intros d. apply header_row_writtenb_spec.
    + vm_compute. reflexivity.
  - apply fills_are_headersb_spec. vm_compute. reflexivity.
Qed.

(** X16: the column widths.  Every sheet of the financial model has
    the width 20 on the columns A to D, every sheet of the data analysis
    the width 18 on A to E, every sheet of the inventory the width 15 on
    A to J, and no sheet has a width on any other column. *)
Theorem column_widths_are_set `{G : RandomGen} (dir : string) (s0 : rng) :
  Forall (fun fts : string * string * sheet =>
            widths_set (fst (declared_widths (fst (fst fts))))
              (snd (declared_widths (fst (fst fts)))) (snd fts))
    (generated_sheets dir s0).
Proof.
  apply (forallb_Forall
    (fun fts : string * string * sheet =>
       widths_setb (fst (declared_widths (fst (fst fts))))
         (snd (declared_widths (fst (fst fts)))) (snd fts))).
  - intros fts. apply widths_setb_spec.
  - vm_compute. reflexivity.
Qed.

(** ** The generated data and the formulas *)

(** X10: the transactions that [create_inventory_tracking] generates
    (lines 414-446).  From any state of the random stream the generation
    ends normally with 55 records: first one record of initial stock for
    each of the five SKUs, in their order, an incoming quantity between
    100 and 300 under the reference PO-2024-001; then the fifty random
    transactions, number [i] dated [i // 2] days after the first of
    January, for one of the five SKUs, either outgoing with a quantity
    between 5 and 50, the sales order of number [i + 1] and the note
    Customer order, or incoming with a quantity between 50 and 200, the
    purchase order of number [i // 10 + 2] and the note Restock. *)
Theorem generated_transactions `{G : RandomGen} (s : rng) :
  exists initial random s',
    Inventory.gen_trans_data s = (Ok (initial ++ random), s') /\
    Forall2 initial_stock_record stocked_skus initial /\
    Forall2 transaction_record (range 0 50) random /\
    length (initial ++ random) = 55%nat.
Proof.
  destruct (gen_trans_data_spec s) as (initial & random & s' & Hrun & Hi & Hr).
  exists initial, random, s'. split; [exact Hrun |]. split; [exact Hi |].
  split; [exact Hr |].
  rewrite length_app.
  rewrite <- (Forall2_length _ _ _ Hi), <- (Forall2_length _ _ _ Hr). reflexivity.
Qed.

(** X11: the Transactions sheet (lines 405-450).  Whatever the state
    [s] of the random stream that the inventory is generated from, the
    workbook has a Transactions sheet with the seven column headers in
    row 1, a stock movement in each of the rows 2 to 56 (a date, one of
    the five SKUs, IN or OUT, a quantity between 5 and 50 when outgoing
    and between 50 and 300 when incoming, the unit price 0, a reference
    and a note, in the columns 1 to 7), no cell below row 56, and no
    formula anywhere. *)
Theorem transactions_sheet_rows `{G : RandomGen} (s : rng) :
  exists transactions,
    wb_sheet "Transactions" (inventory_wb s) = Some transactions /\
    (forall (k : nat) h, Inventory.trans_headers !! k = Some h ->
       cells transactions !! (1, 1 + Z.of_nat k) = Some (header_cell h)) /\
    (forall row, 2 <= row <= 56 -> movement_row transactions row) /\
    (forall row col, 57 <= row -> cells transactions !! (row, col) = None) /\
    plain_cells transactions.
Proof.
  destruct (transactions_rows s) as (t & Ht & Hhead & Hrows & Hbelow).
  destruct (transactions_plain s) as (t' & Ht' & Hplain).
  assert (E : t' = t) by congruence. subst t'.
  exists t. auto.
Qed.

(** X12: the RawData sheet (lines 219-238).  The data analysis
    workbook has a RawData sheet with the five column headers in row 1
    and a row of sample data in each of the rows 2 to 101: an amount
    between 800 and 4500, one of the four regions, one of the three
    products, the date [row - 2] days after the first of January 2024,
    and the customer number of the row; the customer numbers of
    different rows differ; there is no cell below row 101 and no formula
    anywhere. *)
Theorem raw_data_sheet `{G : RandomGen} :
  exists raw_data,
    wb_sheet "RawData" data_analysis_wb = Some raw_data /\
    (forall (k : nat) h, DataAnalysis.headers !! k = Some h ->
       cells raw_data !! (1, 1 + Z.of_nat k) = Some (header_cell h)) /\
    (forall row, 2 <= row <= 101 -> raw_data_row raw_data row) /\
    (forall row row', 2 <= row <= 101 -> 2 <= row' <= 101 ->
       cell_value raw_data row 5 = cell_value raw_data row' 5 -> row = row') /\
    (forall row col, 102 <= row -> cells raw_data !! (row, col) = None) /\
    plain_cells raw_data.
Proof.
  destruct (raw_data_rows_from (rng_seed 42)) as (raw & s' & Hrun & Hrows & Hframe).
  pose proof (populate_raw_data_eq (rng_seed 42) s' raw Hrun) as Hraw.
  destruct raw_data_sheet_rows as (raw' & Hsh & Hhead & Hrows' & Hbelow).
  assert (E : raw' = DataAnalysis.adjust_widths raw).
  { rewrite (data_analysis_wb_raw_data s' raw Hraw) in Hsh. congruence. }
  exists raw'. split; [exact Hsh |]. split; [exact Hhead |]. split; [exact Hrows' |].
  split; [| split; [exact Hbelow |]].
  - intros row row' Hrow Hrow' Heq.
    destruct (Hrows' row Hrow) as (_ & _ & _ & _ & _ & _ & _ & _ & _ & _ & H5).
    destruct (Hrows' row' Hrow') as (_ & _ & _ & _ & _ & _ & _ & _ & _ & _ & H5').
    rewrite H5, H5' in Heq. injection Heq as Heq.
    apply (fmt_0d_inj 3 (row - 1) (row' - 1)) in Heq; lia.
  - subst raw'. intros r c v Hc.
    apply (raw_data_plain raw Hrows Hframe r c v). exact Hc.
Qed.

(** X13: numbers padded with zeros (lines 238 and 436, [f'{n:03d}']).
    The text of a number that is not negative, padded to any width,
    consists of digits, is at least as long as the width, and reads back
    as the number; so different numbers give different texts. *)
Theorem padded_number_reads_back (w : nat) (n m : Z) :
  0 <= n -> 0 <= m ->
  digits_only (fmt_0d w n) = true /\
  int_go (fmt_0d w n) 0 = n /\
  (w <= String.length (fmt_0d w n))%nat /\
  (fmt_0d w n = fmt_0d w m -> n = m).
Proof.
  intros Hn Hm. destruct (fmt_0d_spec w n Hn) as (Hdo & Hint & Hlen).
  split; [exact Hdo |]. split; [exact Hint |]. split; [exact Hlen |].
  apply (fmt_0d_inj w n m Hn Hm).
Qed.

Lemma padded_number_reads_back_witness :
  0 <= 7 /\ 0 <= 42 /\
  digits_only (fmt_0d 3 7) = true /\
  int_go (fmt_0d 3 7) 0 = 7 /\
  (3 <= String.length (fmt_0d 3 7))%nat /\
  (fmt_0d 3 7 = fmt_0d 3 42 -> 7 = 42).
Proof.
  split; [lia |]. split; [lia |].
  apply (padded_number_reads_back 3 7 42); lia.
Defined.

(** X14: what the formulas refer to.  In each of the three workbooks
    that a run saves, and in the inventory generated from any state of
    the random stream, every cell that holds a formula holds a
    well-formed one, and every reference in it resolves in its own
    workbook: the sheet that it names, or the sheet of the formula when
    it names none, is a sheet of that workbook, and every cell that it
    names, one by one or in a rectangle, has been written there. *)
Theorem formulas_refer_to_written_cells `{G : RandomGen} (dir : string) (s0 s : rng) :
  (forall d file wb, In (d, file, wb) (saved (snd (run dir s0))) ->
     formulas_resolved wb) /\
  formulas_resolved (inventory_wb s).
Proof.
  split; [| apply inventory_formulas_resolved].
  intros d file wb Hin. rewrite run_spec in Hin.
  cbv [snd saved] in Hin.
  destruct Hin as [E | [E | [E | []]]]; apply pair_snd_eq in E; rewrite <- E.
  - apply financial_formulas_resolved.
  - apply data_analysis_formulas_resolved.
  - apply inventory_formulas_resolved.
Qed.

(** ** The status formula of CurrentInventory *)

Import Formula Eval.

Section EvalFacts.
Context {N : Numbers}.

Lemma eval_str (f : nat) (wb : workbook) (cur s : string) :
  eval (S f) wb cur (EStr s) = Some (XStr s).
Proof. reflexivity. Qed.

Lemma eval_cell (f : nat) (wb : workbook) (cur : string) (sh : option string) (r c : Z) :
  eval (S f) wb cur (ERef sh (RCell r c)) =
    cell_eval (eval f wb) wb (default cur sh) r c.
Proof. reflexivity. Qed.

Lemma eval_bin (f : nat) (wb : workbook) (cur : string) (op : binop) (a b : expr) :
  eval (S f) wb cur (EBin op a b) =
    match eval f wb cur a, eval f wb cur b with
    | Some va, Some vb => eval_binop op va vb
    | _, _ => None
    end.
Proof. reflexivity. Qed.

Lemma eval_call (f : nat) (wb : workbook) (cur g : string) (args : list expr) :
  eval (S f) wb cur (ECall g args) = call (eval f wb) wb cur g args.
Proof. reflexivity. Qed.

Lemma call_if (ev : string -> expr -> option xval) (wb : workbook) (cur : string)
    (c t e : expr) (b : bool) :
  ev cur c = Some (XBool b) ->
  call ev wb cur "IF" [c; t; e] = if b then ev cur t else ev cur e.
Proof. intros H. unfold call. simpl. rewrite H. destruct b; reflexivity. Qed.

(** A formula [IF(a<=b*k, s1, IF(a<=b, s2, s3))] over numbers [a], [b]
    and [k] has one of the three texts as its value. *)
Lemma if_le_chain (wb : workbook) (cur : string) (f : nat) (a b k : expr)
    (s1 s2 s3 : string) (xa xa' xb xk : num) :
  eval (S (S f)) wb cur a = Some (XNum xa) ->
  eval (S f) wb cur a = Some (XNum xa') ->
  eval (S f) wb cur b = Some (XNum xb) ->
  eval (S f) wb cur k = Some (XNum xk) ->
  exists s,
    eval (S (S (S (S f)))) wb cur
      (ECall "IF" [ EBin Le a (EBin Mul b k); EStr s1;
                    ECall "IF" [EBin Le a b; EStr s2; EStr s3] ]) = Some (XStr s) /\
    In s [s1; s2; s3].
Proof.
  intros Ha Ha' Hb Hk.
  rewrite eval_call.
  rewrite (call_if _ wb cur _ _ _ (num_leb xa (num_mul xb xk))).
  2:{ rewrite eval_bin, Ha, eval_bin, Hb, Hk. reflexivity. }
  destruct (num_leb xa (num_mul xb xk)).
  - exists s1. rewrite eval_str. split; [reflexivity | simpl; auto].
  - rewrite eval_call.
    rewrite (call_if _ wb cur _ _ _ (num_leb xa' xb)).
    2:{ rewrite eval_bin, Ha', Hb. reflexivity. }
    destruct (num_leb xa' xb).
    + exists s2. rewrite eval_str. split; [reflexivity | simpl; auto].
    + exists s3. rewrite eval_str. split; [reflexivity | simpl; auto].
Qed.

(** *** Sums over columns of plain cells *)

Lemma cell_eval_plain (ev : string -> expr -> option xval) (wb : workbook)
    (name : string) (sh : sheet) (r c : Z) :
  wb_sheet name wb = Some sh -> plain_cells sh ->
  readable (cell_eval ev wb name r c).
Proof.
  intros Hsh Hplain. unfold cell_eval, readable. rewrite Hsh.
  destruct (cell_value sh r c) as [[| s | n | x] |] eqn:E.
  - eexists. split; [reflexivity | discriminate].
  - rewrite (Hplain r c s E). eexists. split; [reflexivity | discriminate].
  - eexists. split; [reflexivity | discriminate].
  - eexists. split; [reflexivity | discriminate].
  - eexists. split; [reflexivity | discriminate].
Qed.

Lemma criteria_met_some (cell : string -> Z -> Z -> option xval)
    (crits : list (string * Z * xval)) (r : Z) :
  Forall (fun nc => readable (cell (fst (fst nc)) r (snd (fst nc))) /\
                    is_Some (criterion (snd nc))) crits ->
  is_Some (criteria_met cell crits r).
Proof.
  induction crits as [| [[name col] crit] crits IH]; intros H; simpl.
  - eauto.
  - apply Forall_cons in H as [[(v & Hv & _) [p Hp]] Hrest].
    simpl in Hv, Hp. rewrite Hv, Hp.
    destruct (IH Hrest) as [b Hb]. rewrite Hb. eauto.
Qed.

Lemma sumifs_rows_some (cell : string -> Z -> Z -> option xval)
    (sum : string * Z) (crits : list (string * Z * xval)) (rows : list Z) :
  (forall r, readable (cell (fst sum) r (snd sum))) ->
  (forall r, Forall (fun nc => readable (cell (fst (fst nc)) r (snd (fst nc))) /\
                               is_Some (criterion (snd nc))) crits) ->
  is_Some (sumifs_rows cell sum crits rows).
Proof.
  intros Hsum Hcrits. induction rows as [| r rows IH]; simpl.
  - eauto.
  - assert (Ht : is_Some (sumifs_term cell sum crits r)).
    { unfold sumifs_term.
      destruct (criteria_met_some cell crits r (Hcrits r)) as [b Hb]. rewrite Hb.
      destruct b; [| eauto].
      destruct (Hsum r) as (v & Hv & Hne). rewrite Hv.
      destruct v; eauto. exfalso. apply (Hne e). reflexivity. }
    destruct Ht as [t Ht]. rewrite Ht.
    destruct IH as [rest Hrest]. rewrite Hrest. eauto.
Qed.

(** [SUMIFS] of a column of a sheet without formulas, under two criteria
    on columns of the same sheet, is a number. *)
Lemma sumifs_numeric (f : nat) (wb : workbook) (cur name : string) (sh : sheet)
    (csum c1 c2 : Z) (k1 k2 : expr) (v1 v2 : xval) :
  wb_sheet name wb = Some sh -> plain_cells sh ->
  eval f wb cur k1 = Some v1 -> is_Some (criterion v1) ->
  eval f wb cur k2 = Some v2 -> is_Some (criterion v2) ->
  exists x,
    eval (S f) wb cur
      (ECall "SUMIFS" [ ERef (Some name) (RCols csum csum);
                        ERef (Some name) (RCols c1 c1); k1;
                        ERef (Some name) (RCols c2 c2); k2 ]) = Some (XNum x).
Proof.
  intros Hsh Hplain Hk1 Hp1 Hk2 Hp2.
  rewrite eval_call. unfold call.
  change (String.eqb "SUMIFS" "IF") with false.
  change (String.eqb "SUMIFS" "SUMIFS") with true.
  cbv iota. rewrite Z.eqb_refl. simpl default. rewrite Hsh.
  simpl sumifs_criteria. rewrite !Z.eqb_refl, Hk1, Hk2.
  destruct (sumifs_rows_some (cell_eval (eval f wb) wb) (name, csum)
              [(name, c1, v1); (name, c2, v2)] (seqZ 1 (max_row_of sh))) as [x Hx].
  - intros r. apply (cell_eval_plain _ wb name sh r csum Hsh Hplain).
  - intros r. repeat constructor; simpl; try assumption;
      apply (cell_eval_plain _ wb name sh r _ Hsh Hplain).
  - rewrite Hx. eauto.
Qed.

End EvalFacts.

(** *** The cells that the status formula reads *)

Lemma cell_eval_formula (N : Numbers) (ev : string -> expr -> option xval) (wb : workbook)
    (name : string) (row col : Z) (e : expr) :
  cell_formula wb name row col = Some e -> cell_eval ev wb name row col = ev name e.
Proof.
  unfold cell_formula, cell_eval. intros H.
  destruct (wb_sheet name wb) as [sh |]; [| discriminate].
  destruct (cell_value sh row col) as [[| s | |] |]; try discriminate.
  destruct (is_formula s); [| discriminate]. rewrite H. reflexivity.
Qed.

Section Cells.
Context {G : RandomGen}.

Lemma status_cell (s : rng) (r : Z) :
  In r inventory_rows ->
  cell_formula (inventory_wb s) "CurrentInventory" r 4 = Some (status_formula r).
Proof.
  intros Hr. vm_compute in Hr.
  repeat (destruct Hr as [<- | Hr]; [vm_compute; reflexivity |]). destruct Hr.
Qed.

Lemma stock_cell (s : rng) (r : Z) :
  In r inventory_rows ->
  cell_formula (inventory_wb s) "CurrentInventory" r 2 = Some (stock_formula r).
Proof.
  intros Hr. vm_compute in Hr.
  repeat (destruct Hr as [<- | Hr]; [vm_compute; reflexivity |]). destruct Hr.
Qed.

End Cells.

Lemma sku_cell (N : Numbers) (G : RandomGen) (ev : string -> expr -> option xval)
    (s : rng) (r : Z) :
  In r inventory_rows ->
  exists sku,
    cell_eval ev (inventory_wb s) "CurrentInventory" r 1 = Some (XStr sku) /\
    plain_text sku = true.
Proof.
  intros Hr. vm_compute in Hr.
  repeat (destruct Hr as [<- | Hr];
          [eexists; split; [vm_compute; reflexivity | reflexivity] |]).
  destruct Hr.
Qed.

Lemma critical_level_cell (N : Numbers) (G : RandomGen)
    (ev : string -> expr -> option xval) (s : rng) :
  exists x, cell_eval ev (inventory_wb s) "Settings" 9 2 = Some (XNum x).
Proof. eexists. vm_compute. reflexivity. Qed.

Lemma reorder_point_cell (N : Numbers) (G : RandomGen) (s : rng) (r : Z) :
  In r inventory_rows ->
  exists x, eval 29 (inventory_wb s) "CurrentInventory" (ERef None (RCell r 3)) =
            Some (XNum x).
Proof.
  intros Hr. vm_compute in Hr.
  destruct N as [num ofd add sub mul div iszero leb eqb law].
  pose proof (law 365 ltac:(discriminate)) as H365.
  repeat (destruct Hr as [<- | Hr];
          [vm_compute; rewrite H365; eexists; reflexivity |]).
  destruct Hr.
Qed.

Section Status.
Context {N : Numbers} {G : RandomGen}.

Lemma sumifs_transactions_numeric (s : rng) (r : Z) (kind : string) (f : nat) :
  In r inventory_rows -> plain_text kind = true ->
  exists x,
    eval (S (S f)) (inventory_wb s) "CurrentInventory" (sumifs_transactions r kind) =
    Some (XNum x).
Proof.
  intros Hr Hkind.
  destruct (transactions_plain s) as (t & Ht & Hplain).
  destruct (sku_cell N G (eval f (inventory_wb s)) s r Hr) as (sku & Hsku & Hp).
  apply (sumifs_numeric (S f) (inventory_wb s) "CurrentInventory" "Transactions" t
           4 2 3 (ERef None (RCell r 1)) (EStr kind) (XStr sku) (XStr kind) Ht Hplain).
  - rewrite eval_cell. exact Hsku.
  - simpl. rewrite Hp. eauto.
  - apply eval_str.
  - simpl. rewrite Hkind. eauto.
Qed.

Lemma stock_cell_numeric (s : rng) (r : Z) (f : nat) :
  In r inventory_rows ->
  exists x,
    eval (S (S (S (S f)))) (inventory_wb s) "CurrentInventory" (ERef None (RCell r 2)) =
    Some (XNum x).
Proof.
  intros Hr.
  rewrite eval_cell. simpl default.
  rewrite (cell_eval_formula N _ _ _ _ _ _ (stock_cell s r Hr)).
  unfold stock_formula. rewrite eval_bin.
  destruct (sumifs_transactions_numeric s r "IN" f Hr eq_refl) as [x Hx].
  destruct (sumifs_transactions_numeric s r "OUT" f Hr eq_refl) as [y Hy].
  rewrite Hx, Hy. eexists. reflexivity.
Qed.

Lemma status_shown (s : rng) (r : Z) :
  In r inventory_rows ->
  exists status,
    shown (inventory_wb s) "CurrentInventory" r 4 = Some (XStr status) /\
    In status ["CRITICAL"; "REORDER"; "OK"].
Proof.
  intros Hr. unfold shown.
  rewrite (cell_eval_formula N _ _ _ _ _ _ (status_cell s r Hr)).
  destruct (stock_cell_numeric s r 26 Hr) as [xa Ha].
  destruct (stock_cell_numeric s r 25 Hr) as [xa' Ha'].
  destruct (reorder_point_cell N G s r Hr) as [xb Hb].
  destruct (critical_level_cell N G (eval 28 (inventory_wb s)) s) as [xk Hk].
  apply (if_le_chain (inventory_wb s) "CurrentInventory" 28
           (ERef None (RCell r 2)) (ERef None (RCell r 3))
           (ERef (Some "Settings") (RCell 9 2))
           "CRITICAL" "REORDER" "OK" xa xa' xb xk Ha Ha' Hb).
  rewrite eval_cell. exact Hk.
Qed.

End Status.

Lemma in_inventory_rows (row : Z) : 2 <= row <= 6 -> In row inventory_rows.
Proof.
  intros H. apply list_elem_of_In. unfold inventory_rows. apply elem_of_seqZ. lia.
Qed.

Lemma saved_inventory `{G : RandomGen} (dir : string) (s0 : rng) :
  saved_workbook "inventory-tracking.xlsx" (saved (snd (run dir s0))) =
  Some (inventory_wb state_after_data_analysis).
Proof. rewrite run_spec. reflexivity. Qed.

(** X17: the status formula of CurrentInventory shows one of the three
    status texts.  In the inventory workbook, generated from any state of
    the random stream, each of the rows 2 to 6 that the loop of line 485
    fills has in column 4 a formula whose value, once the formulas of the
    workbook are evaluated, is "CRITICAL", "REORDER" or "OK": the stock of
    column 2 is a difference of two [SUMIFS] over the Transactions sheet,
    which holds no formula and no error whatever was drawn, the reorder
    point of column 3 is looked up in Products, and the threshold is the
    number in Settings!B9.  The same holds of the workbook that a full
    run saves. *)
Theorem status_formula_shows_a_status `{N : Numbers} `{G : RandomGen}
    (dir : string) (s0 s : rng) (row : Z) :
  2 <= row <= 6 ->
  (exists status,
     shown (inventory_wb s) "CurrentInventory" row 4 = Some (XStr status) /\
     In status ["CRITICAL"; "REORDER"; "OK"]) /\
  (exists wb status,
     saved_workbook "inventory-tracking.xlsx" (saved (snd (run dir s0))) = Some wb /\
     shown wb "CurrentInventory" row 4 = Some (XStr status) /\
     In status ["CRITICAL"; "REORDER"; "OK"]).
Proof.
  intros Hrow. split.
  - exact (status_shown s row (in_inventory_rows row Hrow)).
  - destruct (status_shown state_after_data_analysis row (in_inventory_rows row Hrow))
      as (status & Hshown & Hin).
    exists (inventory_wb state_after_data_analysis), status.
    split; [apply saved_inventory |]. split; [exact Hshown | exact Hin].
Qed.

Lemma status_formula_shows_a_status_witness :
  2 <= 2 <= 6 /\
  (exists status,
     shown (N := Qnumbers) (inventory_wb (G := lcg) 12345) "CurrentInventory" 2 4 =
       Some (XStr status) /\
     In status ["CRITICAL"; "REORDER"; "OK"]).
Proof.
  split; [lia |].
  apply (status_formula_shows_a_status (N := Qnumbers) (G := lcg) "examples" 0 12345 2).
  lia.
Defined.
